(** * InsuranceLake ETL: the CDK pipeline stack

    A shallow embedding of [lib/stacks/pipeline_stack.py]: the
    [PipelineStack] constructor, [create_environment_pipeline],
    [get_codepipeline_source] and [get_artifact_bucket].

    The program builds a tree of resource declarations by calling the AWS
    CDK.  The tree is the state; every CDK call of the source is an action
    of a state-and-exception monad on that tree.  Python exceptions do not
    roll the tree back, so an action returns its state also when it raises.

    The CDK is not among the sources.  What is embedded of it is the
    construct tree: a construct is registered under its scope when it is
    created, identifiers are unique per scope, a child is found by its
    identifier; and the rule by which a [codepipeline.Pipeline] creates
    support stacks under the App for the actions attached to it.  What the
    library decides beyond that is a parameter, [Library]: which arguments
    a call refuses, and which stages and actions [build_pipeline] derives.
    Every theorem holds whatever these decisions are; what a theorem needs
    of them it states as a hypothesis; the witnesses and the examples are
    evaluated with a sample, [sample_library].  The cdk-nag aspects and
    suppressions, which add metadata only, are outside the embedding.
    Stacks are created with an explicit [env], as in every call of the
    repository.

    [lib.configuration] and [lib.stages.pipeline_deploy_stage] are not
    among the sources either: the constants and the outcome of the lookups
    of the former, and the stacks and assets of the deploy stage of the
    latter, are parameters. *)

From Stdlib Require Import String Ascii List Bool Arith Lia.
From stdpp Require Import base option list strings gmap pretty.

Open Scope string_scope.
Open Scope list_scope.

(** ** Python values and exceptions *)

(** The values a configuration mapping holds. *)
Inductive pyval : Type :=
  | PyNone
  | PyStr (s : string)
  | PyBool (b : bool).

(** Truth value of an object as tested by [if]. *)
Definition truthy (v : pyval) : bool :=
  match v with
  | PyNone => false
  | PyStr s => negb (String.eqb s "")
  | PyBool b => b
  end.

(** [str(v)], as used by an f-string replacement field. *)
Definition py_str (v : pyval) : string :=
  match v with
  | PyNone => "None"
  | PyStr s => s
  | PyBool true => "True"
  | PyBool false => "False"
  end.

Definition lower_ascii (c : ascii) : ascii :=
  let n := nat_of_ascii c in
  if (65 <=? n)%nat && (n <=? 90)%nat then ascii_of_nat (n + 32) else c.

(** [str.lower] on the ASCII range. *)
Fixpoint lower (s : string) : string :=
  match s with
  | EmptyString => EmptyString
  | String c r => String (lower_ascii c) (lower r)
  end.

Inductive exn : Type :=
  | KeyError (key : string)
  | AttributeError (msg : string)
  | ConfigurationError (msg : string)
  | JsiiError (msg : string).

(** A configuration mapping: a dict of dicts, subscripted with [m[k1][k2]]. *)
Abbreviation Mappings := (gmap string (gmap string pyval)).

(** ** State and exceptions *)

Definition M (St A : Type) : Type := St -> (exn + A) * St.

Definition ret {St A} (a : A) : M St A := fun s => (inr a, s).

Definition raise {St A} (e : exn) : M St A := fun s => (inl e, s).

Definition bind {St A B} (m : M St A) (k : A -> M St B) : M St B :=
  fun s =>
    match m s with
    | (inl e, s') => (inl e, s')
    | (inr a, s') => k a s'
    end.

Definition get {St} : M St St := fun s => (inr s, s).

Definition modify {St} (f : St -> St) : M St unit := fun s => (inr tt, f s).

Declare Scope cdk_scope.
Delimit Scope cdk_scope with cdk.
Notation "x <- m ;; k" := (bind m (fun x => k))
  (at level 100, m at next level, right associativity) : cdk_scope.
Notation "m ;;; k" := (bind m (fun _ => k))
  (at level 100, right associativity) : cdk_scope.
Open Scope cdk_scope.

(** The outcome of a call that does not touch the state. *)
Definition lift {St A} (r : exn + A) : M St A :=
  match r with
  | inl e => raise e
  | inr a => ret a
  end.

(** [for x in l: body x] *)
Fixpoint for_each {St A} (l : list A) (body : A -> M St unit) : M St unit :=
  match l with
  | [] => ret tt
  | x :: r => body x ;;; for_each r body
  end.

(** [d[k]] on a dict: [KeyError] when the key is missing. *)
Definition subscript {St V} (d : gmap string V) (k : string) : M St V :=
  match d !! k with
  | Some v => ret v
  | None => raise (KeyError k)
  end.

(** ** The CDK resource declarations the stack uses *)

Module cdk.
Inductive RemovalPolicy : Type :=
  | DESTROY | RETAIN | SNAPSHOT | RETAIN_ON_UPDATE_OR_DELETE.

(** [cdk.Environment] *)
Record Environment : Type := { account : string; region : string }.
End cdk.

Module logs.
Inductive RetentionDays : Type :=
  | ONE_DAY | ONE_WEEK | ONE_MONTH | THREE_MONTHS | SIX_MONTHS
  | ONE_YEAR | INFINITE.

Record LogGroup : Type := {
  log_group_name : string;
  removal_policy : cdk.RemovalPolicy;
  retention : RetentionDays;
}.
End logs.

Module kms.
(** The key a KMS-encrypted bucket creates for itself; the field is the
    property of its [CfnKey], unset until something assigns it. *)
Record Key : Type := { enable_key_rotation : option bool }.
End kms.

Module s3.
Inductive BucketAccessControl : Type :=
  | PRIVATE | PUBLIC_READ | PUBLIC_READ_WRITE | AUTHENTICATED_READ
  | LOG_DELIVERY_WRITE.
Inductive BlockPublicAccess : Type := BLOCK_ALL | BLOCK_ACLS.
Inductive BucketEncryption : Type :=
  | UNENCRYPTED | KMS_MANAGED | S3_MANAGED | KMS.
Inductive ObjectOwnership : Type :=
  | BUCKET_OWNER_ENFORCED | BUCKET_OWNER_PREFERRED | OBJECT_WRITER.

(** [s3.CfnBucket.LoggingConfigurationProperty] *)
Record LoggingConfigurationProperty : Type := { log_file_prefix : string }.

(** The keyword arguments of [s3.Bucket(...)] that the stack passes. *)
Record BucketProps : Type := {
  bucket_name : string;
  access_control : BucketAccessControl;
  block_public_access : BlockPublicAccess;
  enforce_ssl : bool;
  bucket_key_enabled : bool;
  encryption : BucketEncryption;
  public_read_access : bool;
  removal_policy : cdk.RemovalPolicy;
  versioned : bool;
  object_ownership : ObjectOwnership;
}.

(** A bucket declaration: the properties it was constructed with, the
    removal policy in force on its [CfnBucket], the key it owns, and what
    is set on the [CfnBucket] through escape hatches. *)
Record Bucket : Type := {
  props : BucketProps;
  applied_removal_policy : cdk.RemovalPolicy;
  encryption_key : option kms.Key;
  logging_configuration : option LoggingConfigurationProperty;
  property_overrides : list (string * string);
}.
End s3.

Module iam.
Inductive Effect : Type := ALLOW | DENY.

Record PolicyStatement : Type := {
  sid : option string;
  effect : Effect;
  actions : list string;
  resources : list string;
  conditions : list (string * list (string * string));
}.
End iam.

Module codebuild.
Inductive LinuxBuildImage : Type :=
  | STANDARD_5_0 | STANDARD_6_0 | STANDARD_7_0.

Record BuildEnvironment : Type := {
  build_image : LinuxBuildImage;
  privileged : bool;
}.

(** A [PipelineProject]: its name and the install and build phases of
    its buildspec. *)
Record PipelineProject : Type := {
  project_name : string;
  install_commands : list string;
  build_commands : list string;
}.
End codebuild.

Module codepipeline.
Inductive PipelineType : Type := V1 | V2.
Inductive ExecutionMode : Type := SUPERSEDED | QUEUED | PARALLEL.
Inductive ActionCategory : Type :=
  | SOURCE | BUILD | TEST | DEPLOY | APPROVAL | INVOKE | COMPUTE.

(** [action.action_properties] *)
Record ActionProperties : Type := {
  action_name : string;
  category : ActionCategory;
  provider : string;
  resource : option codebuild.PipelineProject;
  account : option string;
  region : option string;
  role : option string;
  configuration : list (string * string);
}.

Record Action : Type := { action_properties : ActionProperties }.

Record Stage : Type := { stage_name : string; actions : list Action }.

(** The keyword arguments of [codepipeline.Pipeline(...)];
    [artifact_bucket] is the identifier of the bucket construct. *)
Record PipelineProps : Type := {
  pipeline_name : string;
  cross_account_keys : bool;
  pipeline_type : PipelineType;
  execution_mode : ExecutionMode;
  artifact_bucket : string;
}.

Record Pipeline : Type := { props : PipelineProps; stages : list Stage }.
End codepipeline.

Module pipelines.
(** [CodePipelineSource.connection(...)] *)
Record CodePipelineSource : Type := {
  action_name : string;
  repo_string : string;
  branch : string;
  connection_arn : string;
}.

Record ShellStep : Type := {
  id : string;
  input : option CodePipelineSource;
  commands : list string;
}.

Record CodeBuildOptions : Type := {
  build_environment : codebuild.BuildEnvironment;
  role_policy : list iam.PolicyStatement;
}.

(** The keyword arguments of [pipelines.CodePipeline(...)];
    [code_pipeline] is the identifier of the [codepipeline.Pipeline]
    construct it is to fill. *)
Record CodePipelineProps : Type := {
  code_build_defaults : CodeBuildOptions;
  self_mutation : bool;
  synth : ShellStep;
  code_pipeline : string;
}.

(** A [pipelines.CodePipeline] declaration: [waves] holds the
    identifiers of the stages added so far, [created] whether
    [build_pipeline] has taken up the [codepipeline.Pipeline], [built]
    whether it has returned. *)
Record CodePipeline : Type := {
  props : CodePipelineProps;
  waves : list string;
  created : bool;
  built : bool;
}.
End pipelines.

(** ** The parts of the repository the stack imports *)

(** [lib.configuration]: the constants the stack imports and the outcome
    of the three lookups it calls, each of which either raises or returns. *)
Record Configuration : Type := {
  PROD : string;
  TEST : string;
  DEPLOYMENT : string;
  GITHUB_REPOSITORY_NAME : string;
  GITHUB_REPOSITORY_OWNER_NAME : string;
  get_all_configurations : exn + Mappings;
  get_logical_id_prefix : exn + string;
  get_resource_name_prefix : exn + string;
}.

(** [lib.stages.pipeline_deploy_stage.PipelineDeployStage]: a [cdk.Stage]
    placed in an environment.  Its stacks live in the environment of the
    stage; [stacks] names them and [file_assets] holds, for each file asset
    they publish, the commands that publish it. *)
Module PipelineDeployStage.
Record t : Type := {
  target_environment : string;
  env : cdk.Environment;
  stacks : list string;
  file_assets : list (list string);
}.

(** What the stage of a target environment declares. *)
Record Contents : Type := {
  declared_stacks : list string;
  published_file_assets : list (list string);
}.
End PipelineDeployStage.

(** ** What the library decides *)

(** The CDK checks the arguments of a call when the construct is already
    registered under its scope, and it derives the stages and the actions
    of a pipeline from the steps and the stages it was given when
    [build_pipeline] runs.  Neither is code of the repository.  A refusal
    [Some e] is a call that raises [e]; [stage_refused] stands for the
    constructor of [cdk.Stage] and for the body of [PipelineDeployStage];
    [derive_stages] gives, for the identifier of the [pipelines.CodePipeline],
    the identifier and the environment of its stack, its properties and
    its deploy stages, the stages the library attached to the pipeline and
    whether it then returned or raised. *)
Record Library : Type := {
  stack_refused : string -> cdk.Environment -> option exn;
  bucket_refused : string -> s3.BucketProps -> option exn;
  pipeline_refused : string -> codepipeline.PipelineProps -> option exn;
  connection_refused : pipelines.CodePipelineSource -> option exn;
  code_pipeline_refused : string -> pipelines.CodePipelineProps -> option exn;
  stage_refused : string -> PipelineDeployStage.t -> option exn;
  add_stage_refused :
    pipelines.CodePipelineProps -> PipelineDeployStage.t -> option exn;
  derive_stages :
    string -> string -> cdk.Environment -> pipelines.CodePipelineProps ->
    list PipelineDeployStage.t -> (exn + unit) * list codepipeline.Stage;
}.

(** The check a call makes of its arguments. *)
Definition refuse {St} (refusal : option exn) : M St unit :=
  match refusal with
  | Some e => raise e
  | None => ret tt
  end.

(** ** The construct tree *)

Inductive Construct : Type :=
  | Bucket (b : s3.Bucket)
  | Pipeline (p : codepipeline.Pipeline)
  | CodePipeline (p : pipelines.CodePipeline)
  | Stage (s : PipelineDeployStage.t)
  | LogGroup (l : logs.LogGroup).

(** A stack: its environment and its children, in creation order. *)
Record Stack : Type := {
  stack_env : cdk.Environment;
  children : list (string * Construct);
}.

(** The children of the [cdk.App]. *)
Inductive TopLevel : Type :=
  | PipelineStackNode (s : Stack)
  | CrossRegionSupportStack (env : cdk.Environment)
  | CrossAccountSupportStack (account : string).

Abbreviation App := (list (string * TopLevel)).

(** The App while one of its stacks is under construction: the children
    created before the stack, the stack, and the children created after. *)
Record World : Type := {
  earlier : App;
  stack_id : string;
  stack : Stack;
  later : App;
}.

Definition app_of (w : World) : App :=
  earlier w ++ (stack_id w, PipelineStackNode (stack w)) :: later w.

Definition set_children (f : list (string * Construct) -> list (string * Construct))
    (w : World) : World :=
  {| earlier := earlier w; stack_id := stack_id w;
     stack := {| stack_env := stack_env (stack w);
                children := f (children (stack w)) |};
     later := later w |}.

Definition set_later (f : App -> App) (w : World) : World :=
  {| earlier := earlier w; stack_id := stack_id w; stack := stack w;
     later := f (later w) |}.

(** [node.try_find_child] *)
Fixpoint assoc {A} (k : string) (l : list (string * A)) : option A :=
  match l with
  | [] => None
  | (k', a) :: r => if decide (k' = k) then Some a else assoc k r
  end.

(** In-place change of the construct named [k]. *)
Fixpoint update {A} (k : string) (f : A -> A) (l : list (string * A))
    : list (string * A) :=
  match l with
  | [] => []
  | (k', a) :: r =>
      if decide (k' = k) then (k', f a) :: r else (k', a) :: update k f r
  end.

Abbreviation Cdk := (M World).

(** [Construct.__init__(scope, id)] with the stack as scope: identifiers
    are unique under one scope.  The result is the identifier, which
    stands for the reference to the construct. *)
Definition add_child (id : string) (c : Construct) : Cdk string :=
  w <- get ;;
  if decide (id ∈ (children (stack w)).*1)
  then raise (JsiiError ("There is already a Construct with name '" +:+ id +:+ "'"))
  else modify (set_children (fun l => l ++ [(id, c)])) ;;; ret id.

Definition find_child (id : string) : Cdk Construct :=
  w <- get ;;
  match assoc id (children (stack w)) with
  | Some c => ret c
  | None => raise (JsiiError ("No child with id: '" +:+ id +:+ "'"))
  end.

Definition the_bucket (ref : string) : Cdk s3.Bucket :=
  c <- find_child ref ;;
  match c with
  | Bucket b => ret b
  | _ => raise (AttributeError "not a Bucket")
  end.

Definition the_pipeline (ref : string) : Cdk codepipeline.Pipeline :=
  c <- find_child ref ;;
  match c with
  | Pipeline p => ret p
  | _ => raise (AttributeError "not a Pipeline")
  end.

Definition the_code_pipeline (ref : string) : Cdk pipelines.CodePipeline :=
  c <- find_child ref ;;
  match c with
  | CodePipeline p => ret p
  | _ => raise (AttributeError "not a CodePipeline")
  end.

Definition the_stage (ref : string) : Cdk PipelineDeployStage.t :=
  c <- find_child ref ;;
  match c with
  | Stage s => ret s
  | _ => raise (AttributeError "not a Stage")
  end.

Definition set_child (ref : string) (c : Construct) : Cdk unit :=
  modify (set_children (update ref (fun _ => c))).

(** A stack without children, last among the children of its scope. *)
Definition fresh_stack (scope : App) (construct_id : string)
    (env : cdk.Environment) : World :=
  {| earlier := scope; stack_id := construct_id;
     stack := {| stack_env := env; children := [] |}; later := [] |}.


(** [cdk.Stack.__init__(scope, construct_id, env=env)]: the stack becomes
    a child of the App before anything else happens. *)
Definition Stack__init__ (scope : App) (construct_id : string)
    (env : cdk.Environment) : exn + World :=
  if decide (construct_id ∈ scope.*1)
  then inl (JsiiError ("There is already a Construct with name '" +:+ construct_id +:+ "'"))
  else inr (fresh_stack scope construct_id env).

(** ** The CDK calls the stack makes *)

(** [s3.Bucket(self, id, **props)].  A bucket with [BucketEncryption.KMS]
    and no key of its own creates one. *)
Definition s3_Bucket (lib : Library) (id : string) (props : s3.BucketProps)
    : Cdk string :=
  add_child id (Bucket {|
    s3.props := props;
    s3.applied_removal_policy := s3.removal_policy props;
    s3.encryption_key :=
      match s3.encryption props with
      | s3.KMS => Some {| kms.enable_key_rotation := None |}
      | _ => None
      end;
    s3.logging_configuration := None;
    s3.property_overrides := [] |}) ;;;
  refuse (bucket_refused lib id props) ;;;
  ret id.

(** [bucket.apply_removal_policy(policy)] *)
Definition apply_removal_policy (bucket : string) (policy : cdk.RemovalPolicy)
    : Cdk unit :=
  b <- the_bucket bucket ;;
  set_child bucket (Bucket {|
    s3.props := s3.props b;
    s3.applied_removal_policy := policy;
    s3.encryption_key := s3.encryption_key b;
    s3.logging_configuration := s3.logging_configuration b;
    s3.property_overrides := s3.property_overrides b |}).

(** [bucket.node.default_child.logging_configuration = c] *)
Definition set_logging_configuration (bucket : string)
    (c : s3.LoggingConfigurationProperty) : Cdk unit :=
  b <- the_bucket bucket ;;
  set_child bucket (Bucket {|
    s3.props := s3.props b;
    s3.applied_removal_policy := s3.applied_removal_policy b;
    s3.encryption_key := s3.encryption_key b;
    s3.logging_configuration := Some c;
    s3.property_overrides := s3.property_overrides b |}).

(** [bucket.encryption_key.node.default_child.enable_key_rotation = v];
    a bucket without a key has [encryption_key] equal to [None]. *)
Definition set_enable_key_rotation (bucket : string) (v : bool) : Cdk unit :=
  b <- the_bucket bucket ;;
  match s3.encryption_key b with
  | None => raise (AttributeError "'NoneType' object has no attribute 'node'")
  | Some _ =>
      set_child bucket (Bucket {|
        s3.props := s3.props b;
        s3.applied_removal_policy := s3.applied_removal_policy b;
        s3.encryption_key := Some {| kms.enable_key_rotation := Some v |};
        s3.logging_configuration := s3.logging_configuration b;
        s3.property_overrides := s3.property_overrides b |})
  end.

(** [bucket.node.default_child.add_property_override(path, value)] *)
Definition add_property_override (bucket path value : string) : Cdk unit :=
  b <- the_bucket bucket ;;
  set_child bucket (Bucket {|
    s3.props := s3.props b;
    s3.applied_removal_policy := s3.applied_removal_policy b;
    s3.encryption_key := s3.encryption_key b;
    s3.logging_configuration := s3.logging_configuration b;
    s3.property_overrides := s3.property_overrides b ++ [(path, value)] |}).

(** [codepipeline.Pipeline(self, id, **props)]: with an artifact bucket
    given, the pipeline declares no bucket or key of its own. *)
Definition codepipeline_Pipeline (lib : Library) (id : string)
    (props : codepipeline.PipelineProps) : Cdk string :=
  add_child id (Pipeline {| codepipeline.props := props;
                            codepipeline.stages := [] |}) ;;;
  refuse (pipeline_refused lib id props) ;;;
  ret id.

(** [pipelines.CodePipeline(self, id, **props)] *)
Definition pipelines_CodePipeline (lib : Library) (id : string)
    (props : pipelines.CodePipelineProps) : Cdk string :=
  add_child id (CodePipeline {| pipelines.props := props;
                                pipelines.waves := [];
                                pipelines.created := false;
                                pipelines.built := false |}) ;;;
  refuse (code_pipeline_refused lib id props) ;;;
  ret id.

(** [logs.LogGroup(self, id, **props)] *)
Definition logs_LogGroup (id : string) (props : logs.LogGroup) : Cdk string :=
  add_child id (LogGroup props).

(** [pipeline.add_stage(stage)] *)
Definition add_stage (lib : Library) (pipeline stage : string) : Cdk unit :=
  cp <- the_code_pipeline pipeline ;;
  st <- the_stage stage ;;
  if pipelines.built cp
  then raise (JsiiError "addStage: can't add Stages anymore after buildPipeline() has been called")
  else
    match PipelineDeployStage.stacks st with
    | [] => raise (JsiiError "The given Stage construct should contain at least one Stack")
    | _ :: _ =>
        refuse (add_stage_refused lib (pipelines.props cp) st) ;;;
        set_child pipeline (CodePipeline {|
          pipelines.props := pipelines.props cp;
          pipelines.waves := pipelines.waves cp ++ [stage];
          pipelines.created := pipelines.created cp;
          pipelines.built := pipelines.built cp |})
    end.

(** Create the top-level stack [id] unless the App has a child of that
    name already. *)
Definition ensure_top_level (id : string) (node : TopLevel) : Cdk unit :=
  w <- get ;;
  if decide (id ∈ (app_of w).*1) then ret tt
  else modify (set_later (fun l => l ++ [(id, node)])).

(** What [codepipeline.Pipeline] does when an action is attached to one of
    its stages: an action in another region needs the replication bucket
    of a cross-region support stack, one per pipeline account and region;
    an action in another account that brings no role needs a role in a
    cross-account support stack.  An action the pipeline refuses is not
    attached: it is not among the stages of [derive_stages], whose outcome
    is the error. *)
Definition attach_action (a : codepipeline.Action) : Cdk unit :=
  w <- get ;;
  let me := stack_env (stack w) in
  let p := codepipeline.action_properties a in
  match codepipeline.region p with
  | None => ret tt
  | Some r =>
      if decide (r = cdk.region me) then ret tt
      else
        ensure_top_level
          ("cross-region-stack-" +:+ cdk.account me +:+ ":" +:+ r)
          (CrossRegionSupportStack
             {| cdk.account := cdk.account me; cdk.region := r |})
  end ;;;
  match codepipeline.role p, codepipeline.account p with
  | None, Some acc =>
      if decide (acc = cdk.account me) then ret tt
      else ensure_top_level ("cross-account-support-stack-" +:+ acc)
             (CrossAccountSupportStack acc)
  | _, _ => ret tt
  end.

Fixpoint map_m {St A B} (f : A -> M St B) (l : list A) : M St (list B) :=
  match l with
  | [] => ret []
  | x :: r => y <- f x ;; ys <- map_m f r ;; ret (y :: ys)
  end.

(** [pipeline.build_pipeline()]: the [codepipeline.Pipeline] is taken
    up, the stages the library derives are attached to it, action by
    action; the pipeline counts as built when the library has returned. *)
Definition build_pipeline (lib : Library) (pipeline : string) : Cdk unit :=
  cp <- the_code_pipeline pipeline ;;
  if pipelines.built cp
  then raise (JsiiError "build() has already been called: can only call it once")
  else if pipelines.created cp
  then raise (JsiiError "Pipeline already created")
  else
    p <- the_pipeline (pipelines.code_pipeline (pipelines.props cp)) ;;
    set_child pipeline
      (CodePipeline {| pipelines.props := pipelines.props cp;
                       pipelines.waves := pipelines.waves cp;
                       pipelines.created := true;
                       pipelines.built := false |}) ;;;
    deploy <- map_m the_stage (pipelines.waves cp) ;;
    w <- get ;;
    let derived :=
      derive_stages lib pipeline (stack_id w) (stack_env (stack w))
        (pipelines.props cp) deploy in
    for_each derived.2
      (fun st => for_each (codepipeline.actions st) attach_action) ;;;
    set_child (pipelines.code_pipeline (pipelines.props cp))
      (Pipeline {| codepipeline.props := codepipeline.props p;
                   codepipeline.stages := codepipeline.stages p ++ derived.2 |}) ;;;
    lift derived.1 ;;;
    set_child pipeline
      (CodePipeline {| pipelines.props := pipelines.props cp;
                       pipelines.waves := pipelines.waves cp;
                       pipelines.created := true;
                       pipelines.built := true |}).

(** The property [pipeline.pipeline]: available once [build_pipeline]
    has taken up the pipeline. *)
Definition pipeline_pipeline (pipeline : string) : Cdk string :=
  cp <- the_code_pipeline pipeline ;;
  if pipelines.created cp
  then ret (pipelines.code_pipeline (pipelines.props cp))
  else raise (JsiiError "Pipeline not created yet").

(** ** [lib/stacks/pipeline_stack.py] *)

Module PipelineStack.

(** The attributes [__init__] sets on the stack object. *)
Record t : Type := {
  mappings : Mappings;
  logical_id_prefix : string;
  resource_name_prefix : string;
  target_branch : string;
  target_environment : string;
  removal_policy : cdk.RemovalPolicy;
  log_retention : logs.RetentionDays;
}.

Section WithRepository.

Variable lib : Library.
Variable cfg : Configuration.
Variable stage_contents : string -> PipelineDeployStage.Contents.

(** [PipelineDeployStage(self, id, target_environment=..., env=...)] *)
Definition new_PipelineDeployStage (id target_environment : string)
    (env : cdk.Environment) : Cdk string :=
  let stage :=
    {| PipelineDeployStage.target_environment := target_environment;
       PipelineDeployStage.env := env;
       PipelineDeployStage.stacks :=
         PipelineDeployStage.declared_stacks (stage_contents target_environment);
       PipelineDeployStage.file_assets :=
         PipelineDeployStage.published_file_assets
           (stage_contents target_environment) |} in
  add_child id (Stage stage) ;;;
  refuse (stage_refused lib id stage) ;;;
  ret id.

Definition get_artifact_bucket (self : t) : Cdk string :=
  s3_Bucket lib
    (target_environment self +:+ logical_id_prefix self +:+ "EtlPipeline-Artifact")
    {| s3.bucket_name :=
         lower (target_environment self) +:+ "-" +:+ resource_name_prefix self
           +:+ "-etl-pipeline-artifact";
       s3.access_control := s3.PRIVATE;
       s3.block_public_access := s3.BLOCK_ALL;
       s3.enforce_ssl := true;
       s3.bucket_key_enabled := true;
       s3.encryption := s3.KMS;
       s3.public_read_access := false;
       s3.removal_policy := removal_policy self;
       s3.versioned := true;
       s3.object_ownership := s3.OBJECT_WRITER |}.

(** Falls off the end, returning [None], when the repository name is
    not truthy. *)
Definition get_codepipeline_source (self : t)
    : Cdk (option pipelines.CodePipelineSource) :=
  deployment <- subscript (mappings self) (DEPLOYMENT cfg) ;;
  name <- subscript deployment (GITHUB_REPOSITORY_NAME cfg) ;;
  if truthy name then
    deployment <- subscript (mappings self) (DEPLOYMENT cfg) ;;
    owner <- subscript deployment (GITHUB_REPOSITORY_OWNER_NAME cfg) ;;
    deployment <- subscript (mappings self) (DEPLOYMENT cfg) ;;
    name <- subscript deployment (GITHUB_REPOSITORY_NAME cfg) ;;
    let source :=
      {| pipelines.action_name := "Source";
         pipelines.repo_string := py_str owner +:+ "/" +:+ py_str name;
         pipelines.branch := target_branch self;
         pipelines.connection_arn :=
           "arn:aws:codestar-connections:us-east-1:787127824249:connection/ac69c4b3-c806-4b73-9bb8-df7c3a9b6162" |} in
    refuse (connection_refused lib source) ;;;
    ret (Some source)
  else ret None.

(** The body of the loop over the actions of the built pipeline. *)
Definition log_group_for (self : t) (action : codepipeline.Action)
    : Cdk unit :=
  let properties := codepipeline.action_properties action in
  match codepipeline.category properties with
  | codepipeline.BUILD =>
      project <-
        match codepipeline.resource properties with
        | Some project => ret project
        | None =>
            raise (AttributeError "'NoneType' object has no attribute 'project_name'")
        end ;;
      logs_LogGroup
        ("CodeBuildAction" +:+ codepipeline.action_name properties +:+ "LogGroup")
        {| logs.log_group_name :=
             "/aws/codebuild/" +:+ codebuild.project_name project;
           logs.removal_policy := removal_policy self;
           logs.retention := log_retention self |} ;;;
      ret tt
  | _ => ret tt
  end.

(** The local [code_build_env] of [create_environment_pipeline]. *)
Definition code_build_env : codebuild.BuildEnvironment :=
  {| codebuild.build_image := codebuild.STANDARD_7_0;
     codebuild.privileged := false |}.

(** The local [code_build_opt]; [me] is the environment of the stack,
    read through [self.region] and [self.account]. *)
Definition code_build_opt (me : cdk.Environment) : pipelines.CodeBuildOptions :=
  {| pipelines.build_environment := code_build_env;
     pipelines.role_policy :=
       [ {| iam.sid := Some "EtlPipelineSecretsManagerPolicy";
            iam.effect := iam.ALLOW;
            iam.actions := [ "secretsmanager:GetSecretValue" ];
            iam.resources :=
              [ "arn:aws:secretsmanager:" +:+ cdk.region me +:+ ":"
                  +:+ cdk.account me +:+ ":secret:/InsuranceLake/*" ];
            iam.conditions := [] |};
         {| iam.sid := None;
            iam.effect := iam.ALLOW;
            iam.actions := [ "sts:AssumeRole" ];
            iam.resources := [ "*" ];
            iam.conditions :=
              [ ("StringEquals",
                 [ ("iam:ResourceTag/aws-cdk:bootstrap-role", "lookup") ]) ] |} ] |}.

(** The local [synth_step], given what [get_codepipeline_source]
    returned. *)
Definition synth_step (source : option pipelines.CodePipelineSource)
    : pipelines.ShellStep :=
  {| pipelines.id := "Synth";
     pipelines.input := source;
     pipelines.commands :=
       [ "npm install -g aws-cdk";
         "python -m pip install -r requirements.txt --root-user-action=ignore";
         "cdk synth" ] |}.

Definition create_environment_pipeline (self : t)
    (target_environment : string) (target_aws_env : gmap string string)
    : Cdk unit :=
  w <- get ;;
  let code_build_opt := code_build_opt (stack_env (stack w)) in
  artifact_bucket <- get_artifact_bucket self ;;
  code_pipeline <-
    codepipeline_Pipeline lib
      (target_environment +:+ logical_id_prefix self +:+ "EtlPipeline")
      {| codepipeline.pipeline_name :=
           lower target_environment +:+ "-" +:+ resource_name_prefix self
             +:+ "-etl-pipeline";
         codepipeline.cross_account_keys := true;
         codepipeline.pipeline_type := codepipeline.V2;
         codepipeline.execution_mode := codepipeline.QUEUED;
         codepipeline.artifact_bucket := artifact_bucket |} ;;
  source <- get_codepipeline_source self ;;
  let synth_step := synth_step source in
  pipeline <-
    pipelines_CodePipeline lib
      (target_environment +:+ logical_id_prefix self +:+ "EtlCodePipeline")
      {| pipelines.code_build_defaults := code_build_opt;
         pipelines.self_mutation := true;
         pipelines.synth := synth_step;
         pipelines.code_pipeline := code_pipeline |} ;;
  account <- subscript target_aws_env "account" ;;
  region <- subscript target_aws_env "region" ;;
  pipeline_deploy_stage <-
    new_PipelineDeployStage target_environment target_environment
      {| cdk.account := account; cdk.region := region |} ;;
  add_stage lib pipeline pipeline_deploy_stage ;;;
  build_pipeline lib pipeline ;;;
  built <- pipeline_pipeline pipeline ;;
  built_pipeline <- the_pipeline built ;;
  for_each (codepipeline.stages built_pipeline) (fun stage =>
    for_each (codepipeline.actions stage) (log_group_for self)) ;;;
  let bucket := codepipeline.artifact_bucket (codepipeline.props built_pipeline) in
  apply_removal_policy bucket (removal_policy self) ;;;
  set_logging_configuration bucket {| s3.log_file_prefix := "access-logs" |} ;;;
  set_enable_key_rotation bucket true ;;;
  add_property_override bucket "VersioningConfiguration.Status" "Enabled".

Definition __init__ (scope : App)
    (construct_id target_environment target_branch : string)
    (target_aws_env : gmap string string) (env : cdk.Environment)
    : (exn + t) * App :=
  match Stack__init__ scope construct_id env with
  | inl e => (inl e, scope)
  | inr w =>
      let '(outcome, w') :=
        (refuse (stack_refused lib construct_id env) ;;;
         mappings <- lift (get_all_configurations cfg) ;;
         logical_id_prefix <- lift (get_logical_id_prefix cfg) ;;
         resource_name_prefix <- lift (get_resource_name_prefix cfg) ;;
         let self :=
           if bool_decide (target_environment = PROD cfg)
              || bool_decide (target_environment = TEST cfg)
           then {| mappings := mappings;
                   logical_id_prefix := logical_id_prefix;
                   resource_name_prefix := resource_name_prefix;
                   target_branch := target_branch;
                   target_environment := target_environment;
                   removal_policy := cdk.RETAIN;
                   log_retention := logs.SIX_MONTHS |}
           else {| mappings := mappings;
                   logical_id_prefix := logical_id_prefix;
                   resource_name_prefix := resource_name_prefix;
                   target_branch := target_branch;
                   target_environment := target_environment;
                   removal_policy := cdk.DESTROY;
                   log_retention := logs.ONE_MONTH |} in
         create_environment_pipeline self target_environment target_aws_env ;;;
         ret self) w in
      (outcome, app_of w')
  end.

End WithRepository.
End PipelineStack.
(** * Properties *)

(** ** Strings *)

Lemma append_cons (c : ascii) (s t : string) :
  String c s +:+ t = String c (s +:+ t).
Proof. reflexivity. Qed.

Lemma append_nil_l (t : string) : "" +:+ t = t.
Proof. reflexivity. Qed.

Lemma append_length (s t : string) :
  String.length (s +:+ t) = String.length s + String.length t.
Proof.
  induction s as [|c s IH]; [reflexivity|].
  rewrite append_cons. cbn. by rewrite IH.
Qed.

(** A string is not a proper extension of itself. *)
Lemma append_neq_self (s t : string) : t ≠ "" -> s ≠ s +:+ t.
Proof.
  intros Ht Heq. apply (f_equal String.length) in Heq.
  rewrite append_length in Heq. destruct t; [done|]. cbn in Heq. lia.
Qed.

Lemma append_inj_l (s t u : string) : s +:+ u = t +:+ u -> s = t.
Proof.
  revert t. induction s as [|c s IH]; intros [|d t] Heq.
  - reflexivity.
  - apply (f_equal String.length) in Heq.
    rewrite append_nil_l, append_cons in Heq. cbn in Heq.
    rewrite append_length in Heq. lia.
  - apply (f_equal String.length) in Heq.
    rewrite append_nil_l, append_cons in Heq. cbn in Heq.
    rewrite append_length in Heq. lia.
  - rewrite !append_cons in Heq. injection Heq as -> Heq. f_equal. by apply IH.
Qed.

(** The last character, to tell identifiers apart by their endings. *)
Fixpoint last_char (s : string) : option ascii :=
  match s with
  | EmptyString => None
  | String c EmptyString => Some c
  | String _ r => last_char r
  end.

Lemma last_char_append (s t : string) :
  t ≠ "" -> last_char (s +:+ t) = last_char t.
Proof.
  intros Ht. induction s as [|c s IH]; [reflexivity|].
  rewrite append_cons. cbn.
  destruct (s +:+ t) eqn:E; [|exact IH].
  destruct s; [rewrite append_nil_l in E; congruence | discriminate].
Qed.

(** ** The monad *)

Lemma bind_ok {St A B} (m : M St A) (k : A -> M St B) s a s' :
  m s = (inr a, s') -> bind m k s = k a s'.
Proof. intros H. unfold bind. by rewrite H. Qed.

Lemma bind_raise {St A B} (m : M St A) (k : A -> M St B) s e s' :
  m s = (inl e, s') -> bind m k s = (inl e, s').
Proof. intros H. unfold bind. by rewrite H. Qed.

Lemma for_each_app {St A} (l1 l2 : list A) (body : A -> M St unit) s :
  for_each (l1 ++ l2) body s = (for_each l1 body ;;; for_each l2 body) s.
Proof.
  revert s. induction l1 as [|x l1 IH]; intros s; [reflexivity|].
  cbn. unfold bind. destruct (body x s) as [[e|[]] s1]; [reflexivity|].
  rewrite IH. reflexivity.
Qed.

(** A loop over the stages with a loop over their actions inside visits
    the actions of all stages in order. *)
Lemma for_each_nested {St A B} (f : A -> list B) (l : list A)
    (body : B -> M St unit) s :
  for_each l (fun x => for_each (f x) body) s = for_each (flat_map f l) body s.
Proof.
  revert s. induction l as [|x l IH]; intros s; [reflexivity|].
  cbn. rewrite for_each_app. unfold bind.
  destruct (for_each (f x) body s) as [[e|[]] s1]; [reflexivity|]. apply IH.
Qed.

(** ** The construct tree *)

Lemma set_children_set_children f g w :
  set_children f (set_children g w) = set_children (fun l => f (g l)) w.
Proof. reflexivity. Qed.

Lemma add_child_fresh id c w :
  id ∉ (children (stack w)).*1 ->
  add_child id c w = (inr id, set_children (fun l => l ++ [(id, c)]) w).
Proof.
  intros H. unfold add_child, bind, get. by rewrite decide_False.
Qed.

(** ** What the stack declares *)

Definition is_build (a : codepipeline.Action) : bool :=
  match codepipeline.category (codepipeline.action_properties a) with
  | codepipeline.BUILD => true
  | _ => false
  end.

Definition is_source (a : codepipeline.Action) : bool :=
  match codepipeline.category (codepipeline.action_properties a) with
  | codepipeline.SOURCE => true
  | _ => false
  end.

Definition log_group_id (action_name : string) : string :=
  "CodeBuildAction" +:+ action_name +:+ "LogGroup".

(** The log group the stack declares for an action: none unless it is a
    build action, which has a project. *)
Definition log_group_decl (self : PipelineStack.t) (a : codepipeline.Action)
    : option (string * Construct) :=
  let properties := codepipeline.action_properties a in
  if is_build a then
    match codepipeline.resource properties with
    | Some project =>
        Some (log_group_id (codepipeline.action_name properties),
              LogGroup {|
                logs.log_group_name :=
                  "/aws/codebuild/" +:+ codebuild.project_name project;
                logs.removal_policy := PipelineStack.removal_policy self;
                logs.retention := PipelineStack.log_retention self |})
    | None => None
    end
  else None.

Definition has_project (a : codepipeline.Action) : Prop :=
  is_build a = true ->
  is_Some (codepipeline.resource (codepipeline.action_properties a)).

Lemma log_group_for_other self a w :
  is_build a = false -> PipelineStack.log_group_for self a w = (inr tt, w).
Proof.
  unfold is_build, PipelineStack.log_group_for.
  by destruct (codepipeline.category (codepipeline.action_properties a)).
Qed.

Lemma log_group_for_build self a w decl :
  log_group_decl self a = Some decl ->
  decl.1 ∉ (children (stack w)).*1 ->
  PipelineStack.log_group_for self a w
  = (inr tt, set_children (fun l => l ++ [decl]) w).
Proof.
  unfold log_group_decl, is_build, PipelineStack.log_group_for.
  destruct (codepipeline.category (codepipeline.action_properties a)); try done.
  destruct (codepipeline.resource (codepipeline.action_properties a)); [|done].
  intros [= <-] Hfresh. cbn in Hfresh.
  unfold logs_LogGroup.
  rewrite (bind_ok _ _ w p w) by reflexivity.
  erewrite bind_ok; [reflexivity|]. by apply add_child_fresh.
Qed.

Lemma log_group_decl_none self a :
  has_project a -> log_group_decl self a = None -> is_build a = false.
Proof.
  unfold has_project, log_group_decl. destruct (is_build a); [|done].
  intros [p ->]; done.
Qed.

(** The loop over the actions declares, in order, the log group of every
    build action, provided the identifiers are free. *)
Lemma log_group_loop self (acts : list codepipeline.Action) (w : World) :
  Forall has_project acts ->
  NoDup ((children (stack w)).*1 ++ (omap (log_group_decl self) acts).*1) ->
  for_each acts (PipelineStack.log_group_for self) w
  = (inr tt, set_children (fun l => l ++ omap (log_group_decl self) acts) w).
Proof.
  revert w. induction acts as [|a acts IH]; intros w Hres Hnodup.
  - cbn. unfold ret, set_children. destruct w as [e i [me ch] l]; cbn.
    by rewrite app_nil_r.
  - apply Forall_cons in Hres as [Ha Hres].
    assert (omap (log_group_decl self) (a :: acts)
            = match log_group_decl self a with
              | Some decl => decl :: omap (log_group_decl self) acts
              | None => omap (log_group_decl self) acts
              end) as Homap by reflexivity.
    rewrite Homap in *. clear Homap. cbn [for_each].
    destruct (log_group_decl self a) as [decl|] eqn:Hdecl.
    + rewrite fmap_cons in Hnodup.
      erewrite bind_ok; cycle 1.
      { apply log_group_for_build; [done|].
        apply NoDup_app in Hnodup as (_ & Hdisj & _). intros Hin.
        apply (Hdisj _ Hin). left. }
      rewrite IH; [| done |].
      * rewrite set_children_set_children. unfold set_children.
        destruct w as [e i [me ch] l]; cbn. by rewrite <- app_assoc.
      * destruct w as [e i [me ch] l]; cbn in *.
        rewrite fmap_app, <- app_assoc. exact Hnodup.
    + erewrite bind_ok; cycle 1.
      { apply log_group_for_other. by eapply log_group_decl_none. }
      by apply IH.
Qed.

(** ** Support stacks *)

Definition support_id (account region : string) : string :=
  "cross-region-stack-" +:+ account +:+ ":" +:+ region.

(** The App after an action placed in [target] has been attached: when
    the region of [target] is not the region of the pipeline stack, the
    support stack of that region is among the children, created now unless
    it was there. *)
Definition with_support (target : cdk.Environment) (w : World) : World :=
  let me := stack_env (stack w) in
  if decide (cdk.region target = cdk.region me) then w
  else if decide (support_id (cdk.account me) (cdk.region target) ∈ (app_of w).*1)
  then w
  else set_later
         (fun l => l ++ [ (support_id (cdk.account me) (cdk.region target),
                          CrossRegionSupportStack
                            {| cdk.account := cdk.account me;
                               cdk.region := cdk.region target |}) ]) w.

(** The region an action names when it is not the region of the pipeline
    stack. *)
Definition foreign_region (me : cdk.Environment) (a : codepipeline.Action)
    : option string :=
  match codepipeline.region (codepipeline.action_properties a) with
  | Some r => if decide (r = cdk.region me) then None else Some r
  | None => None
  end.

(** An action that names an account brings the role to assume there. *)
Definition brings_its_role (a : codepipeline.Action) : Prop :=
  codepipeline.role (codepipeline.action_properties a) = None ->
  codepipeline.account (codepipeline.action_properties a) = None.

(** The App after the actions [acts] have been attached. *)
Definition attached (acts : list codepipeline.Action) (w : World) : World :=
  (for_each acts attach_action w).2.

Lemma set_later_nil w : set_later (fun l => l ++ []) w = w.
Proof. destruct w. unfold set_later. cbn. by rewrite app_nil_r. Qed.

Lemma set_later_app l1 l2 w :
  set_later (fun l => l ++ l2) (set_later (fun l => l ++ l1) w)
  = set_later (fun l => l ++ l1 ++ l2) w.
Proof. destruct w. unfold set_later. cbn. by rewrite app_assoc. Qed.

(** The support stacks an action needs that are not among the children
    [ids] of the App. *)
Definition region_support (me : cdk.Environment) (ids : list string)
    (a : codepipeline.Action) : App :=
  match foreign_region me a with
  | Some r =>
      if decide (support_id (cdk.account me) r ∈ ids) then []
      else [ (support_id (cdk.account me) r,
              CrossRegionSupportStack
                {| cdk.account := cdk.account me; cdk.region := r |}) ]
  | None => []
  end.

Definition account_support (me : cdk.Environment) (ids : list string)
    (a : codepipeline.Action) : App :=
  match codepipeline.role (codepipeline.action_properties a),
        codepipeline.account (codepipeline.action_properties a) with
  | None, Some acc =>
      if decide (acc = cdk.account me) then []
      else if decide ("cross-account-support-stack-" +:+ acc ∈ ids) then []
           else [ ("cross-account-support-stack-" +:+ acc,
                   CrossAccountSupportStack acc) ]
  | _, _ => []
  end.

Definition needed (me : cdk.Environment) (ids : list string)
    (a : codepipeline.Action) : App :=
  region_support me ids a
  ++ account_support me (ids ++ (region_support me ids a).*1) a.

Lemma app_of_set_later added w :
  (app_of (set_later (fun l => l ++ added) w)).*1 = (app_of w).*1 ++ added.*1.
Proof.
  unfold app_of, set_later. cbn.
  by rewrite !fmap_app, !fmap_cons, !fmap_app, <- app_assoc.
Qed.

Lemma ensure_top_level_eq id node w :
  ensure_top_level id node w
  = (inr tt,
     set_later (fun l => l ++ if decide (id ∈ (app_of w).*1) then []
                              else [(id, node)]) w).
Proof.
  unfold ensure_top_level, bind, get, ret, modify.
  destruct (decide (id ∈ (app_of w).*1)); [|done]. by rewrite set_later_nil.
Qed.

(** Attaching an action never raises and adds support stacks only. *)
Lemma attach_action_eq a w :
  attach_action a w
  = (inr tt,
     set_later (fun l => l ++ needed (stack_env (stack w)) (app_of w).*1 a) w).
Proof.
  set (me := stack_env (stack w)). set (ids := (app_of w).*1).
  assert ((match codepipeline.region (codepipeline.action_properties a) with
           | None => ret tt
           | Some r =>
               if decide (r = cdk.region me) then ret tt
               else
                 ensure_top_level
                   ("cross-region-stack-" +:+ cdk.account me +:+ ":" +:+ r)
                   (CrossRegionSupportStack
                      {| cdk.account := cdk.account me; cdk.region := r |})
           end) w
          = (inr tt, set_later (fun l => l ++ region_support me ids a) w)) as H1.
  { unfold region_support, foreign_region.
    destruct (codepipeline.region (codepipeline.action_properties a)) as [r|].
    - destruct (decide (r = cdk.region me)).
      + unfold ret. by rewrite set_later_nil.
      + rewrite ensure_top_level_eq. fold ids. unfold support_id.
        by destruct (decide (_ ∈ ids)).
    - unfold ret. by rewrite set_later_nil. }
  set (w1 := set_later (fun l => l ++ region_support me ids a) w) in *.
  assert ((match codepipeline.role (codepipeline.action_properties a),
                 codepipeline.account (codepipeline.action_properties a) with
           | None, Some acc =>
               if decide (acc = cdk.account me) then ret tt
               else ensure_top_level ("cross-account-support-stack-" +:+ acc)
                      (CrossAccountSupportStack acc)
           | _, _ => ret tt
           end) w1
          = (inr tt,
             set_later
               (fun l => l ++ account_support me
                               (ids ++ (region_support me ids a).*1) a) w1))
    as H2.
  { unfold account_support.
    destruct (codepipeline.role (codepipeline.action_properties a)),
      (codepipeline.account (codepipeline.action_properties a)) as [acc|];
      try (unfold ret; by rewrite set_later_nil).
    destruct (decide (acc = cdk.account me)).
    - unfold ret. by rewrite set_later_nil.
    - rewrite ensure_top_level_eq. subst w1. rewrite app_of_set_later.
      fold ids. by destruct (decide (_ ∈ _)). }
  unfold attach_action. unfold bind at 1. unfold get at 1. cbv zeta.
  fold me. unfold bind. rewrite H1, H2. subst w1.
  by rewrite set_later_app.
Qed.

Lemma attach_all acts w :
  for_each acts attach_action w = (inr tt, attached acts w).
Proof.
  unfold attached. revert w. induction acts as [|a acts IH]; intros w; [done|].
  cbn [for_each]. unfold bind. rewrite attach_action_eq, IH. reflexivity.
Qed.

Lemma attached_cons a acts w :
  attached (a :: acts) w = attached acts (attach_action a w).2.
Proof.
  unfold attached. cbn [for_each]. unfold bind. by rewrite attach_action_eq.
Qed.

(** Attaching actions changes the children of the App after the stack and
    nothing else. *)
Lemma attached_adds acts w :
  exists added, attached acts w = set_later (fun l => l ++ added) w.
Proof.
  revert w. induction acts as [|a acts IH]; intros w.
  { exists []. by rewrite set_later_nil. }
  rewrite attached_cons, attach_action_eq. cbn [snd].
  destruct (IH (set_later
                  (fun l => l ++ needed (stack_env (stack w)) (app_of w).*1 a) w))
    as [added ->].
  eexists. by rewrite set_later_app.
Qed.

Lemma attached_eq acts w :
  attached acts w = set_later (fun _ => later (attached acts w)) w.
Proof. destruct (attached_adds acts w) as [added ->]. by destruct w. Qed.

Lemma attach_action_set_children f a w :
  (attach_action a (set_children f w)).2
  = set_children f (attach_action a w).2.
Proof.
  rewrite !attach_action_eq. cbn [snd].
  assert ((app_of (set_children f w)).*1 = (app_of w).*1) as ->.
  { unfold app_of. cbn. by rewrite !fmap_app, !fmap_cons. }
  reflexivity.
Qed.

Lemma attached_set_children f acts w :
  attached acts (set_children f w) = set_children f (attached acts w).
Proof.
  revert w. induction acts as [|a acts IH]; intros w; [done|].
  by rewrite !attached_cons, attach_action_set_children, IH.
Qed.

Lemma later_attached f acts w :
  later (attached acts (set_children f w)) = later (attached acts w).
Proof. by rewrite attached_set_children. Qed.

Lemma with_support_env target w :
  stack_env (stack (with_support target w)) = stack_env (stack w).
Proof. unfold with_support. by repeat case_decide. Qed.

Lemma with_support_idemp target w :
  with_support target (with_support target w) = with_support target w.
Proof.
  unfold with_support at 1. rewrite with_support_env.
  destruct (decide (cdk.region target = _)) as [|Hne]; [done|].
  rewrite decide_True; [done|].
  unfold with_support. rewrite decide_False by done.
  destruct (decide (_ ∈ (app_of w).*1)) as [|Hnew]; [done|].
  unfold app_of, set_later. cbn. rewrite fmap_app, fmap_cons, fmap_app. cbn.
  set_solver.
Qed.

Lemma account_support_none me ids a :
  brings_its_role a -> account_support me ids a = [].
Proof.
  unfold brings_its_role, account_support. intros Hrole.
  destruct (codepipeline.role (codepipeline.action_properties a)); [done|].
  by rewrite Hrole.
Qed.

Lemma foreign_region_foreign me a r :
  foreign_region me a = Some r -> r ≠ cdk.region me.
Proof.
  unfold foreign_region.
  destruct (codepipeline.region (codepipeline.action_properties a)) as [r'|];
    [|done].
  destruct (decide (r' = cdk.region me)); [done|]. by intros [= <-].
Qed.

(** An action that stays in the region of the pipeline needs no support
    stack. *)
Lemma attach_local a w :
  foreign_region (stack_env (stack w)) a = None -> brings_its_role a ->
  (attach_action a w).2 = w.
Proof.
  intros Hregion Hrole. rewrite attach_action_eq. cbn [snd].
  unfold needed, region_support. rewrite Hregion, account_support_none by done.
  apply set_later_nil.
Qed.

(** An action in the region of [target], another than the region of the
    pipeline, needs the support stack of that region. *)
Lemma attach_foreign a target w :
  foreign_region (stack_env (stack w)) a = Some (cdk.region target) ->
  brings_its_role a ->
  (attach_action a w).2 = with_support target w.
Proof.
  intros Hregion Hrole. rewrite attach_action_eq. cbn [snd].
  unfold needed, region_support. rewrite Hregion, account_support_none by done.
  rewrite app_nil_r. unfold with_support.
  destruct (decide (cdk.region target = cdk.region (stack_env (stack w))))
    as [Heq|_]; [by apply foreign_region_foreign in Hregion|].
  destruct (decide (_ ∈ (app_of w).*1)); [apply set_later_nil | done].
Qed.

(** The actions of a pipeline with one deploy stage: each stays in the
    region of the pipeline or runs in the region of the stage. *)
Definition follows (me target : cdk.Environment) (a : codepipeline.Action)
    : Prop :=
  brings_its_role a
  /\ (foreign_region me a = None
      \/ foreign_region me a = Some (cdk.region target)).

Lemma attached_supported me target acts w :
  me = stack_env (stack w) ->
  Forall (follows me target) acts ->
  with_support target w = w ->
  attached acts w = w.
Proof.
  intros -> Hacts Hfix. induction Hacts as [|a acts [Hrole Ha] _ IH]; [done|].
  rewrite attached_cons. destruct Ha as [Ha|Ha].
  - by rewrite attach_local.
  - by rewrite (attach_foreign a target), Hfix.
Qed.

(** Attaching the actions of a pipeline whose deploy stage is placed in
    [target]: one support stack at most, however many actions run there. *)
Lemma attached_one_stage me target acts w :
  me = stack_env (stack w) ->
  Forall (follows me target) acts ->
  (cdk.region target ≠ cdk.region me ->
   exists a, a ∈ acts /\ foreign_region me a = Some (cdk.region target)) ->
  attached acts w = with_support target w.
Proof.
  intros Hme Hacts Hsome.
  destruct (decide (cdk.region target = cdk.region me)) as [Heq|Hne].
  { assert (with_support target w = w) as Hfix.
    { unfold with_support. rewrite <- Hme. by rewrite decide_True. }
    rewrite Hfix. by eapply attached_supported. }
  specialize (Hsome Hne). clear Hne. revert w Hme.
  induction Hacts as [|a acts [Hrole Ha] Hacts IH]; intros w Hme.
  { destruct Hsome as (a & Hin & _). by apply elem_of_nil in Hin. }
  rewrite attached_cons. destruct Ha as [Ha|Ha].
  - rewrite attach_local by (by subst me). apply IH; [|done].
    destruct Hsome as (b & Hin & Hb).
    apply elem_of_cons in Hin as [->|Hin]; [congruence|by exists b].
  - rewrite (attach_foreign a target) by (by subst me).
    eapply attached_supported; [|exact Hacts|apply with_support_idemp].
    by rewrite with_support_env.
Qed.

(** ** Identifiers *)

Lemma last_char_log_group_id n : last_char (log_group_id n) = Some "p"%char.
Proof.
  unfold log_group_id. rewrite last_char_append.
  - by rewrite last_char_append.
  - destruct n; discriminate.
Qed.

Lemma last_char_prefixed (a b x : string) :
  x ≠ "" -> last_char (a +:+ b +:+ x) = last_char x.
Proof.
  intros Hx. rewrite last_char_append.
  - by apply last_char_append.
  - destruct b; [done | discriminate].
Qed.

Lemma log_group_id_inj : Inj (=) (=) log_group_id.
Proof.
  intros n m H. unfold log_group_id in H.
  apply (inj (String.app _)) in H. by apply append_inj_l in H.
Qed.

Lemma omap_none {A B} (f : A -> option B) (l : list A) :
  Forall (fun x => f x = None) l -> omap f l = [].
Proof. induction 1 as [|x l Hx _ IH]; [done|]. cbn. by rewrite Hx. Qed.

Lemma omap_cons_cases {A B} (f : A -> option B) (x : A) (l : list A) :
  omap f (x :: l)
  = match f x with Some y => [y] | None => [] end ++ omap f l.
Proof. cbn. by destruct (f x). Qed.

(** ** The declarations of a composition *)

Section Declared.

Variable self : PipelineStack.t.
Variable contents : PipelineDeployStage.Contents.
Variables me target : cdk.Environment.
Variable source : pipelines.CodePipelineSource.

(** The stages the library derived when the pipeline was built. *)
Variable stages : list codepipeline.Stage.

Definition bucket_id : string :=
  PipelineStack.target_environment self
    +:+ PipelineStack.logical_id_prefix self +:+ "EtlPipeline-Artifact".

Definition pipeline_id : string :=
  PipelineStack.target_environment self
    +:+ PipelineStack.logical_id_prefix self +:+ "EtlPipeline".

Definition code_pipeline_id : string :=
  PipelineStack.target_environment self
    +:+ PipelineStack.logical_id_prefix self +:+ "EtlCodePipeline".

(** The keyword arguments of the call in [get_artifact_bucket]. *)
Definition bucket_props : s3.BucketProps :=
  {| s3.bucket_name :=
       lower (PipelineStack.target_environment self) +:+ "-"
         +:+ PipelineStack.resource_name_prefix self
         +:+ "-etl-pipeline-artifact";
     s3.access_control := s3.PRIVATE;
     s3.block_public_access := s3.BLOCK_ALL;
     s3.enforce_ssl := true;
     s3.bucket_key_enabled := true;
     s3.encryption := s3.KMS;
     s3.public_read_access := false;
     s3.removal_policy := PipelineStack.removal_policy self;
     s3.versioned := true;
     s3.object_ownership := s3.OBJECT_WRITER |}.

(** The artifact bucket as [get_artifact_bucket] returns it. *)
Definition created_bucket : s3.Bucket :=
  {| s3.props := bucket_props;
     s3.applied_removal_policy := PipelineStack.removal_policy self;
     s3.encryption_key := Some {| kms.enable_key_rotation := None |};
     s3.logging_configuration := None;
     s3.property_overrides := [] |}.

(** The artifact bucket once [create_environment_pipeline] has returned. *)
Definition declared_bucket : s3.Bucket :=
  {| s3.props := bucket_props;
     s3.applied_removal_policy := PipelineStack.removal_policy self;
     s3.encryption_key := Some {| kms.enable_key_rotation := Some true |};
     s3.logging_configuration := Some {| s3.log_file_prefix := "access-logs" |};
     s3.property_overrides := [ ("VersioningConfiguration.Status", "Enabled") ] |}.

(** The keyword arguments of the call of [codepipeline.Pipeline]. *)
Definition pipeline_props : codepipeline.PipelineProps :=
  {| codepipeline.pipeline_name :=
       lower (PipelineStack.target_environment self) +:+ "-"
         +:+ PipelineStack.resource_name_prefix self +:+ "-etl-pipeline";
     codepipeline.cross_account_keys := true;
     codepipeline.pipeline_type := codepipeline.V2;
     codepipeline.execution_mode := codepipeline.QUEUED;
     codepipeline.artifact_bucket := bucket_id |}.

Definition declared_stage : PipelineDeployStage.t :=
  {| PipelineDeployStage.target_environment := PipelineStack.target_environment self;
     PipelineDeployStage.env := target;
     PipelineDeployStage.stacks := PipelineDeployStage.declared_stacks contents;
     PipelineDeployStage.file_assets :=
       PipelineDeployStage.published_file_assets contents |}.

(** The keyword arguments of the call of [pipelines.CodePipeline], given
    what [get_codepipeline_source] returned. *)
Definition code_pipeline_props (input : option pipelines.CodePipelineSource)
    : pipelines.CodePipelineProps :=
  {| pipelines.code_build_defaults := PipelineStack.code_build_opt me;
     pipelines.self_mutation := true;
     pipelines.synth := PipelineStack.synth_step input;
     pipelines.code_pipeline := pipeline_id |}.

Definition declared_props : pipelines.CodePipelineProps :=
  code_pipeline_props (Some source).

Definition declared_pipeline : codepipeline.Pipeline :=
  {| codepipeline.props := pipeline_props;
     codepipeline.stages := stages |}.

Definition declared_log_groups : list (string * Construct) :=
  omap (log_group_decl self) (flat_map codepipeline.actions stages).

(** The children of the stack once [__init__] has returned. *)
Definition declared_children : list (string * Construct) :=
  [ (bucket_id, Bucket declared_bucket);
    (pipeline_id, Pipeline declared_pipeline);
    (code_pipeline_id,
     CodePipeline {| pipelines.props := declared_props;
                     pipelines.waves := [ PipelineStack.target_environment self ];
                     pipelines.created := true;
                     pipelines.built := true |});
    (PipelineStack.target_environment self, Stage declared_stage) ]
  ++ declared_log_groups.

Lemma suffix_nonempty (x : string) :
  x ≠ "" -> PipelineStack.logical_id_prefix self +:+ x ≠ "".
Proof. destruct (PipelineStack.logical_id_prefix self); [done|discriminate]. Qed.

Lemma prefixed_ids_distinct :
  bucket_id ≠ pipeline_id /\ bucket_id ≠ code_pipeline_id
  /\ pipeline_id ≠ code_pipeline_id.
Proof.
  unfold bucket_id, pipeline_id, code_pipeline_id.
  repeat split; intros H; do 2 apply (inj (String.app _)) in H; discriminate.
Qed.

Lemma stage_id_not_prefixed :
  PipelineStack.target_environment self ≠ bucket_id
  /\ PipelineStack.target_environment self ≠ pipeline_id
  /\ PipelineStack.target_environment self ≠ code_pipeline_id.
Proof.
  unfold bucket_id, pipeline_id, code_pipeline_id.
  repeat split; apply append_neq_self, suffix_nonempty; discriminate.
Qed.

Lemma log_group_id_not_prefixed n :
  log_group_id n ≠ bucket_id /\ log_group_id n ≠ pipeline_id
  /\ log_group_id n ≠ code_pipeline_id.
Proof.
  unfold bucket_id, pipeline_id, code_pipeline_id.
  repeat split; intros H; apply (f_equal last_char) in H;
    rewrite last_char_log_group_id, last_char_prefixed in H by discriminate;
    vm_compute in H; discriminate.
Qed.

Lemma log_group_decl_id a decl :
  log_group_decl self a = Some decl ->
  decl.1 = log_group_id (codepipeline.action_name (codepipeline.action_properties a)).
Proof.
  unfold log_group_decl. destruct (is_build a); [|done].
  destruct (codepipeline.resource _); [|done]. by intros [= <-].
Qed.

(** No two children of the stack share an identifier when the deploy
    stage and the log groups do not. *)
Lemma declared_children_NoDup :
  NoDup (PipelineStack.target_environment self :: declared_log_groups.*1) ->
  NoDup declared_children.*1.
Proof.
  intros Hnodup. apply NoDup_cons in Hnodup as [Hstage Hlogs].
  unfold declared_children. rewrite fmap_app.
  destruct prefixed_ids_distinct as (Hbp & Hbc & Hpc).
  destruct stage_id_not_prefixed as (Hsb & Hsp & Hsc).
  apply NoDup_app. split; [|split; [|done]].
  - cbn. repeat (apply NoDup_cons; split); [..|apply NoDup_nil_2];
      rewrite ?not_elem_of_cons; repeat split;
      solve [ apply not_elem_of_nil | congruence ].
  - intros id Hid Hlg.
    assert (exists n, id = log_group_id n) as [n Hn].
    { apply list_elem_of_fmap in Hlg as (decl & -> & Hdecl).
      apply list_elem_of_omap in Hdecl as (a & _ & Ha).
      eexists. by eapply log_group_decl_id. }
    destruct (log_group_id_not_prefixed n) as (? & ? & ?).
    cbn in Hid. rewrite !elem_of_cons, elem_of_nil in Hid.
    destruct Hid as [?|[?|[?|[Hte|[]]]]]; congruence.
Qed.

End Declared.

(** ** [get_codepipeline_source] *)

(** The source object built from a repository owner, a repository name and
    a branch. *)
Definition connection_source (owner name : pyval) (branch : string)
    : pipelines.CodePipelineSource :=
  {| pipelines.action_name := "Source";
     pipelines.repo_string := py_str owner +:+ "/" +:+ py_str name;
     pipelines.branch := branch;
     pipelines.connection_arn :=
       "arn:aws:codestar-connections:us-east-1:787127824249:connection/ac69c4b3-c806-4b73-9bb8-df7c3a9b6162" |}.

Lemma get_codepipeline_source_checked lib cfg self deployment name owner
    (w : World) :
  PipelineStack.mappings self !! DEPLOYMENT cfg = Some deployment ->
  deployment !! GITHUB_REPOSITORY_NAME cfg = Some name ->
  truthy name = true ->
  deployment !! GITHUB_REPOSITORY_OWNER_NAME cfg = Some owner ->
  PipelineStack.get_codepipeline_source lib cfg self w
  = match connection_refused lib
            (connection_source owner name (PipelineStack.target_branch self)) with
    | Some e => (inl e, w)
    | None =>
        (inr (Some (connection_source owner name
                      (PipelineStack.target_branch self))), w)
    end.
Proof.
  intros Hd Hn Ht Ho.
  unfold PipelineStack.get_codepipeline_source, subscript, bind.
  rewrite Hd. cbn. rewrite Hn. cbn. rewrite Ht. cbn. rewrite Ho. cbn.
  fold (connection_source owner name (PipelineStack.target_branch self)).
  by destruct (connection_refused lib _).
Qed.

Lemma get_codepipeline_source_some lib cfg self deployment name owner (w : World) :
  PipelineStack.mappings self !! DEPLOYMENT cfg = Some deployment ->
  deployment !! GITHUB_REPOSITORY_NAME cfg = Some name ->
  truthy name = true ->
  deployment !! GITHUB_REPOSITORY_OWNER_NAME cfg = Some owner ->
  connection_refused lib
    (connection_source owner name (PipelineStack.target_branch self)) = None ->
  PipelineStack.get_codepipeline_source lib cfg self w
  = (inr (Some (connection_source owner name (PipelineStack.target_branch self))), w).
Proof.
  intros Hd Hn Ht Ho Hok.
  erewrite get_codepipeline_source_checked by done. by rewrite Hok.
Qed.

Lemma get_codepipeline_source_falsy lib cfg self deployment name (w : World) :
  PipelineStack.mappings self !! DEPLOYMENT cfg = Some deployment ->
  deployment !! GITHUB_REPOSITORY_NAME cfg = Some name ->
  truthy name = false ->
  PipelineStack.get_codepipeline_source lib cfg self w = (inr None, w).
Proof.
  intros Hd Hn Ht. unfold PipelineStack.get_codepipeline_source, subscript, bind.
  rewrite Hd. cbn. rewrite Hn. cbn. by rewrite Ht.
Qed.

Lemma get_codepipeline_source_no_deployment lib cfg self (w : World) :
  PipelineStack.mappings self !! DEPLOYMENT cfg = None ->
  PipelineStack.get_codepipeline_source lib cfg self w
  = (inl (KeyError (DEPLOYMENT cfg)), w).
Proof.
  intros Hd. unfold PipelineStack.get_codepipeline_source, subscript, bind.
  by rewrite Hd.
Qed.

Lemma get_codepipeline_source_no_name lib cfg self deployment (w : World) :
  PipelineStack.mappings self !! DEPLOYMENT cfg = Some deployment ->
  deployment !! GITHUB_REPOSITORY_NAME cfg = None ->
  PipelineStack.get_codepipeline_source lib cfg self w
  = (inl (KeyError (GITHUB_REPOSITORY_NAME cfg)), w).
Proof.
  intros Hd Hn. unfold PipelineStack.get_codepipeline_source, subscript, bind.
  rewrite Hd. cbn. by rewrite Hn.
Qed.

Lemma get_codepipeline_source_no_owner lib cfg self deployment name (w : World) :
  PipelineStack.mappings self !! DEPLOYMENT cfg = Some deployment ->
  deployment !! GITHUB_REPOSITORY_NAME cfg = Some name ->
  truthy name = true ->
  deployment !! GITHUB_REPOSITORY_OWNER_NAME cfg = None ->
  PipelineStack.get_codepipeline_source lib cfg self w
  = (inl (KeyError (GITHUB_REPOSITORY_OWNER_NAME cfg)), w).
Proof.
  intros Hd Hn Ht Ho. unfold PipelineStack.get_codepipeline_source, subscript, bind.
  rewrite Hd. cbn. rewrite Hn. cbn. rewrite Ht. cbn. by rewrite Ho.
Qed.

(** ** Lookups and updates on the children of the stack *)

Lemma find_child_ok ref c w :
  assoc ref (children (stack w)) = Some c -> find_child ref w = (inr c, w).
Proof. intros H. unfold find_child, bind, get. by rewrite H. Qed.

Lemma the_bucket_ok ref b w :
  assoc ref (children (stack w)) = Some (Bucket b) -> the_bucket ref w = (inr b, w).
Proof. intros H. unfold the_bucket. by erewrite bind_ok by (by apply find_child_ok). Qed.

Lemma the_pipeline_ok ref p w :
  assoc ref (children (stack w)) = Some (Pipeline p) ->
  the_pipeline ref w = (inr p, w).
Proof. intros H. unfold the_pipeline. by erewrite bind_ok by (by apply find_child_ok). Qed.

Lemma the_code_pipeline_ok ref p w :
  assoc ref (children (stack w)) = Some (CodePipeline p) ->
  the_code_pipeline ref w = (inr p, w).
Proof.
  intros H. unfold the_code_pipeline.
  by erewrite bind_ok by (by apply find_child_ok).
Qed.

Lemma the_stage_ok ref st w :
  assoc ref (children (stack w)) = Some (Stage st) -> the_stage ref w = (inr st, w).
Proof. intros H. unfold the_stage. by erewrite bind_ok by (by apply find_child_ok). Qed.

(** ** The calls of the library *)

(** A construct whose identifier is free is registered; the call returns
    when the library accepts its arguments and raises otherwise. *)
Lemma add_child_checked id c (refusal : option exn) w :
  id ∉ (children (stack w)).*1 ->
  (add_child id c ;;; refuse refusal ;;; ret id) w
  = (match refusal with Some e => inl e | None => inr id end,
     set_children (fun l => l ++ [(id, c)]) w).
Proof.
  intros Hfresh. erewrite bind_ok by (by apply add_child_fresh).
  unfold refuse, bind, raise, ret. by destruct refusal.
Qed.

Lemma add_stage_ok lib pipeline stage cp st w :
  assoc pipeline (children (stack w)) = Some (CodePipeline cp) ->
  assoc stage (children (stack w)) = Some (Stage st) ->
  pipelines.built cp = false ->
  PipelineDeployStage.stacks st ≠ [] ->
  add_stage_refused lib (pipelines.props cp) st = None ->
  add_stage lib pipeline stage w
  = (inr tt,
     set_children
       (update pipeline (fun _ =>
          CodePipeline {| pipelines.props := pipelines.props cp;
                          pipelines.waves := pipelines.waves cp ++ [stage];
                          pipelines.created := pipelines.created cp;
                          pipelines.built := false |})) w).
Proof.
  intros Hcp Hst Hbuilt Hstacks Hok. unfold add_stage.
  erewrite bind_ok by (by apply the_code_pipeline_ok).
  erewrite bind_ok by (by apply the_stage_ok).
  rewrite Hbuilt, Hok. by destruct (PipelineDeployStage.stacks st).
Qed.

Lemma add_stage_raises lib pipeline stage cp st w :
  assoc pipeline (children (stack w)) = Some (CodePipeline cp) ->
  assoc stage (children (stack w)) = Some (Stage st) ->
  pipelines.built cp = false ->
  PipelineDeployStage.stacks st = []
  \/ add_stage_refused lib (pipelines.props cp) st <> None ->
  exists e, add_stage lib pipeline stage w = (inl e, w).
Proof.
  intros Hcp Hst Hbuilt Hcase. unfold add_stage.
  erewrite bind_ok by (by apply the_code_pipeline_ok).
  erewrite bind_ok by (by apply the_stage_ok).
  rewrite Hbuilt. destruct (PipelineDeployStage.stacks st); [by eexists|].
  destruct Hcase as [|Hcase]; [done|].
  destruct (add_stage_refused lib _ st); [by eexists|done].
Qed.

Lemma assoc_update {A} (k k' : string) (f : A -> A) (l : list (string * A)) :
  assoc k (update k' f l)
  = if decide (k' = k) then f <$> assoc k l else assoc k l.
Proof.
  induction l as [|[k'' a] l IH]; [by destruct (decide (k' = k))|]. cbn.
  destruct (decide (k'' = k')) as [->|Hne]; cbn.
  - by destruct (decide (k' = k)).
  - destruct (decide (k'' = k)) as [->|Hne'].
    + by rewrite decide_False by done.
    + exact IH.
Qed.

(** [build_pipeline] on a pipeline with one deploy stage: the stages the
    library derives are those of the pipeline from then on, also when the
    library raises. *)
Lemma build_pipeline_derived lib pipeline stage cp p st w :
  assoc pipeline (children (stack w)) = Some (CodePipeline cp) ->
  pipelines.built cp = false ->
  pipelines.created cp = false ->
  assoc (pipelines.code_pipeline (pipelines.props cp)) (children (stack w))
    = Some (Pipeline p) ->
  pipelines.waves cp = [stage] ->
  assoc stage (children (stack w)) = Some (Stage st) ->
  pipeline ≠ stage ->
  let derived :=
    derive_stages lib pipeline (stack_id w) (stack_env (stack w))
      (pipelines.props cp) [st] in
  let w' :=
    set_children
      (fun l =>
         update (pipelines.code_pipeline (pipelines.props cp)) (fun _ =>
           Pipeline {| codepipeline.props := codepipeline.props p;
                       codepipeline.stages :=
                         codepipeline.stages p ++ derived.2 |})
           (update pipeline (fun _ =>
              CodePipeline {| pipelines.props := pipelines.props cp;
                              pipelines.waves := pipelines.waves cp;
                              pipelines.created := true;
                              pipelines.built := false |}) l))
      (attached (flat_map codepipeline.actions derived.2) w) in
  build_pipeline lib pipeline w
  = match derived.1 with
    | inl e => (inl e, w')
    | inr _ =>
        (inr tt,
         set_children
           (update pipeline (fun _ =>
              CodePipeline {| pipelines.props := pipelines.props cp;
                              pipelines.waves := pipelines.waves cp;
                              pipelines.created := true;
                              pipelines.built := true |})) w')
    end.
Proof.
  intros Hcp Hbuilt Hcreated Hp Hwaves Hst Hne derived w'. unfold build_pipeline.
  erewrite bind_ok by (by apply the_code_pipeline_ok).
  rewrite Hbuilt, Hcreated.
  erewrite bind_ok by (by apply the_pipeline_ok).
  erewrite bind_ok by reflexivity.
  rewrite Hwaves. cbn [map_m].
  erewrite bind_ok; cycle 1.
  { erewrite bind_ok; cycle 1.
    { apply the_stage_ok. destruct w as [e i [me ch] l]. cbn in *.
      rewrite assoc_update, decide_False by done. exact Hst. }
    erewrite bind_ok by reflexivity. reflexivity. }
  erewrite bind_ok by reflexivity. cbv zeta.
  assert (stack_id (set_children
            (update pipeline (fun _ =>
               CodePipeline {| pipelines.props := pipelines.props cp;
                               pipelines.waves := [stage];
                               pipelines.created := true;
                               pipelines.built := false |})) w) = stack_id w)
    as -> by (by destruct w).
  assert (stack_env (stack (set_children
            (update pipeline (fun _ =>
               CodePipeline {| pipelines.props := pipelines.props cp;
                               pipelines.waves := [stage];
                               pipelines.created := true;
                               pipelines.built := false |})) w))
          = stack_env (stack w)) as -> by (by destruct w).
  fold derived.
  erewrite bind_ok; cycle 1.
  { rewrite (for_each_nested codepipeline.actions). apply attach_all. }
  erewrite bind_ok by reflexivity.
  rewrite attached_set_children, set_children_set_children.
  subst w'. rewrite Hwaves.
  unfold lift. destruct (derived.1) as [e|[]]; reflexivity.
Qed.

Lemma pipeline_pipeline_ok pipeline cp w :
  assoc pipeline (children (stack w)) = Some (CodePipeline cp) ->
  pipelines.created cp = true ->
  pipeline_pipeline pipeline w
  = (inr (pipelines.code_pipeline (pipelines.props cp)), w).
Proof.
  intros Hcp Hcreated. unfold pipeline_pipeline.
  erewrite bind_ok by (by apply the_code_pipeline_ok). by rewrite Hcreated.
Qed.

(** The children of the stack when [get_codepipeline_source] is called. *)
Definition children_before_source (self : PipelineStack.t)
    : list (string * Construct) :=
  [ (bucket_id self, Bucket (created_bucket self));
    (pipeline_id self,
     Pipeline {| codepipeline.props := pipeline_props self;
                 codepipeline.stages := [] |}) ].

(** The children of the stack when [target_aws_env] is read, given what
    [get_codepipeline_source] returned. *)
Definition children_before_stage (self : PipelineStack.t) (me : cdk.Environment)
    (input : option pipelines.CodePipelineSource) : list (string * Construct) :=
  children_before_source self
  ++ [ (code_pipeline_id self,
        CodePipeline {| pipelines.props := code_pipeline_props self me input;
                        pipelines.waves := [];
                        pipelines.created := false;
                        pipelines.built := false |}) ].

(** The children of the stack before [build_pipeline] has returned: when
    it is called the pipeline is not taken up and has no stages, when it
    has raised the pipeline is taken up and has the stages the library
    derived. *)
Definition children_unbuilt (self : PipelineStack.t)
    (contents : PipelineDeployStage.Contents) (me target : cdk.Environment)
    (input : option pipelines.CodePipelineSource) (created : bool)
    (stages : list codepipeline.Stage) : list (string * Construct) :=
  [ (bucket_id self, Bucket (created_bucket self));
    (pipeline_id self,
     Pipeline {| codepipeline.props := pipeline_props self;
                 codepipeline.stages := stages |});
    (code_pipeline_id self,
     CodePipeline {| pipelines.props := code_pipeline_props self me input;
                     pipelines.waves := [ PipelineStack.target_environment self ];
                     pipelines.created := created;
                     pipelines.built := false |});
    (PipelineStack.target_environment self,
     Stage (declared_stage self contents target)) ].

Ltac decide_ids :=
  repeat match goal with
         | |- context [decide (?a = ?b)] =>
             first [ rewrite (decide_True (P := a = b)) by reflexivity
                   | rewrite (decide_False (P := a = b)) by congruence ]
         end.

Ltac project :=
  unfold set_children, set_later, fresh_stack, children_unbuilt,
    children_before_stage, children_before_source;
  cbn [assoc update children stack app later earlier
       pipelines.props pipelines.waves pipelines.built pipelines.created
       pipelines.code_pipeline
       pipelines.input pipelines.synth PipelineStack.synth_step
       declared_props code_pipeline_props declared_pipeline declared_stage
       created_bucket pipeline_props
       stack_id stack_env fresh_stack fst snd
       PipelineDeployStage.stacks PipelineDeployStage.env
       PipelineDeployStage.file_assets s3.props s3.encryption_key
       s3.applied_removal_policy s3.logging_configuration s3.property_overrides
       codepipeline.props codepipeline.stages codepipeline.artifact_bucket].

Ltac lookup_child := repeat (project; decide_ids); reflexivity.

(** ** [create_environment_pipeline], part by part *)

(** The rest of [create_environment_pipeline] from a statement on; that
    these parts make up the function is
    [create_environment_pipeline_until_source] and the lemmas after it. *)
Section Parts.

Variable lib : Library.
Variable cfg : Configuration.
Variable stage_contents : string -> PipelineDeployStage.Contents.
Variable self : PipelineStack.t.
Variable target_aws_env : gmap string string.

(** From the loop over the stages of the built pipeline (line 173). *)
Definition from_loop (pipeline : string) : Cdk unit :=
  built <- pipeline_pipeline pipeline ;;
  built_pipeline <- the_pipeline built ;;
  for_each (codepipeline.stages built_pipeline) (fun stage =>
    for_each (codepipeline.actions stage) (PipelineStack.log_group_for self)) ;;;
  let bucket := codepipeline.artifact_bucket (codepipeline.props built_pipeline) in
  apply_removal_policy bucket (PipelineStack.removal_policy self) ;;;
  set_logging_configuration bucket {| s3.log_file_prefix := "access-logs" |} ;;;
  set_enable_key_rotation bucket true ;;;
  add_property_override bucket "VersioningConfiguration.Status" "Enabled".

(** From [pipeline.build_pipeline()] (line 169). *)
Definition from_build (pipeline : string) : Cdk unit :=
  build_pipeline lib pipeline ;;; from_loop pipeline.

(** From the creation of the deploy stage (line 151). *)
Definition from_stage (pipeline : string) : Cdk unit :=
  account <- subscript target_aws_env "account" ;;
  region <- subscript target_aws_env "region" ;;
  pipeline_deploy_stage <-
    PipelineStack.new_PipelineDeployStage lib stage_contents
      (PipelineStack.target_environment self)
      (PipelineStack.target_environment self)
      {| cdk.account := account; cdk.region := region |} ;;
  add_stage lib pipeline pipeline_deploy_stage ;;;
  from_build pipeline.

(** From the creation of the [pipelines.CodePipeline] (line 140), given
    what [get_codepipeline_source] returned and the environment [me] of
    the stack. *)
Definition from_code_pipeline (me : cdk.Environment)
    (source : option pipelines.CodePipelineSource) : Cdk unit :=
  pipeline <-
    pipelines_CodePipeline lib (code_pipeline_id self)
      (code_pipeline_props self me source) ;;
  from_stage pipeline.

(** From the call of [get_codepipeline_source] (line 132). *)
Definition from_source (me : cdk.Environment) : Cdk unit :=
  source <- PipelineStack.get_codepipeline_source lib cfg self ;;
  from_code_pipeline me source.

End Parts.

(** The key of [target_aws_env] whose lookup raises: the account is read
    before the region. *)
Definition missing_target_key (target_aws_env : gmap string string)
    : option string :=
  match target_aws_env !! "account", target_aws_env !! "region" with
  | None, _ => Some "account"
  | Some _, None => Some "region"
  | Some _, Some _ => None
  end.

Section Run.

Variable lib : Library.
Variable cfg : Configuration.
Variable stage_contents : string -> PipelineDeployStage.Contents.
Variable self : PipelineStack.t.
Variable scope : App.
Variable construct_id : string.
Variable me : cdk.Environment.
Variable target_aws_env : gmap string string.

Let contents := stage_contents (PipelineStack.target_environment self).

(** The stack right after [cdk.Stack.__init__]. *)
Let fresh := fresh_stack scope construct_id me.

(** The run up to the call of [get_codepipeline_source]: the bucket and
    the pipeline are declared. *)
Lemma create_environment_pipeline_until_source :
  bucket_refused lib (bucket_id self) (bucket_props self) = None ->
  pipeline_refused lib (pipeline_id self) (pipeline_props self) = None ->
  PipelineStack.create_environment_pipeline lib cfg stage_contents self
    (PipelineStack.target_environment self) target_aws_env fresh
  = from_source lib cfg stage_contents self target_aws_env me
      (set_children (fun _ => children_before_source self) fresh).
Proof.
  intros Hbucket Hpipeline.
  destruct (prefixed_ids_distinct self) as (Hbp & Hbc & Hpc).
  unfold PipelineStack.create_environment_pipeline.
  erewrite bind_ok by reflexivity.
  erewrite bind_ok; cycle 1.
  { unfold PipelineStack.get_artifact_bucket, s3_Bucket.
    rewrite add_child_checked by (cbn; apply not_elem_of_nil).
    fold (bucket_id self) (bucket_props self). rewrite Hbucket. reflexivity. }
  erewrite bind_ok; cycle 1.
  { unfold codepipeline_Pipeline.
    rewrite add_child_checked.
    - fold (pipeline_id self) (pipeline_props self). rewrite Hpipeline.
      reflexivity.
    - subst fresh. cbn. fold (pipeline_id self).
      rewrite not_elem_of_cons. split; [congruence | apply not_elem_of_nil]. }
  reflexivity.
Qed.

(** The bucket is declared before anything else, also when the library
    refuses it. *)
Lemma create_environment_pipeline_bucket_refused e :
  bucket_refused lib (bucket_id self) (bucket_props self) = Some e ->
  PipelineStack.create_environment_pipeline lib cfg stage_contents self
    (PipelineStack.target_environment self) target_aws_env fresh
  = (inl e,
     set_children (fun _ => [ (bucket_id self, Bucket (created_bucket self)) ])
       fresh).
Proof.
  intros Hbucket. unfold PipelineStack.create_environment_pipeline.
  erewrite bind_ok by reflexivity.
  erewrite bind_raise; [reflexivity|].
  unfold PipelineStack.get_artifact_bucket, s3_Bucket.
  rewrite add_child_checked by (cbn; apply not_elem_of_nil).
  fold (bucket_id self) (bucket_props self). rewrite Hbucket. reflexivity.
Qed.

(** The [pipelines.CodePipeline] is declared. *)
Lemma from_code_pipeline_accepted input :
  code_pipeline_refused lib (code_pipeline_id self)
    (code_pipeline_props self me input) = None ->
  from_code_pipeline lib stage_contents self target_aws_env me input
    (set_children (fun _ => children_before_source self) fresh)
  = from_stage lib stage_contents self target_aws_env (code_pipeline_id self)
      (set_children (fun _ => children_before_stage self me input) fresh).
Proof.
  intros Hcp. destruct (prefixed_ids_distinct self) as (Hbp & Hbc & Hpc).
  unfold from_code_pipeline.
  erewrite bind_ok; cycle 1.
  { unfold pipelines_CodePipeline. rewrite add_child_checked.
    - rewrite Hcp. reflexivity.
    - subst fresh. cbn. rewrite !not_elem_of_cons.
      repeat split; [..|apply not_elem_of_nil]; congruence. }
  reflexivity.
Qed.

(** The deploy stage is declared and added to the pipeline. *)
Lemma from_stage_added input account region :
  target_aws_env !! "account" = Some account ->
  target_aws_env !! "region" = Some region ->
  let target := {| cdk.account := account; cdk.region := region |} in
  stage_refused lib (PipelineStack.target_environment self)
    (declared_stage self contents target) = None ->
  PipelineDeployStage.declared_stacks contents ≠ [] ->
  add_stage_refused lib (code_pipeline_props self me input)
    (declared_stage self contents target) = None ->
  from_stage lib stage_contents self target_aws_env (code_pipeline_id self)
    (set_children (fun _ => children_before_stage self me input) fresh)
  = from_build lib self (code_pipeline_id self)
      (set_children
         (fun _ => children_unbuilt self contents me target input false []) fresh).
Proof.
  intros Haccount Hregion target Hstage Hstacks Hadd.
  destruct (prefixed_ids_distinct self) as (Hbp & Hbc & Hpc).
  destruct (stage_id_not_prefixed self) as (Hsb & Hsp & Hsc).
  unfold from_stage.
  unfold subscript at 1. rewrite Haccount. erewrite bind_ok by reflexivity.
  unfold subscript at 1. rewrite Hregion. erewrite bind_ok by reflexivity.
  erewrite bind_ok; cycle 1.
  { unfold PipelineStack.new_PipelineDeployStage. rewrite add_child_checked.
    - replace (stage_refused lib _ _) with (@None exn)
        by (symmetry; exact Hstage).
      reflexivity.
    - subst fresh. cbn. rewrite !not_elem_of_cons.
      repeat split; [..|apply not_elem_of_nil]; congruence. }
  fold contents. fold (declared_stage self contents target).
  erewrite bind_ok; cycle 1.
  { subst fresh.
    eapply add_stage_ok;
      [lookup_child | lookup_child | reflexivity | exact Hstacks | exact Hadd]. }
  subst fresh. unfold children_unbuilt, children_before_stage,
    children_before_source. repeat (project; decide_ids). reflexivity.
Qed.

(** A key missing from [target_aws_env] stops the run before the deploy
    stage is declared. *)
Lemma from_stage_missing_key (key : string) :
  missing_target_key target_aws_env = Some key ->
  forall w,
    from_stage lib stage_contents self target_aws_env (code_pipeline_id self) w
    = (inl (KeyError key), w).
Proof.
  unfold missing_target_key, from_stage. intros Hkey w.
  destruct (target_aws_env !! "account") as [account|] eqn:Ha.
  - destruct (target_aws_env !! "region") as [region|] eqn:Hr; [done|].
    injection Hkey as <-.
    unfold subscript at 1. rewrite Ha. erewrite bind_ok by reflexivity.
    unfold subscript at 1. by rewrite Hr.
  - injection Hkey as <-. unfold subscript at 1. by rewrite Ha.
Qed.

(** The outcome of [build_pipeline] is the outcome of the library; the
    stages it derived are attached to the pipeline in either case. *)
Lemma from_build_derived input target :
  PipelineDeployStage.declared_stacks contents ≠ [] ->
  let derived :=
    derive_stages lib (code_pipeline_id self) construct_id me
      (code_pipeline_props self me input)
      [ declared_stage self contents target ] in
  let w' :=
    set_children
      (fun _ => children_unbuilt self contents me target input true derived.2)
      (attached (flat_map codepipeline.actions derived.2) fresh) in
  build_pipeline lib (code_pipeline_id self)
    (set_children
       (fun _ => children_unbuilt self contents me target input false []) fresh)
  = match derived.1 with
    | inl e => (inl e, w')
    | inr _ =>
        (inr tt,
         set_children
           (update (code_pipeline_id self) (fun _ =>
              CodePipeline
                {| pipelines.props := code_pipeline_props self me input;
                   pipelines.waves := [ PipelineStack.target_environment self ];
                   pipelines.created := true;
                   pipelines.built := true |})) w')
    end.
Proof.
  intros Hstacks derived w'.
  destruct (prefixed_ids_distinct self) as (Hbp & Hbc & Hpc).
  destruct (stage_id_not_prefixed self) as (Hsb & Hsp & Hsc).
  erewrite build_pipeline_derived;
    [ | subst fresh; lookup_child | reflexivity | reflexivity
      | subst fresh; lookup_child | reflexivity | subst fresh; lookup_child
      | congruence ].
  subst fresh. cbn [stack_id stack_env stack set_children fresh_stack
                    pipelines.props pipelines.code_pipeline code_pipeline_props
                    pipelines.waves codepipeline.props codepipeline.stages].
  fold derived. cbn [app].
  rewrite !attached_set_children, !set_children_set_children.
  assert (update (pipeline_id self) (fun _ =>
            Pipeline {| codepipeline.props := pipeline_props self;
                        codepipeline.stages := derived.2 |})
            (update (code_pipeline_id self) (fun _ =>
               CodePipeline
                 {| pipelines.props := code_pipeline_props self me input;
                    pipelines.waves := [ PipelineStack.target_environment self ];
                    pipelines.created := true;
                    pipelines.built := false |})
               (children_unbuilt self contents me target input false []))
          = children_unbuilt self contents me target input true derived.2) as Heq.
  { unfold children_unbuilt. repeat (project; decide_ids). reflexivity. }
  rewrite Heq. subst w'. rewrite set_children_set_children.
  by destruct (derived.1).
Qed.

(** [build_pipeline] raises what the library raises, and the run ends
    there. *)
Lemma from_build_raises input target e stages :
  PipelineDeployStage.declared_stacks contents ≠ [] ->
  derive_stages lib (code_pipeline_id self) construct_id me
    (code_pipeline_props self me input) [ declared_stage self contents target ]
  = (inl e, stages) ->
  from_build lib self (code_pipeline_id self)
    (set_children
       (fun _ => children_unbuilt self contents me target input false []) fresh)
  = (inl e,
     set_children
       (fun _ => children_unbuilt self contents me target input true stages)
       (attached (flat_map codepipeline.actions stages) fresh)).
Proof.
  intros Hstacks Hderived. unfold from_build.
  erewrite bind_raise; [reflexivity|].
  rewrite from_build_derived by done. by rewrite Hderived.
Qed.

(** When the library has derived the stages of the pipeline, the loop
    declares the log groups and the bucket gets its last settings. *)
Lemma from_build_ok source target stages :
  PipelineDeployStage.declared_stacks contents ≠ [] ->
  derive_stages lib (code_pipeline_id self) construct_id me
    (code_pipeline_props self me (Some source))
    [ declared_stage self contents target ]
  = (inr tt, stages) ->
  Forall has_project (flat_map codepipeline.actions stages) ->
  NoDup (PipelineStack.target_environment self
           :: (declared_log_groups self stages).*1) ->
  from_build lib self (code_pipeline_id self)
    (set_children
       (fun _ => children_unbuilt self contents me target (Some source) false [])
       fresh)
  = (inr tt,
     set_children
       (fun _ => declared_children self contents me target source stages)
       (attached (flat_map codepipeline.actions stages) fresh)).
Proof.
  intros Hstacks Hderived Hprojects Hnodup.
  destruct (prefixed_ids_distinct self) as (Hbp & Hbc & Hpc).
  destruct (stage_id_not_prefixed self) as (Hsb & Hsp & Hsc).
  unfold from_build.
  erewrite bind_ok; cycle 1.
  { rewrite from_build_derived by done. rewrite Hderived. reflexivity. }
  rewrite set_children_set_children. cbn [snd].
  rewrite (attached_eq _ fresh). subst fresh.
  set (support := later (attached _ _)).
  repeat (project; decide_ids).
  unfold from_loop.
  erewrite bind_ok by (apply pipeline_pipeline_ok; [lookup_child | reflexivity]).
  project.
  erewrite bind_ok by (apply the_pipeline_ok; lookup_child).
  project.
  erewrite bind_ok; cycle 1.
  { rewrite (for_each_nested codepipeline.actions).
    apply log_group_loop; [exact Hprojects|].
    apply (declared_children_NoDup self contents me target source stages Hnodup). }
  project.
  unfold apply_removal_policy.
  erewrite bind_ok; cycle 1.
  { erewrite bind_ok by (apply the_bucket_ok; lookup_child). reflexivity. }
  repeat (project; decide_ids).
  unfold set_logging_configuration.
  erewrite bind_ok; cycle 1.
  { erewrite bind_ok by (apply the_bucket_ok; lookup_child). reflexivity. }
  repeat (project; decide_ids).
  unfold set_enable_key_rotation.
  erewrite bind_ok; cycle 1.
  { erewrite bind_ok by (apply the_bucket_ok; lookup_child). reflexivity. }
  repeat (project; decide_ids).
  unfold add_property_override.
  erewrite bind_ok by (apply the_bucket_ok; lookup_child).
  unfold set_child, modify. repeat (project; decide_ids).
  reflexivity.
Qed.

(** The run of a stack whose configuration names a repository, whose
    declarations the library accepts, and for which it derives [stages]. *)
Lemma create_environment_pipeline_ok deployment name owner account region stages :
  PipelineStack.mappings self !! DEPLOYMENT cfg = Some deployment ->
  deployment !! GITHUB_REPOSITORY_NAME cfg = Some name ->
  truthy name = true ->
  deployment !! GITHUB_REPOSITORY_OWNER_NAME cfg = Some owner ->
  target_aws_env !! "account" = Some account ->
  target_aws_env !! "region" = Some region ->
  let target := {| cdk.account := account; cdk.region := region |} in
  let source := connection_source owner name (PipelineStack.target_branch self) in
  bucket_refused lib (bucket_id self) (bucket_props self) = None ->
  pipeline_refused lib (pipeline_id self) (pipeline_props self) = None ->
  connection_refused lib source = None ->
  code_pipeline_refused lib (code_pipeline_id self)
    (declared_props self me source) = None ->
  stage_refused lib (PipelineStack.target_environment self)
    (declared_stage self contents target) = None ->
  PipelineDeployStage.declared_stacks contents ≠ [] ->
  add_stage_refused lib (declared_props self me source)
    (declared_stage self contents target) = None ->
  derive_stages lib (code_pipeline_id self) construct_id me
    (declared_props self me source) [ declared_stage self contents target ]
  = (inr tt, stages) ->
  Forall has_project (flat_map codepipeline.actions stages) ->
  NoDup (PipelineStack.target_environment self
           :: (declared_log_groups self stages).*1) ->
  PipelineStack.create_environment_pipeline lib cfg stage_contents self
    (PipelineStack.target_environment self) target_aws_env fresh
  = (inr tt,
     set_children
       (fun _ => declared_children self contents me target source stages)
       (attached (flat_map codepipeline.actions stages) fresh)).
Proof.
  intros Hd Hn Ht Ho Ha Hr target source Hbucket Hpipeline Hconnection Hcp
    Hstage Hstacks Hadd Hderived Hprojects Hnodup.
  rewrite create_environment_pipeline_until_source by done.
  unfold from_source.
  erewrite bind_ok by (by eapply get_codepipeline_source_some).
  rewrite from_code_pipeline_accepted by done.
  erewrite from_stage_added by done.
  by apply from_build_ok.
Qed.

End Run.

(** ** [__init__] *)

(** The environment class: durable for production and test. *)
Definition durable (cfg : Configuration) (target_environment : string) : Prop :=
  target_environment = PROD cfg \/ target_environment = TEST cfg.

Global Instance durable_dec cfg target_environment :
  Decision (durable cfg target_environment).
Proof. unfold durable. apply _. Defined.

(** The attributes of the stack object once [__init__] has set them. *)
Definition attributes (cfg : Configuration) (mappings : Mappings)
    (logical_id_prefix resource_name_prefix target_branch target_environment : string)
    : PipelineStack.t :=
  {| PipelineStack.mappings := mappings;
     PipelineStack.logical_id_prefix := logical_id_prefix;
     PipelineStack.resource_name_prefix := resource_name_prefix;
     PipelineStack.target_branch := target_branch;
     PipelineStack.target_environment := target_environment;
     PipelineStack.removal_policy :=
       if decide (durable cfg target_environment) then cdk.RETAIN else cdk.DESTROY;
     PipelineStack.log_retention :=
       if decide (durable cfg target_environment)
       then logs.SIX_MONTHS else logs.ONE_MONTH |}.

Lemma durable_test cfg target_environment :
  bool_decide (target_environment = PROD cfg)
    || bool_decide (target_environment = TEST cfg)
  = bool_decide (durable cfg target_environment).
Proof.
  unfold durable. repeat case_bool_decide; try reflexivity; tauto.
Qed.

(** [__init__] is [cdk.Stack.__init__], the three lookups, then
    [create_environment_pipeline] on the stack object. *)
Lemma init_unfold lib cfg stage_contents scope construct_id target_environment
    target_branch target_aws_env env mappings logical_id_prefix resource_name_prefix :
  construct_id ∉ scope.*1 ->
  stack_refused lib construct_id env = None ->
  get_all_configurations cfg = inr mappings ->
  get_logical_id_prefix cfg = inr logical_id_prefix ->
  get_resource_name_prefix cfg = inr resource_name_prefix ->
  let self := attributes cfg mappings logical_id_prefix resource_name_prefix
                target_branch target_environment in
  PipelineStack.__init__ lib cfg stage_contents scope construct_id
    target_environment target_branch target_aws_env env
  = match PipelineStack.create_environment_pipeline lib cfg stage_contents self
            target_environment target_aws_env
            (fresh_stack scope construct_id env) with
    | (inl e, w) => (inl e, app_of w)
    | (inr _, w) => (inr self, app_of w)
    end.
Proof.
  intros Hfresh Hstack Hm Hl Hr self. unfold PipelineStack.__init__, Stack__init__.
  rewrite decide_False by done. rewrite Hstack, Hm, Hl, Hr. cbn [lift refuse].
  unfold bind at 1 2 3 4. cbn [ret]. rewrite durable_test.
  assert ((if bool_decide (durable cfg target_environment)
           then {| PipelineStack.mappings := mappings;
                   PipelineStack.logical_id_prefix := logical_id_prefix;
                   PipelineStack.resource_name_prefix := resource_name_prefix;
                   PipelineStack.target_branch := target_branch;
                   PipelineStack.target_environment := target_environment;
                   PipelineStack.removal_policy := cdk.RETAIN;
                   PipelineStack.log_retention := logs.SIX_MONTHS |}
           else {| PipelineStack.mappings := mappings;
                   PipelineStack.logical_id_prefix := logical_id_prefix;
                   PipelineStack.resource_name_prefix := resource_name_prefix;
                   PipelineStack.target_branch := target_branch;
                   PipelineStack.target_environment := target_environment;
                   PipelineStack.removal_policy := cdk.DESTROY;
                   PipelineStack.log_retention := logs.ONE_MONTH |}) = self) as ->.
  { unfold self, attributes. case_bool_decide.
    - by rewrite !decide_True by done.
    - by rewrite !decide_False by done. }
  unfold bind, ret.
  by destruct (PipelineStack.create_environment_pipeline _ _ _ _ _ _ _) as [[e|[]] w].
Qed.

(** ** Reading a composed stack *)

(** The log groups among the children of a stack, in creation order. *)
Definition log_groups (st : Stack) : list (string * logs.LogGroup) :=
  omap (fun child => match child.2 with
                     | LogGroup l => Some (child.1, l)
                     | _ => None
                     end) (children st).

(** The buckets among the children of a stack. *)
Definition buckets (st : Stack) : list (string * s3.Bucket) :=
  omap (fun child => match child.2 with
                     | Bucket b => Some (child.1, b)
                     | _ => None
                     end) (children st).

(** The [codepipeline.Pipeline] declarations among the children. *)
Definition pipelines_of (st : Stack) : list codepipeline.Pipeline :=
  omap (fun child => match child.2 with
                     | Pipeline p => Some p
                     | _ => None
                     end) (children st).

(** The [pipelines.CodePipeline] declarations among the children. *)
Definition code_pipelines_of (st : Stack) : list pipelines.CodePipeline :=
  omap (fun child => match child.2 with
                     | CodePipeline p => Some p
                     | _ => None
                     end) (children st).

Definition actions_of (p : codepipeline.Pipeline) : list codepipeline.Action :=
  flat_map codepipeline.actions (codepipeline.stages p).

(** The log group [log_group_for] declares for a build action with
    project [project]. *)
Definition log_group_of (self : PipelineStack.t) (a : codepipeline.Action)
    (project : codebuild.PipelineProject) : string * logs.LogGroup :=
  (log_group_id (codepipeline.action_name (codepipeline.action_properties a)),
   {| logs.log_group_name := "/aws/codebuild/" +:+ codebuild.project_name project;
      logs.removal_policy := PipelineStack.removal_policy self;
      logs.retention := PipelineStack.log_retention self |}).

Lemma log_groups_of_decls self (acts : list codepipeline.Action) st :
  Forall has_project acts ->
  log_groups st = omap (fun child => match child.2 with
                                     | LogGroup l => Some (child.1, l)
                                     | _ => None
                                     end) (omap (log_group_decl self) acts) ->
  Forall2 (fun a lg =>
             exists project,
               codepipeline.resource (codepipeline.action_properties a) = Some project
               /\ lg = log_group_of self a project)
          (List.filter is_build acts) (log_groups st).
Proof.
  intros Hprojects ->. induction Hprojects as [|a acts Ha _ IH]; [constructor|].
  cbn [List.filter]. unfold has_project in Ha.
  assert (omap (log_group_decl self) (a :: acts)
          = match log_group_decl self a with
            | Some decl => decl :: omap (log_group_decl self) acts
            | None => omap (log_group_decl self) acts
            end) as -> by reflexivity.
  unfold log_group_decl at 1. destruct (is_build a); [|exact IH].
  destruct Ha as [project Hproject]; [done|]. rewrite Hproject.
  constructor; [|exact IH]. by exists project.
Qed.

Lemma filter_nil_Forall {A} (f : A -> bool) (l : list A) :
  Forall (fun x => f x = false) l -> List.filter f l = [].
Proof. induction 1 as [|x l Hx _ IH]; [done|]. cbn. by rewrite Hx. Qed.

(** The policies of the two environment classes. *)
Definition durable_policy : cdk.RemovalPolicy := cdk.RETAIN.
Definition durable_retention : logs.RetentionDays := logs.SIX_MONTHS.
Definition ephemeral_policy : cdk.RemovalPolicy := cdk.DESTROY.
Definition ephemeral_retention : logs.RetentionDays := logs.ONE_MONTH.

Definition bucket_has_policy (policy : cdk.RemovalPolicy)
    (b : string * s3.Bucket) : Prop :=
  s3.removal_policy (s3.props b.2) = policy
  /\ s3.applied_removal_policy b.2 = policy.

Definition log_group_has_policy (policy : cdk.RemovalPolicy)
    (retention : logs.RetentionDays) (l : string * logs.LogGroup) : Prop :=
  logs.removal_policy l.2 = policy /\ logs.retention l.2 = retention.

(** The artifact bucket with every setting fixed but its name and its
    removal policy. *)
Definition hardened_bucket (bucket_name : string) (policy : cdk.RemovalPolicy)
    : s3.Bucket :=
  {| s3.props :=
       {| s3.bucket_name := bucket_name;
          s3.access_control := s3.PRIVATE;
          s3.block_public_access := s3.BLOCK_ALL;
          s3.enforce_ssl := true;
          s3.bucket_key_enabled := true;
          s3.encryption := s3.KMS;
          s3.public_read_access := false;
          s3.removal_policy := policy;
          s3.versioned := true;
          s3.object_ownership := s3.OBJECT_WRITER |};
     s3.applied_removal_policy := policy;
     s3.encryption_key := Some {| kms.enable_key_rotation := Some true |};
     s3.logging_configuration := Some {| s3.log_file_prefix := "access-logs" |};
     s3.property_overrides := [ ("VersioningConfiguration.Status", "Enabled") ] |}.


(** ** What the stack leaves to the library *)

(** [s.startswith(p)] *)
Fixpoint starts_with (p s : string) : bool :=
  match p, s with
  | EmptyString, _ => true
  | String c p', String d s' => Ascii.eqb c d && starts_with p' s'
  | String _ _, EmptyString => false
  end.

(** The source action of a connection source: a CodeStarSourceConnection
    action on the repository and the branch of the source. *)
Definition source_action_of (source : pipelines.CodePipelineSource)
    (a : codepipeline.Action) : Prop :=
  codepipeline.provider (codepipeline.action_properties a)
    = "CodeStarSourceConnection"
  /\ ("FullRepositoryId", pipelines.repo_string source)
       ∈ codepipeline.configuration (codepipeline.action_properties a)
  /\ ("BranchName", pipelines.branch source)
       ∈ codepipeline.configuration (codepipeline.action_properties a).

(** The library makes the input of the synth step the one source action
    of the pipeline; this is what [test_pipeline_pulls_source_from_github]
    observes of it. *)
Definition source_from_input (lib : Library) : Prop :=
  forall pipeline stack_id me props deploy stages source,
    pipelines.input (pipelines.synth props) = Some source ->
    derive_stages lib pipeline stack_id me props deploy = (inr tt, stages) ->
    exists a,
      List.filter is_source (flat_map codepipeline.actions stages) = [ a ]
      /\ source_action_of source a.

(** A build action whose project runs [commands] in its build phase. *)
Definition runs (commands : list string) (a : codepipeline.Action) : Prop :=
  is_build a = true
  /\ exists project,
       codepipeline.resource (codepipeline.action_properties a) = Some project
       /\ forall c, c ∈ commands -> c ∈ codebuild.build_commands project.

(** The library makes the synth step a build action that runs the
    commands of the step; this is what [test_codebuild_runs_synth]
    observes of it. *)
Definition synth_step_is_built (lib : Library) : Prop :=
  forall pipeline stack_id me props deploy stages,
    derive_stages lib pipeline stack_id me props deploy = (inr tt, stages) ->
    exists a,
      a ∈ flat_map codepipeline.actions stages
      /\ runs (pipelines.commands (pipelines.synth props)) a.

(** A command that deploys the stack [stack_id] from the cloud assembly,
    as the regular expression of [test_pipeline_self_mutates] has it. *)
Definition deploys (stack_id command : string) : bool :=
  starts_with ("cdk -a . deploy " +:+ stack_id +:+ " ") command.

(** The library gives a self-mutating pipeline a build action that deploys
    the stack of the pipeline; this is what [test_pipeline_self_mutates]
    observes of it. *)
Definition self_mutation_deploys (lib : Library) : Prop :=
  forall pipeline stack_id me props deploy stages,
    pipelines.self_mutation props = true ->
    derive_stages lib pipeline stack_id me props deploy = (inr tt, stages) ->
    exists a command,
      a ∈ flat_map codepipeline.actions stages
      /\ runs [ command ] a
      /\ deploys stack_id command = true.

(** ** Compositions *)

Section Composition.

Variable lib : Library.
Variable cfg : Configuration.
Variable stage_contents : string -> PipelineDeployStage.Contents.
Variable scope : App.
Variables construct_id target_environment target_branch : string.
Variable target_aws_env : gmap string string.
Variable env : cdk.Environment.
Variable mappings : Mappings.
Variables logical_id_prefix resource_name_prefix : string.
Variable deployment : gmap string pyval.
Variables name owner : pyval.
Variables account region : string.
Variable stages : list codepipeline.Stage.

Definition composed_self : PipelineStack.t :=
  attributes cfg mappings logical_id_prefix resource_name_prefix
    target_branch target_environment.

Definition composed_target : cdk.Environment :=
  {| cdk.account := account; cdk.region := region |}.

Definition composed_source : pipelines.CodePipelineSource :=
  connection_source owner name target_branch.

Definition composed_props : pipelines.CodePipelineProps :=
  declared_props composed_self env composed_source.

Definition composed_stage : PipelineDeployStage.t :=
  declared_stage composed_self (stage_contents target_environment)
    composed_target.

(** What a call [PipelineStack(scope, construct_id, target_environment=...,
    target_branch=..., target_aws_env=..., env=...)] needs in order to
    return, whatever its scope: a configuration that resolves and names a
    GitHub repository and its owner, a target account and region, a deploy
    stage with at least one stack, a library that accepts the stack, the
    source, the bucket, the two pipelines and the stage as they are
    declared and derives the stages [stages] for them, and among the
    actions of these stages build actions that have a project and whose
    log groups are not named as one another or as the deploy stage. *)
Record Composable : Prop := {
  stack_accepted : stack_refused lib construct_id env = None;
  configurations_resolved : get_all_configurations cfg = inr mappings;
  logical_id_prefix_resolved : get_logical_id_prefix cfg = inr logical_id_prefix;
  resource_name_prefix_resolved :
    get_resource_name_prefix cfg = inr resource_name_prefix;
  bucket_accepted :
    bucket_refused lib (bucket_id composed_self) (bucket_props composed_self)
    = None;
  pipeline_accepted :
    pipeline_refused lib (pipeline_id composed_self)
      (pipeline_props composed_self) = None;
  deployment_present : mappings !! DEPLOYMENT cfg = Some deployment;
  repository_name_present :
    deployment !! GITHUB_REPOSITORY_NAME cfg = Some name;
  repository_name_truthy : truthy name = true;
  repository_owner_present :
    deployment !! GITHUB_REPOSITORY_OWNER_NAME cfg = Some owner;
  connection_accepted : connection_refused lib composed_source = None;
  code_pipeline_accepted :
    code_pipeline_refused lib (code_pipeline_id composed_self) composed_props
    = None;
  target_account_present : target_aws_env !! "account" = Some account;
  target_region_present : target_aws_env !! "region" = Some region;
  stage_accepted : stage_refused lib target_environment composed_stage = None;
  stage_has_stacks :
    PipelineDeployStage.declared_stacks (stage_contents target_environment) ≠ [];
  stage_added : add_stage_refused lib composed_props composed_stage = None;
  stages_derived :
    derive_stages lib (code_pipeline_id composed_self) construct_id env
      composed_props [ composed_stage ]
    = (inr tt, stages);
  build_actions_have_projects :
    Forall has_project (flat_map codepipeline.actions stages);
  identifiers_distinct :
    NoDup (target_environment :: (declared_log_groups composed_self stages).*1);
}.

(** The stack a composition leaves among the children of the App. *)
Definition composed_stack : Stack :=
  {| stack_env := env;
     children :=
       declared_children composed_self (stage_contents target_environment)
         env composed_target composed_source stages |}.

(** The support stacks a composition adds after the stack. *)
Definition composed_support : App :=
  later (attached (flat_map codepipeline.actions stages)
           (fresh_stack scope construct_id env)).

Lemma composition :
  construct_id ∉ scope.*1 ->
  Composable ->
  PipelineStack.__init__ lib cfg stage_contents scope construct_id
    target_environment target_branch target_aws_env env
  = (inr composed_self,
     scope ++ (construct_id, PipelineStackNode composed_stack) :: composed_support).
Proof.
  intros Hfree [].
  rewrite (init_unfold _ _ _ _ _ _ _ _ _ mappings logical_id_prefix
             resource_name_prefix) by done.
  change target_environment
    with (PipelineStack.target_environment composed_self) at 1.
  erewrite create_environment_pipeline_ok by done.
  rewrite attached_eq. reflexivity.
Qed.

(** A composition returns, leaving [stack] and then [support] after the
    earlier children of the App. *)
Definition composes_to (stack : Stack) (support : App) : Prop :=
  exists self,
    PipelineStack.__init__ lib cfg stage_contents scope construct_id
      target_environment target_branch target_aws_env env
    = (inr self, scope ++ (construct_id, PipelineStackNode stack) :: support).

Lemma composable_composes :
  construct_id ∉ scope.*1 ->
  Composable -> composes_to composed_stack composed_support.
Proof. intros Hfree H. exists composed_self. by apply composition. Qed.

Lemma declared_log_groups_are_log_groups {B} (f : string * Construct -> option B) :
  (forall id l, f (id, LogGroup l) = None) ->
  omap f (declared_log_groups composed_self stages) = [].
Proof.
  intros Hf. apply omap_none, Forall_forall.
  intros [id c] Hin. unfold declared_log_groups in Hin.
  apply list_elem_of_omap in Hin as (a & _ & Hdecl).
  unfold log_group_decl in Hdecl. destruct (is_build a); [|done].
  destruct (codepipeline.resource _); [|done]. simplify_eq. apply Hf.
Qed.

Lemma composed_buckets :
  buckets composed_stack
  = [ (bucket_id composed_self, declared_bucket composed_self) ].
Proof.
  unfold buckets, composed_stack, declared_children. cbn [children].
  rewrite omap_app, declared_log_groups_are_log_groups by done. reflexivity.
Qed.

Lemma composed_pipelines :
  pipelines_of composed_stack = [ declared_pipeline composed_self stages ].
Proof.
  unfold pipelines_of, composed_stack, declared_children. cbn [children].
  rewrite omap_app, declared_log_groups_are_log_groups by done. reflexivity.
Qed.

Lemma composed_code_pipelines :
  code_pipelines_of composed_stack
  = [ {| pipelines.props := composed_props;
         pipelines.waves := [ target_environment ];
         pipelines.created := true;
         pipelines.built := true |} ].
Proof.
  unfold code_pipelines_of, composed_stack, declared_children. cbn [children].
  rewrite omap_app, declared_log_groups_are_log_groups by done. reflexivity.
Qed.

Lemma composed_log_groups :
  log_groups composed_stack
  = omap (fun child => match child.2 with
                       | LogGroup l => Some (child.1, l)
                       | _ => None
                       end)
      (declared_log_groups composed_self stages).
Proof.
  unfold log_groups, composed_stack, declared_children. cbn [children].
  by rewrite omap_app.
Qed.

Lemma composed_log_groups_policy :
  Forall (log_group_has_policy (PipelineStack.removal_policy composed_self)
            (PipelineStack.log_retention composed_self))
         (log_groups composed_stack).
Proof.
  rewrite composed_log_groups. apply Forall_forall. intros [id l] Hin.
  apply list_elem_of_omap in Hin as ([id' c] & Hin & Hc).
  unfold declared_log_groups in Hin.
  apply list_elem_of_omap in Hin as (a & _ & Hdecl).
  unfold log_group_decl in Hdecl. destruct (is_build a); [|done].
  destruct (codepipeline.resource _); [|done]. by simplify_eq/=.
Qed.

Lemma composed_log_groups_of_build_actions :
  Composable ->
  Forall2 (fun a lg =>
             exists project,
               codepipeline.resource (codepipeline.action_properties a)
                 = Some project
               /\ lg = log_group_of composed_self a project)
          (List.filter is_build (actions_of (declared_pipeline composed_self stages)))
          (log_groups composed_stack).
Proof.
  intros []. apply (log_groups_of_decls composed_self); [done|].
  apply composed_log_groups.
Qed.

(** C1: every storage and log declaration of a composed stack carries
    the policies of the class of its target environment.  The stack has
    exactly one bucket and as many log groups as its pipeline has build
    actions.  When the target environment is PROD or TEST, the bucket and
    every log group have the durable removal policy (RETAIN) and the log
    groups the durable retention (six months); for any other target
    environment they have the ephemeral removal policy (DESTROY) and the
    ephemeral retention (one month). *)
Theorem policies_follow_environment_class :
  construct_id ∉ scope.*1 ->
  Composable ->
  exists stack support p,
    composes_to stack support
    /\ length (buckets stack) = 1
    /\ pipelines_of stack = [ p ]
    /\ length (log_groups stack) = length (List.filter is_build (actions_of p))
    /\ (durable cfg target_environment ->
        Forall (bucket_has_policy durable_policy) (buckets stack)
        /\ Forall (log_group_has_policy durable_policy durable_retention)
             (log_groups stack))
    /\ (~ durable cfg target_environment ->
        Forall (bucket_has_policy ephemeral_policy) (buckets stack)
        /\ Forall (log_group_has_policy ephemeral_policy ephemeral_retention)
             (log_groups stack)).
Proof.
  intros Hfree H. exists composed_stack, composed_support. eexists.
  split; [by apply composable_composes|].
  rewrite composed_buckets. split; [reflexivity|].
  split; [by rewrite composed_pipelines|].
  split.
  { symmetry. eapply Forall2_length.
    by apply composed_log_groups_of_build_actions. }
  pose proof composed_log_groups_policy as Hlogs. revert Hlogs.
  unfold composed_self, attributes.
  cbn [PipelineStack.removal_policy PipelineStack.log_retention].
  split; intros Hclass.
  - rewrite !decide_True in Hlogs by done. split; [|exact Hlogs].
    repeat constructor; cbn; by rewrite decide_True.
  - rewrite !decide_False in Hlogs by done. split; [|exact Hlogs].
    repeat constructor; cbn; by rewrite decide_False.
Qed.

(** C10: whatever the target environment, the artifact bucket of a
    composed stack blocks all public access, enforces SSL, is encrypted
    with a KMS key whose rotation is enabled, has private access control,
    is versioned and has server access logging configured; among its
    settings only the removal policy depends on the environment class.
    The pipeline uses that bucket as its artifact bucket. *)
Theorem artifact_bucket_is_hardened :
  construct_id ∉ scope.*1 ->
  Composable ->
  exists stack support id bucket_name policy,
    composes_to stack support
    /\ buckets stack = [ (id, hardened_bucket bucket_name policy) ]
    /\ Forall (fun p => codepipeline.artifact_bucket (codepipeline.props p) = id)
         (pipelines_of stack)
    /\ (durable cfg target_environment -> policy = durable_policy)
    /\ (~ durable cfg target_environment -> policy = ephemeral_policy).
Proof.
  intros Hfree H.
  exists composed_stack, composed_support, (bucket_id composed_self),
    (s3.bucket_name (s3.props (declared_bucket composed_self))),
    (PipelineStack.removal_policy composed_self).
  split; [by apply composable_composes|].
  split; [by rewrite composed_buckets|].
  split; [rewrite composed_pipelines; by repeat constructor|].
  cbn. split; intros Hclass; [by rewrite decide_True | by rewrite decide_False].
Qed.

(** C6: after the pipeline is built, the stack declares exactly one log
    group per build action found in the stages of the pipeline, in the
    order of the actions and no other log group; the log group of an
    action is named after the project of the action, below
    [/aws/codebuild/]. *)
Theorem one_log_group_per_build_action :
  construct_id ∉ scope.*1 ->
  Composable ->
  exists stack support p,
    composes_to stack support
    /\ pipelines_of stack = [ p ]
    /\ Forall2 (fun a lg =>
                  exists project,
                    codepipeline.resource (codepipeline.action_properties a)
                      = Some project
                    /\ lg.1 = log_group_id
                                (codepipeline.action_name
                                   (codepipeline.action_properties a))
                    /\ logs.log_group_name lg.2
                       = "/aws/codebuild/" +:+ codebuild.project_name project)
               (List.filter is_build (actions_of p)) (log_groups stack).
Proof.
  intros Hfree H. exists composed_stack, composed_support. eexists.
  split; [by apply composable_composes|].
  split; [by rewrite composed_pipelines|].
  eapply Forall2_impl.
  - by apply composed_log_groups_of_build_actions.
  - intros a lg (project & Hproject & ->). by exists project.
Qed.



End Composition.

(** * A sample library *)

(** The theorems above hold for every library.  Their witnesses and the
    examples need one: [sample_library] checks names by the rules the CDK
    documents for them and derives, from a synth step with a connection
    source, a pipeline of a source stage, a build stage, a self-mutation
    stage, a stage that publishes the file assets, and one stage per
    deploy stage with two CloudFormation actions per stack.  It settles
    nothing about the CDK: which names the CDK gives to the asset actions,
    for one, differs between its releases. *)

(** ** Names *)

Definition is_lower (c : ascii) : bool :=
  Nat.leb 97 (nat_of_ascii c) && Nat.leb (nat_of_ascii c) 122.

Definition is_upper (c : ascii) : bool :=
  Nat.leb 65 (nat_of_ascii c) && Nat.leb (nat_of_ascii c) 90.

Definition is_digit (c : ascii) : bool :=
  Nat.leb 48 (nat_of_ascii c) && Nat.leb (nat_of_ascii c) 57.

Definition is_one_of (cs : string) (c : ascii) : bool :=
  existsb (Ascii.eqb c) (list_ascii_of_string cs).

Definition all_chars (p : ascii -> bool) (s : string) : bool :=
  forallb p (list_ascii_of_string s).

Definition first_char (s : string) : option ascii :=
  match s with
  | EmptyString => None
  | String c _ => Some c
  end.

(** [p in s] *)
Fixpoint contains (p s : string) : bool :=
  starts_with p s
  || match s with
     | EmptyString => false
     | String _ s' => contains p s'
     end.

(** [s.split(sep)] *)
Fixpoint split_on (sep : ascii) (s : string) : list string :=
  match s with
  | EmptyString => [ EmptyString ]
  | String c s' =>
      if Ascii.eqb c sep then EmptyString :: split_on sep s'
      else match split_on sep s' with
           | [] => [ String c EmptyString ]
           | part :: parts => String c part :: parts
           end
  end.

(** The rules for bucket names: 3 to 63 characters, lower-case letters,
    digits, dots and hyphens only, a letter or digit at both ends, no dot
    next to a dot or a hyphen. *)
Definition valid_bucket_name (name : string) : bool :=
  Nat.leb 3 (String.length name) && Nat.leb (String.length name) 63
  && all_chars (fun c => is_lower c || is_digit c || is_one_of ".-" c) name
  && from_option (fun c => is_lower c || is_digit c) false (first_char name)
  && from_option (fun c => is_lower c || is_digit c) false (last_char name)
  && negb (contains ".." name) && negb (contains ".-" name)
  && negb (contains "-." name).

(** A repository is named [owner/repository]. *)
Definition valid_repo_string (repo_string : string) : bool :=
  match split_on "/" repo_string with
  | [ owner; repository ] =>
      negb (String.eqb owner "") && negb (String.eqb repository "")
  | _ => false
  end.

(** Stack names: a letter, then letters, digits and hyphens. *)
Definition valid_stack_name (name : string) : bool :=
  from_option (fun c => is_lower c || is_upper c) false (first_char name)
  && all_chars (fun c => is_lower c || is_upper c || is_digit c || is_one_of "-" c)
       name
  && Nat.leb (String.length name) 128.

(** Stage names: a letter, then letters, digits, hyphens, underscores and
    dots. *)
Definition valid_stage_name (name : string) : bool :=
  from_option (fun c => is_lower c || is_upper c) false (first_char name)
  && all_chars
       (fun c => is_lower c || is_upper c || is_digit c || is_one_of "-_." c) name.

(** Pipeline names: 1 to 100 letters, digits, dots, hyphens, underscores
    and at signs. *)
Definition valid_pipeline_name (name : string) : bool :=
  Nat.leb 1 (String.length name) && Nat.leb (String.length name) 100
  && all_chars
       (fun c => is_lower c || is_upper c || is_digit c || is_one_of ".@-_" c) name.

Definition unless (valid : bool) (message : string) : option exn :=
  if valid then None else Some (JsiiError message).

(** ** Stages and actions *)

(** The name of a project declared without one is a token; this is the text
    that stands for it inside a Python string. *)
Definition project_token (scope action_name : string) : string :=
  "${Token[" +:+ scope +:+ "." +:+ action_name +:+ ".Ref]}".

Definition code_build_action (scope name : string) (install build : list string)
    : codepipeline.Action :=
  {| codepipeline.action_properties := {|
       codepipeline.action_name := name;
       codepipeline.category := codepipeline.BUILD;
       codepipeline.provider := "CodeBuild";
       codepipeline.resource := Some {|
         codebuild.project_name := project_token scope name;
         codebuild.install_commands := install;
         codebuild.build_commands := build |};
       codepipeline.account := None;
       codepipeline.region := None;
       codepipeline.role := None;
       codepipeline.configuration := [] |} |}.

Definition source_action (src : pipelines.CodePipelineSource)
    : codepipeline.Action :=
  {| codepipeline.action_properties := {|
       codepipeline.action_name := pipelines.action_name src;
       codepipeline.category := codepipeline.SOURCE;
       codepipeline.provider := "CodeStarSourceConnection";
       codepipeline.resource := None;
       codepipeline.account := None;
       codepipeline.region := None;
       codepipeline.role := None;
       codepipeline.configuration :=
         [ ("ConnectionArn", pipelines.connection_arn src);
           ("FullRepositoryId", pipelines.repo_string src);
           ("BranchName", pipelines.branch src) ] |} |}.

Definition synth_action (scope : string) (step : pipelines.ShellStep)
    : codepipeline.Action :=
  code_build_action scope (pipelines.id step) [] (pipelines.commands step).

Definition self_mutate_action (scope stack_id : string) : codepipeline.Action :=
  code_build_action scope "SelfMutate" [ "npm install -g aws-cdk@2" ]
    [ "cdk -a . deploy " +:+ stack_id +:+ " --require-approval=never --verbose" ].

(** The role a deploy action assumes: the deploy role that bootstrapping
    left in the target environment. *)
Definition deploy_role (target : cdk.Environment) : string :=
  "arn:${AWS::Partition}:iam::" +:+ cdk.account target
    +:+ ":role/cdk-hnb659fds-deploy-role-" +:+ cdk.account target
    +:+ "-" +:+ cdk.region target.

(** A CloudFormation action on a stack of a stage: it assumes the deploy
    role of the target environment and names no account; it names the
    region of the target where that is not the region of the pipeline. *)
Definition cloudformation_action (me target : cdk.Environment)
    (name stack mode : string) : codepipeline.Action :=
  {| codepipeline.action_properties := {|
       codepipeline.action_name := name;
       codepipeline.category := codepipeline.DEPLOY;
       codepipeline.provider := "CloudFormation";
       codepipeline.resource := None;
       codepipeline.account := None;
       codepipeline.region :=
         if decide (cdk.region target = cdk.region me) then None
         else Some (cdk.region target);
       codepipeline.role := Some (deploy_role target);
       codepipeline.configuration :=
         [ ("StackName", stack); ("ActionMode", mode) ] |} |}.

(** The change sets of all stacks of a stage are prepared, then they are
    executed; the actions of a stage with one stack are named [Prepare]
    and [Deploy]. *)
Definition deploy_actions (me : cdk.Environment) (st : PipelineDeployStage.t)
    : list codepipeline.Action :=
  let target := PipelineDeployStage.env st in
  match PipelineDeployStage.stacks st with
  | [ stack ] =>
      [ cloudformation_action me target "Prepare" stack "CHANGE_SET_REPLACE";
        cloudformation_action me target "Deploy" stack "CHANGE_SET_EXECUTE" ]
  | stacks =>
      map (fun stack =>
             cloudformation_action me target (stack +:+ ".Prepare") stack
               "CHANGE_SET_REPLACE") stacks
      ++ map (fun stack =>
                cloudformation_action me target (stack +:+ ".Deploy") stack
                  "CHANGE_SET_EXECUTE") stacks
  end.

Definition asset_name (i : nat) : string := "FileAsset" +:+ pretty (S i).

Definition asset_actions (scope : string) (assets : list (list string))
    : list codepipeline.Action :=
  imap (fun i publish =>
          code_build_action scope (asset_name i)
            [ "npm install -g cdk-assets@latest" ] publish)
       assets.

(** The stages of a pipeline with a source. *)
Definition pipeline_stages (scope stack_id : string) (me : cdk.Environment)
    (props : pipelines.CodePipelineProps) (src : pipelines.CodePipelineSource)
    (deploy : list PipelineDeployStage.t) : list codepipeline.Stage :=
  [ {| codepipeline.stage_name := "Source";
       codepipeline.actions := [ source_action src ] |};
    {| codepipeline.stage_name := "Build";
       codepipeline.actions := [ synth_action scope (pipelines.synth props) ] |} ]
  ++ (if pipelines.self_mutation props
      then [ {| codepipeline.stage_name := "UpdatePipeline";
                codepipeline.actions := [ self_mutate_action scope stack_id ] |} ]
      else [])
  ++ (match flat_map PipelineDeployStage.file_assets deploy with
      | [] => []
      | assets => [ {| codepipeline.stage_name := "Assets";
                       codepipeline.actions := asset_actions scope assets |} ]
      end)
  ++ map (fun st => {| codepipeline.stage_name :=
                         PipelineDeployStage.target_environment st;
                       codepipeline.actions := deploy_actions me st |})
         deploy.

(** The error of a synth step that has no input in a pipeline that has no
    source; the build stage is attached by then, without actions. *)
Definition synth_requires_input : exn :=
  JsiiError "CodeBuild action 'Synth' requires an input (and the pipeline doesn't have a Source to fall back to). Add an input or a pipeline source.".

Definition sample_library : Library :=
  {| stack_refused id _ :=
       unless (valid_stack_name id)
         ("Stack name must match the regular expression: /^[A-Za-z][A-Za-z0-9-]*$/, got '"
            +:+ id +:+ "'");
     bucket_refused _ props :=
       unless (valid_bucket_name (s3.bucket_name props))
         ("Invalid S3 bucket name (value: " +:+ s3.bucket_name props +:+ ")");
     pipeline_refused _ props :=
       unless (valid_pipeline_name (codepipeline.pipeline_name props))
         ("Pipeline name must match regular expression: /^[a-zA-Z0-9.@\-_]+$/, got '"
            +:+ codepipeline.pipeline_name props +:+ "'");
     connection_refused source :=
       unless (valid_repo_string (pipelines.repo_string source))
         ("CodeStar repository name should be a resolved string like '<owner>/<repo>', got '"
            +:+ pipelines.repo_string source +:+ "'");
     code_pipeline_refused _ _ := None;
     stage_refused id _ :=
       unless (valid_stage_name id)
         ("invalid stage name '" +:+ id
            +:+ "'. Stage name must start with a letter and contain only alphanumeric characters, hypens ('-'), underscores ('_') and periods ('.')");
     add_stage_refused _ _ := None;
     derive_stages pipeline stack_id me props deploy :=
       match pipelines.input (pipelines.synth props) with
       | Some source =>
           (inr tt, pipeline_stages pipeline stack_id me props source deploy)
       | None =>
           (inl synth_requires_input,
            [ {| codepipeline.stage_name := "Build";
                 codepipeline.actions := [] |} ])
       end |}.

(** ** The sample library does what the theorems ask of a library *)

(** The actions of the pipeline, stage after stage. *)
Lemma pipeline_stages_actions scope stack_id me props src deploy :
  flat_map codepipeline.actions
    (pipeline_stages scope stack_id me props src deploy)
  = [ source_action src; synth_action scope (pipelines.synth props) ]
    ++ (if pipelines.self_mutation props
        then [ self_mutate_action scope stack_id ] else [])
    ++ asset_actions scope (flat_map PipelineDeployStage.file_assets deploy)
    ++ flat_map (deploy_actions me) deploy.
Proof.
  unfold pipeline_stages. rewrite !flat_map_app.
  change (flat_map codepipeline.actions
            [ {| codepipeline.stage_name := "Source";
                 codepipeline.actions := [ source_action src ] |};
              {| codepipeline.stage_name := "Build";
                 codepipeline.actions :=
                   [ synth_action scope (pipelines.synth props) ] |} ])
    with [ source_action src; synth_action scope (pipelines.synth props) ].
  f_equal. f_equal; [by destruct (pipelines.self_mutation props)|].
  f_equal.
  - destruct (flat_map PipelineDeployStage.file_assets deploy); [done|].
    cbn [flat_map codepipeline.actions]. by rewrite app_nil_r.
  - induction deploy as [|st deploy IH]; [done|]. cbn. by rewrite IH.
Qed.

(** Every deploy action is a CloudFormation action in the environment of
    the stage. *)
Lemma deploy_actions_cloudformation me st a :
  a ∈ deploy_actions me st ->
  exists name stack mode,
    a = cloudformation_action me (PipelineDeployStage.env st) name stack mode.
Proof.
  unfold deploy_actions. intros Hin.
  assert (a ∈ map (fun stack =>
                     cloudformation_action me (PipelineDeployStage.env st)
                       (stack +:+ ".Prepare") stack "CHANGE_SET_REPLACE")
                (PipelineDeployStage.stacks st)
              ++ map (fun stack =>
                        cloudformation_action me (PipelineDeployStage.env st)
                          (stack +:+ ".Deploy") stack "CHANGE_SET_EXECUTE")
                   (PipelineDeployStage.stacks st)
          -> exists name stack mode,
               a = cloudformation_action me (PipelineDeployStage.env st)
                     name stack mode) as Hmany.
  { intros [H|H]%elem_of_app; apply list_elem_of_In, in_map_iff in H
      as (stack & <- & _); by do 3 eexists. }
  destruct (PipelineDeployStage.stacks st) as [|s1 [|s2 rest]]; [by apply Hmany| |by apply Hmany].
  apply elem_of_cons in Hin as [->|Hin]; [by do 3 eexists|].
  apply list_elem_of_singleton in Hin as ->. by do 3 eexists.
Qed.

Lemma deploy_actions_nonempty me st :
  PipelineDeployStage.stacks st ≠ [] -> deploy_actions me st ≠ [].
Proof.
  unfold deploy_actions.
  by destruct (PipelineDeployStage.stacks st) as [|s1 [|s2 rest]].
Qed.

Lemma sample_has_projects scope stack_id me props src deploy :
  Forall has_project
    (flat_map codepipeline.actions
       (pipeline_stages scope stack_id me props src deploy)).
Proof.
  rewrite pipeline_stages_actions. repeat apply Forall_app_2.
  - apply Forall_cons. split; [intros [=]|].
    apply Forall_cons. split; [intros _; by eexists | apply Forall_nil_2].
  - destruct (pipelines.self_mutation props); [|apply Forall_nil_2].
    apply Forall_cons. split; [intros _; by eexists | apply Forall_nil_2].
  - apply Forall_forall. intros a [i [publish [-> _]]]%elem_of_lookup_imap.
    intros _; by eexists.
  - apply Forall_flat_map, Forall_forall. intros st _.
    apply Forall_forall. intros a (n & s & m & ->)%deploy_actions_cloudformation.
    intros [=].
Qed.

Lemma sample_derives pipeline stack_id me props deploy stages :
  derive_stages sample_library pipeline stack_id me props deploy = (inr tt, stages) ->
  exists source,
    pipelines.input (pipelines.synth props) = Some source
    /\ stages = pipeline_stages pipeline stack_id me props source deploy.
Proof.
  cbn. destruct (pipelines.input (pipelines.synth props)) as [source|]; [|done].
  intros [= <-]. by exists source.
Qed.

Lemma filter_nil_Forall' {A} (f : A -> bool) (l : list A) :
  (forall x, x ∈ l -> f x = false) -> List.filter f l = [].
Proof. intros H. apply filter_nil_Forall, Forall_forall, H. Qed.

Lemma sample_source_from_input : source_from_input sample_library.
Proof.
  intros pipeline stack_id me props deploy stages source Hinput
    (source' & Hinput' & ->)%sample_derives.
  assert (source' = source) as -> by congruence.
  exists (source_action source). split.
  - rewrite pipeline_stages_actions. cbn [app List.filter is_source].
    cbn. rewrite !List.filter_app, !filter_nil_Forall'; [reflexivity|..].
    + intros a (st & _ & Hin%list_elem_of_In)%list_elem_of_In%in_flat_map.
      by apply deploy_actions_cloudformation in Hin as (n & s & m & ->).
    + by intros a [i [publish [-> _]]]%elem_of_lookup_imap.
    + destruct (pipelines.self_mutation props); intros a Hin.
      * by apply list_elem_of_singleton in Hin as ->.
      * by apply elem_of_nil in Hin.
  - unfold source_action_of. cbn. rewrite !elem_of_cons. tauto.
Qed.

Lemma sample_synth_step_is_built : synth_step_is_built sample_library.
Proof.
  intros pipeline stack_id me props deploy stages
    (source & Hinput & ->)%sample_derives.
  exists (synth_action pipeline (pipelines.synth props)). split.
  - rewrite pipeline_stages_actions. cbn. rewrite !elem_of_cons. auto.
  - split; [reflexivity|]. eexists. split; [reflexivity|]. auto.
Qed.

Lemma starts_with_append (p s : string) : starts_with p (p +:+ s) = true.
Proof.
  induction p as [|c p IH]; [done|]. rewrite append_cons. cbn.
  by rewrite Ascii.eqb_refl.
Qed.

Lemma append_assoc (s t u : string) : (s +:+ t) +:+ u = s +:+ (t +:+ u).
Proof.
  induction s as [|c s IH]; [done|]. rewrite !append_cons. by rewrite IH.
Qed.

Lemma sample_self_mutation_deploys : self_mutation_deploys sample_library.
Proof.
  intros pipeline stack_id me props deploy stages Hmutation
    (source & Hinput & ->)%sample_derives.
  exists (self_mutate_action pipeline stack_id). eexists. split; [|split].
  - rewrite pipeline_stages_actions, Hmutation. cbn. rewrite !elem_of_cons. auto.
  - split; [reflexivity|]. eexists. split; [reflexivity|].
    intros c Hc. exact Hc.
  - unfold deploys.
    assert ("cdk -a . deploy " +:+ stack_id +:+ " --require-approval=never --verbose"
            = ("cdk -a . deploy " +:+ stack_id +:+ " ")
                +:+ "--require-approval=never --verbose") as ->.
    { rewrite !append_assoc. reflexivity. }
    apply starts_with_append.
Qed.

(** ** The configuration of the tests *)

(** What [mock_get_local_configuration_with_github] puts under the
    deployment key. *)
Definition mock_deployment : gmap string pyval :=
  {[ "github_repository_name" := PyStr "mock-github-repository";
     "github_repository_owner_name" := PyStr "hernandj" ]}.

Definition mock_mappings : Mappings := {[ "Deploy" := mock_deployment ]}.

Definition mock_configuration : Configuration :=
  {| PROD := "Prod";
     TEST := "Test";
     DEPLOYMENT := "Deploy";
     GITHUB_REPOSITORY_NAME := "github_repository_name";
     GITHUB_REPOSITORY_OWNER_NAME := "github_repository_owner_name";
     get_all_configurations := inr mock_mappings;
     get_logical_id_prefix := inr "TestLake";
     get_resource_name_prefix := inr "testlake" |}.

Definition DEV : string := "Dev".
Definition mock_account_id : string := "notrealaccountid".
Definition mock_region : string := "us-east-1".

Definition mock_env : cdk.Environment :=
  {| cdk.account := mock_account_id; cdk.region := mock_region |}.

(** A deploy stage with three stacks that publish two file assets. *)
Definition mock_stage_contents (target_environment : string)
    : PipelineDeployStage.Contents :=
  {| PipelineDeployStage.declared_stacks :=
       [ target_environment +:+ "TestLakeEtlDynamoDb";
         target_environment +:+ "TestLakeEtlGlue";
         target_environment +:+ "TestLakeEtlStepFunctions" ];
     PipelineDeployStage.published_file_assets :=
       [ [ "cdk-assets publish glue-scripts" ];
         [ "cdk-assets publish state-machine" ] ] |}.

Definition target_aws_env (account region : string) : gmap string string :=
  {[ "account" := account; "region" := region ]}.

Lemma target_aws_env_account account region :
  target_aws_env account region !! "account" = Some account.
Proof. unfold target_aws_env. apply lookup_insert_eq. Qed.

Lemma target_aws_env_region account region :
  target_aws_env account region !! "region" = Some region.
Proof.
  unfold target_aws_env. rewrite lookup_insert_ne by discriminate.
  apply lookup_singleton_eq.
Qed.

(** The stack object of the call for a target environment. *)
Definition mock_stack_object (target_environment : string) : PipelineStack.t :=
  attributes mock_configuration mock_mappings "TestLake" "testlake" "main"
    target_environment.

Definition mock_source : pipelines.CodePipelineSource :=
  connection_source (PyStr "hernandj") (PyStr "mock-github-repository") "main".

(** The stages the sample library derives for the stack of a target
    environment composed as the tests do. *)
Definition mock_stages (target_environment account region : string)
    : list codepipeline.Stage :=
  pipeline_stages (code_pipeline_id (mock_stack_object target_environment))
    (target_environment +:+ "-PipelineStackForTests") mock_env
    (declared_props (mock_stack_object target_environment) mock_env mock_source)
    mock_source
    [ declared_stage (mock_stack_object target_environment)
        (mock_stage_contents target_environment)
        {| cdk.account := account; cdk.region := region |} ].

(** The calls of the tests, for their three target environments and any
    target account and region. *)
Lemma mock_composable (target_environment account region : string) :
  target_environment ∈ [ "Dev"; "Test"; "Prod" ] ->
  Composable sample_library mock_configuration mock_stage_contents
    (target_environment +:+ "-PipelineStackForTests") target_environment "main"
    (target_aws_env account region) mock_env mock_mappings "TestLake" "testlake"
    mock_deployment (PyStr "mock-github-repository") (PyStr "hernandj")
    account region (mock_stages target_environment account region).
Proof.
  intros Hte.
  assert (NoDup (target_environment
                   :: (declared_log_groups (mock_stack_object target_environment)
                         (mock_stages target_environment account region)).*1))
    as Hids.
  { rewrite !elem_of_cons, elem_of_nil in Hte.
    destruct Hte as [->|[->|[->|[]]]];
      apply (bool_decide_unpack _); vm_compute; exact I. }
  rewrite !elem_of_cons, elem_of_nil in Hte.
  split; try exact Hids; try apply sample_has_projects;
    try apply target_aws_env_account; try apply target_aws_env_region;
    try discriminate;
    destruct Hte as [->|[->|[->|[]]]]; reflexivity.
Qed.

Lemma policies_follow_environment_class_witness :
  (exists stack support p,
     composes_to sample_library mock_configuration mock_stage_contents []
       "Prod-PipelineStackForTests" "Prod" "main"
       (target_aws_env mock_account_id mock_region) mock_env stack support
     /\ length (buckets stack) = 1
     /\ pipelines_of stack = [ p ]
     /\ length (log_groups stack) = length (List.filter is_build (actions_of p))
     /\ Forall (bucket_has_policy durable_policy) (buckets stack)
     /\ Forall (log_group_has_policy durable_policy durable_retention)
          (log_groups stack))
  /\ (exists stack support p,
        composes_to sample_library mock_configuration mock_stage_contents []
          "Dev-PipelineStackForTests" "Dev" "main"
          (target_aws_env mock_account_id mock_region) mock_env stack support
        /\ length (buckets stack) = 1
        /\ pipelines_of stack = [ p ]
        /\ length (log_groups stack) = length (List.filter is_build (actions_of p))
        /\ Forall (bucket_has_policy ephemeral_policy) (buckets stack)
        /\ Forall (log_group_has_policy ephemeral_policy ephemeral_retention)
             (log_groups stack)).
Proof.
  split.
  - destruct (policies_follow_environment_class sample_library mock_configuration
                mock_stage_contents [] "Prod-PipelineStackForTests" "Prod" "main"
                (target_aws_env mock_account_id mock_region) mock_env
                mock_mappings "TestLake" "testlake" mock_deployment
                (PyStr "mock-github-repository") (PyStr "hernandj")
                mock_account_id mock_region
                (mock_stages "Prod" mock_account_id mock_region))
      as (stack & support & p & Hrun & Hbuckets & Hp & Hlength & Hdurable & _).
    + apply not_elem_of_nil.
    + apply (mock_composable "Prod"). rewrite !elem_of_cons. auto.
    + exists stack, support, p. repeat split; try done; apply Hdurable; by left.
  - destruct (policies_follow_environment_class sample_library mock_configuration
                mock_stage_contents [] "Dev-PipelineStackForTests" "Dev" "main"
                (target_aws_env mock_account_id mock_region) mock_env
                mock_mappings "TestLake" "testlake" mock_deployment
                (PyStr "mock-github-repository") (PyStr "hernandj")
                mock_account_id mock_region
                (mock_stages "Dev" mock_account_id mock_region))
      as (stack & support & p & Hrun & Hbuckets & Hp & Hlength & _ & Hephemeral).
    + apply not_elem_of_nil.
    + apply (mock_composable "Dev"). rewrite !elem_of_cons. auto.
    + exists stack, support, p.
      repeat split; try done; apply Hephemeral; by intros [|].
Defined.

Lemma artifact_bucket_is_hardened_witness :
  exists stack support id bucket_name policy,
    composes_to sample_library mock_configuration mock_stage_contents []
      "Dev-PipelineStackForTests" "Dev" "main"
      (target_aws_env mock_account_id mock_region) mock_env stack support
    /\ buckets stack = [ (id, hardened_bucket bucket_name policy) ]
    /\ Forall (fun p => codepipeline.artifact_bucket (codepipeline.props p) = id)
         (pipelines_of stack)
    /\ (durable mock_configuration "Dev" -> policy = durable_policy)
    /\ (~ durable mock_configuration "Dev" -> policy = ephemeral_policy).
Proof.
  eapply artifact_bucket_is_hardened.
  - apply not_elem_of_nil.
  - apply (mock_composable "Dev"). rewrite !elem_of_cons. auto.
Defined.

Lemma one_log_group_per_build_action_witness :
  exists stack support p,
    composes_to sample_library mock_configuration mock_stage_contents []
      "Dev-PipelineStackForTests" "Dev" "main"
      (target_aws_env mock_account_id mock_region) mock_env stack support
    /\ pipelines_of stack = [ p ]
    /\ Forall2 (fun a lg =>
                  exists project,
                    codepipeline.resource (codepipeline.action_properties a)
                      = Some project
                    /\ lg.1 = log_group_id
                                (codepipeline.action_name
                                   (codepipeline.action_properties a))
                    /\ logs.log_group_name lg.2
                       = "/aws/codebuild/" +:+ codebuild.project_name project)
               (List.filter is_build (actions_of p)) (log_groups stack).
Proof.
  eapply one_log_group_per_build_action.
  - apply not_elem_of_nil.
  - apply (mock_composable "Dev"). rewrite !elem_of_cons. auto.
Defined.



(** The tests on one stack, evaluated with the sample library. *)

Definition dev_stack_of_the_tests : (exn + PipelineStack.t) * App :=
  PipelineStack.__init__ sample_library mock_configuration mock_stage_contents []
    "Dev-PipelineStackForTests" DEV "main"
    (target_aws_env mock_account_id mock_region) mock_env.

Definition prod_stack_of_the_tests : (exn + PipelineStack.t) * App :=
  PipelineStack.__init__ sample_library mock_configuration mock_stage_contents []
    "Prod-PipelineStackForTests" "Prod" "main"
    (target_aws_env mock_account_id mock_region) mock_env.

Definition top_level_stacks (app : App) : list Stack :=
  omap (fun child => match child.2 with
                     | PipelineStackNode st => Some st
                     | _ => None
                     end) app.

Example dev_log_groups :
  (fun st => (fun lg => (lg.1, logs.removal_policy lg.2, logs.retention lg.2))
               <$> log_groups st) <$> top_level_stacks dev_stack_of_the_tests.2
  = [ [ ("CodeBuildActionSynthLogGroup", cdk.DESTROY, logs.ONE_MONTH);
        ("CodeBuildActionSelfMutateLogGroup", cdk.DESTROY, logs.ONE_MONTH);
        ("CodeBuildActionFileAsset1LogGroup", cdk.DESTROY, logs.ONE_MONTH);
        ("CodeBuildActionFileAsset2LogGroup", cdk.DESTROY, logs.ONE_MONTH) ] ].
Proof. vm_compute. reflexivity. Qed.

Example prod_log_groups :
  (fun st => (fun lg => (lg.1, logs.removal_policy lg.2, logs.retention lg.2))
               <$> log_groups st) <$> top_level_stacks prod_stack_of_the_tests.2
  = [ [ ("CodeBuildActionSynthLogGroup", cdk.RETAIN, logs.SIX_MONTHS);
        ("CodeBuildActionSelfMutateLogGroup", cdk.RETAIN, logs.SIX_MONTHS);
        ("CodeBuildActionFileAsset1LogGroup", cdk.RETAIN, logs.SIX_MONTHS);
        ("CodeBuildActionFileAsset2LogGroup", cdk.RETAIN, logs.SIX_MONTHS) ] ].
Proof. vm_compute. reflexivity. Qed.

(** [test_pipeline_self_mutates] and [test_codebuild_runs_synth]: the
    build commands of the projects of the build actions. *)
Example dev_build_commands :
  (fun st =>
     (fun p => omap (fun a => codebuild.build_commands
                                <$> codepipeline.resource
                                      (codepipeline.action_properties a))
                 (List.filter is_build (actions_of p)))
       <$> pipelines_of st) <$> top_level_stacks dev_stack_of_the_tests.2
  = [ [ [ [ "npm install -g aws-cdk";
            "python -m pip install -r requirements.txt --root-user-action=ignore";
            "cdk synth" ];
          [ "cdk -a . deploy Dev-PipelineStackForTests --require-approval=never --verbose" ];
          [ "cdk-assets publish glue-scripts" ];
          [ "cdk-assets publish state-machine" ] ] ] ].
Proof. vm_compute. reflexivity. Qed.

(** The names the library refuses: an upper-case resource name prefix
    makes an invalid bucket name, an empty repository owner an invalid
    repository. *)
Example upper_case_resource_name_prefix_is_refused :
  valid_bucket_name "dev-testlake-etl-pipeline-artifact" = true
  /\ valid_bucket_name "dev-TestLake-etl-pipeline-artifact" = false
  /\ valid_repo_string "hernandj/mock-github-repository" = true
  /\ valid_repo_string "/mock-github-repository" = false.
Proof. vm_compute. auto. Qed.

(** * Configurations that name no repository or do not resolve *)

Lemma app_of_declared declared acts scope construct_id env :
  app_of (set_children (fun _ => declared)
            (attached acts (fresh_stack scope construct_id env)))
  = scope
    ++ (construct_id,
        PipelineStackNode {| stack_env := env; children := declared |})
    :: later (attached acts (fresh_stack scope construct_id env)).
Proof. rewrite attached_eq. reflexivity. Qed.

(** ** A repository name that is absent or empty *)

(** The repository name is missing from the deployment mapping: the key
    is absent, or it is bound to a value that is not truthy, as [None]
    and the empty string are. *)
Definition repository_name_missing (cfg : Configuration)
    (deployment : gmap string pyval) : Prop :=
  deployment !! GITHUB_REPOSITORY_NAME cfg = None
  \/ exists name,
       deployment !! GITHUB_REPOSITORY_NAME cfg = Some name
       /\ truthy name = false.

(** The claim that [get_codepipeline_source] returns [None], and raises
    nothing, whenever the repository name is missing. *)
Definition missing_repository_name_returns_none : Prop :=
  forall lib cfg self deployment w,
    PipelineStack.mappings self !! DEPLOYMENT cfg = Some deployment ->
    repository_name_missing cfg deployment ->
    PipelineStack.get_codepipeline_source lib cfg self w = (inr None, w).

(** C9, as amended.  When the repository name is bound to a value that
    is not truthy, [get_codepipeline_source] returns [None] and raises
    nothing, whatever its declared return type; the synth step and the
    pipeline are declared without input, and the run fails, if it does,
    in [build_pipeline], with the error of the library: by then the
    bucket, the two pipelines and the deploy stage are declared.  When the
    key is absent from the deployment mapping, [get_codepipeline_source]
    raises [KeyError], and so does [__init__], with the bucket and the
    pipeline declared. *)
Theorem repository_name_empty_or_absent
    lib cfg stage_contents scope construct_id target_environment target_branch
    target_aws_env env mappings logical_id_prefix resource_name_prefix deployment :
  construct_id ∉ scope.*1 ->
  stack_refused lib construct_id env = None ->
  get_all_configurations cfg = inr mappings ->
  get_logical_id_prefix cfg = inr logical_id_prefix ->
  get_resource_name_prefix cfg = inr resource_name_prefix ->
  mappings !! DEPLOYMENT cfg = Some deployment ->
  let self := attributes cfg mappings logical_id_prefix resource_name_prefix
                target_branch target_environment in
  let contents := stage_contents target_environment in
  bucket_refused lib (bucket_id self) (bucket_props self) = None ->
  pipeline_refused lib (pipeline_id self) (pipeline_props self) = None ->
  (forall name,
     deployment !! GITHUB_REPOSITORY_NAME cfg = Some name ->
     truthy name = false ->
     (forall w,
        PipelineStack.get_codepipeline_source lib cfg self w = (inr None, w))
     /\ forall account region e stages,
          code_pipeline_refused lib (code_pipeline_id self)
            (code_pipeline_props self env None) = None ->
          target_aws_env !! "account" = Some account ->
          target_aws_env !! "region" = Some region ->
          let target := {| cdk.account := account; cdk.region := region |} in
          stage_refused lib target_environment
            (declared_stage self contents target) = None ->
          PipelineDeployStage.declared_stacks contents ≠ [] ->
          add_stage_refused lib (code_pipeline_props self env None)
            (declared_stage self contents target) = None ->
          derive_stages lib (code_pipeline_id self) construct_id env
            (code_pipeline_props self env None)
            [ declared_stage self contents target ]
          = (inl e, stages) ->
          PipelineStack.__init__ lib cfg stage_contents scope construct_id
            target_environment target_branch target_aws_env env
          = (inl e,
             scope
             ++ (construct_id,
                 PipelineStackNode
                   {| stack_env := env;
                      children :=
                        children_unbuilt self contents env target None true
                          stages |})
             :: later (attached (flat_map codepipeline.actions stages)
                         (fresh_stack scope construct_id env))))
  /\ (deployment !! GITHUB_REPOSITORY_NAME cfg = None ->
      (forall w,
         PipelineStack.get_codepipeline_source lib cfg self w
         = (inl (KeyError (GITHUB_REPOSITORY_NAME cfg)), w))
      /\ PipelineStack.__init__ lib cfg stage_contents scope construct_id
           target_environment target_branch target_aws_env env
         = (inl (KeyError (GITHUB_REPOSITORY_NAME cfg)),
            scope
            ++ [ (construct_id,
                  PipelineStackNode
                    {| stack_env := env;
                       children := children_before_source self |}) ])).
Proof.
  intros Hfree Hstack Hm Hl Hr Hd self contents Hbucket Hpipeline. split.
  - intros name Hn Hfalsy. split.
    { intros w. by eapply get_codepipeline_source_falsy. }
    intros account region e stages Hcp Ha Hreg target Hstage Hstacks Hadd
      Hderived.
    rewrite (init_unfold _ _ _ _ _ _ _ _ _ mappings logical_id_prefix
               resource_name_prefix) by done.
    fold self.
    change target_environment with (PipelineStack.target_environment self) at 1.
    rewrite create_environment_pipeline_until_source by done.
    unfold from_source.
    erewrite bind_ok by (by eapply get_codepipeline_source_falsy).
    rewrite from_code_pipeline_accepted by done.
    erewrite from_stage_added by done.
    erewrite from_build_raises by done.
    by rewrite app_of_declared.
  - intros Hn. split.
    { intros w. by eapply get_codepipeline_source_no_name. }
    rewrite (init_unfold _ _ _ _ _ _ _ _ _ mappings logical_id_prefix
               resource_name_prefix) by done.
    fold self.
    change target_environment with (PipelineStack.target_environment self) at 1.
    rewrite create_environment_pipeline_until_source by done.
    unfold from_source.
    erewrite bind_raise by (by eapply get_codepipeline_source_no_name).
    reflexivity.
Qed.

(** The configuration of the tests with another repository name. *)
Definition configuration_with_repository_name (name : pyval) : Configuration :=
  {| PROD := "Prod";
     TEST := "Test";
     DEPLOYMENT := "Deploy";
     GITHUB_REPOSITORY_NAME := "github_repository_name";
     GITHUB_REPOSITORY_OWNER_NAME := "github_repository_owner_name";
     get_all_configurations :=
       inr {[ "Deploy" := {[ "github_repository_name" := name;
                             "github_repository_owner_name" := PyStr "hernandj" ]} ]};
     get_logical_id_prefix := inr "TestLake";
     get_resource_name_prefix := inr "testlake" |}.

(** [mock_configuration_base] of the tests, which names no repository,
    under the deployment key. *)
Definition deployment_without_repository : gmap string pyval :=
  {[ "logical_id_prefix" := PyStr "TestLake";
     "resource_name_prefix" := PyStr "testlake";
     "lineage" := PyBool true ]}.

Definition configuration_without_repository : Configuration :=
  {| PROD := "Prod";
     TEST := "Test";
     DEPLOYMENT := "Deploy";
     GITHUB_REPOSITORY_NAME := "github_repository_name";
     GITHUB_REPOSITORY_OWNER_NAME := "github_repository_owner_name";
     get_all_configurations := inr {[ "Deploy" := deployment_without_repository ]};
     get_logical_id_prefix := inr "TestLake";
     get_resource_name_prefix := inr "testlake" |}.

(** The stack object of the development stack, given the mappings. *)
Definition dev_stack_object (cfg : Configuration) (mappings : Mappings)
    : PipelineStack.t :=
  attributes cfg mappings "TestLake" "testlake" "main" DEV.

(** With the key absent the source is not [None]: the subscript
    raises. *)
Lemma absent_repository_name_raises : ~ missing_repository_name_returns_none.
Proof.
  intros Hclaim.
  specialize (Hclaim sample_library configuration_without_repository
                (dev_stack_object configuration_without_repository
                   {[ "Deploy" := deployment_without_repository ]})
                deployment_without_repository
                (fresh_stack [] "Dev-PipelineStackForTests" mock_env)
                eq_refl (or_introl eq_refl)).
  discriminate Hclaim.
Qed.

Lemma repository_name_empty_or_absent_witness :
  let empty := configuration_with_repository_name (PyStr "") in
  let absent := configuration_without_repository in
  let empty_mappings : Mappings :=
    {[ "Deploy" := {[ "github_repository_name" := PyStr "";
                      "github_repository_owner_name" := PyStr "hernandj" ]} ]} in
  let absent_mappings : Mappings :=
    {[ "Deploy" := deployment_without_repository ]} in
  ((forall w,
      PipelineStack.get_codepipeline_source sample_library empty
        (dev_stack_object empty empty_mappings) w = (inr None, w))
   /\ PipelineStack.__init__ sample_library empty mock_stage_contents []
        "Dev-PipelineStackForTests" DEV "main"
        (target_aws_env mock_account_id mock_region) mock_env
      = (inl synth_requires_input,
         [ ("Dev-PipelineStackForTests",
            PipelineStackNode
              {| stack_env := mock_env;
                 children :=
                   children_unbuilt (dev_stack_object empty empty_mappings)
                     (mock_stage_contents DEV) mock_env mock_env None true
                     [ {| codepipeline.stage_name := "Build";
                          codepipeline.actions := [] |} ] |}) ]))
  /\ ((forall w,
         PipelineStack.get_codepipeline_source sample_library absent
           (dev_stack_object absent absent_mappings) w
         = (inl (KeyError "github_repository_name"), w))
      /\ PipelineStack.__init__ sample_library absent mock_stage_contents []
           "Dev-PipelineStackForTests" DEV "main"
           (target_aws_env mock_account_id mock_region) mock_env
         = (inl (KeyError "github_repository_name"),
            [ ("Dev-PipelineStackForTests",
               PipelineStackNode
                 {| stack_env := mock_env;
                    children :=
                      children_before_source
                        (dev_stack_object absent absent_mappings) |}) ])).
Proof.
  intros empty absent empty_mappings absent_mappings. split.
  - destruct (repository_name_empty_or_absent sample_library empty
                mock_stage_contents [] "Dev-PipelineStackForTests" DEV "main"
                (target_aws_env mock_account_id mock_region) mock_env
                empty_mappings "TestLake" "testlake"
                {[ "github_repository_name" := PyStr "";
                   "github_repository_owner_name" := PyStr "hernandj" ]})
      as [Hempty _]; try reflexivity; [apply not_elem_of_nil|].
    destruct (Hempty (PyStr "") eq_refl eq_refl) as [Hsource Hinit].
    split; [exact Hsource|].
    apply (Hinit mock_account_id mock_region); try reflexivity. discriminate.
  - destruct (repository_name_empty_or_absent sample_library absent
                mock_stage_contents [] "Dev-PipelineStackForTests" DEV "main"
                (target_aws_env mock_account_id mock_region) mock_env
                absent_mappings "TestLake" "testlake"
                deployment_without_repository)
      as [_ Habsent]; try reflexivity; [apply not_elem_of_nil|].
    exact (Habsent eq_refl).
Defined.

(** A repository name that is [None] behaves as the empty one. *)
Example none_repository_name :
  (PipelineStack.__init__ sample_library
     (configuration_with_repository_name PyNone) mock_stage_contents []
     "Dev-PipelineStackForTests" DEV "main"
     (target_aws_env mock_account_id mock_region) mock_env).1
  = inl synth_requires_input.
Proof. vm_compute. reflexivity. Qed.

(** ** Failing configurations *)

(** The error of the first of the three lookups of [__init__] that
    raises. *)
Definition resolution_failure (cfg : Configuration) : option exn :=
  match get_all_configurations cfg with
  | inl e => Some e
  | inr _ =>
      match get_logical_id_prefix cfg with
      | inl e => Some e
      | inr _ =>
          match get_resource_name_prefix cfg with
          | inl e => Some e
          | inr _ => None
          end
      end
  end.

(** The claim of a composition that fails without a trace: whenever
    [__init__] raises, the App is as it was. *)
Definition fails_without_declarations : Prop :=
  forall lib cfg stage_contents scope construct_id target_environment
         target_branch target_aws_env env e app,
    PipelineStack.__init__ lib cfg stage_contents scope construct_id
      target_environment target_branch target_aws_env env = (inl e, app) ->
    app = scope.

(** C8, as amended: when one of the lookups at the start of [__init__]
    raises, [__init__] raises the same error and the stack has no child:
    nothing was declared, though the stack itself is by then a child of its
    scope.  The mappings are not checked at that point: when the deployment
    key or the repository-name key is missing from them, the [KeyError]
    comes from [get_codepipeline_source], after the artifact bucket and the
    pipeline have been declared. *)
Theorem configuration_failure_and_declarations
    lib cfg stage_contents scope construct_id target_environment target_branch
    target_aws_env env :
  construct_id ∉ scope.*1 ->
  stack_refused lib construct_id env = None ->
  (forall e,
     resolution_failure cfg = Some e ->
     PipelineStack.__init__ lib cfg stage_contents scope construct_id
       target_environment target_branch target_aws_env env
     = (inl e,
        scope ++ [ (construct_id,
                    PipelineStackNode {| stack_env := env; children := [] |}) ]))
  /\ (forall mappings logical_id_prefix resource_name_prefix key,
        get_all_configurations cfg = inr mappings ->
        get_logical_id_prefix cfg = inr logical_id_prefix ->
        get_resource_name_prefix cfg = inr resource_name_prefix ->
        let self := attributes cfg mappings logical_id_prefix
                      resource_name_prefix target_branch target_environment in
        bucket_refused lib (bucket_id self) (bucket_props self) = None ->
        pipeline_refused lib (pipeline_id self) (pipeline_props self) = None ->
        (mappings !! DEPLOYMENT cfg = None /\ key = DEPLOYMENT cfg
         \/ exists deployment,
              mappings !! DEPLOYMENT cfg = Some deployment
              /\ deployment !! GITHUB_REPOSITORY_NAME cfg = None
              /\ key = GITHUB_REPOSITORY_NAME cfg) ->
        PipelineStack.__init__ lib cfg stage_contents scope construct_id
          target_environment target_branch target_aws_env env
        = (inl (KeyError key),
           scope
           ++ [ (construct_id,
                 PipelineStackNode
                   {| stack_env := env;
                      children := children_before_source self |}) ])).
Proof.
  intros Hfree Hstack. split.
  - intros e He. unfold resolution_failure in He.
    unfold PipelineStack.__init__, Stack__init__.
    rewrite decide_False by done. rewrite Hstack. cbn [refuse].
    destruct (get_all_configurations cfg) as [e1|m]; [by simplify_eq|].
    destruct (get_logical_id_prefix cfg) as [e2|lp]; [by simplify_eq|].
    destruct (get_resource_name_prefix cfg) as [e3|rp]; by simplify_eq.
  - intros mappings lp rp key Hm Hl Hr self Hbucket Hpipeline Hkey.
    rewrite (init_unfold _ _ _ _ _ _ _ _ _ mappings lp rp) by done.
    fold self.
    change target_environment with (PipelineStack.target_environment self) at 1.
    rewrite create_environment_pipeline_until_source by done.
    unfold from_source.
    destruct Hkey as [[Hd ->]|(d & Hd & Hn & ->)].
    + erewrite bind_raise by (by apply get_codepipeline_source_no_deployment).
      reflexivity.
    + erewrite bind_raise by (by eapply get_codepipeline_source_no_name).
      reflexivity.
Qed.

(** A configuration whose lookup of the resource name prefix raises. *)
Definition configuration_without_prefix : Configuration :=
  {| PROD := "Prod";
     TEST := "Test";
     DEPLOYMENT := "Deploy";
     GITHUB_REPOSITORY_NAME := "github_repository_name";
     GITHUB_REPOSITORY_OWNER_NAME := "github_repository_owner_name";
     get_all_configurations := inr mock_mappings;
     get_logical_id_prefix := inr "TestLake";
     get_resource_name_prefix := inl (KeyError "resource_name_prefix") |}.

(** With the repository-name key missing from the deployment mapping,
    [__init__] raises after it has declared the artifact bucket and the
    pipeline in a stack that is now a child of the App. *)
Lemma missing_repository_key_fails_after_declarations :
  ~ fails_without_declarations.
Proof.
  intros Hclaim.
  specialize (Hclaim sample_library configuration_without_repository
                mock_stage_contents []
                "Dev-PipelineStackForTests" DEV "main"
                (target_aws_env mock_account_id mock_region) mock_env
                (KeyError "github_repository_name")
                [ ("Dev-PipelineStackForTests",
                   PipelineStackNode
                     {| stack_env := mock_env;
                        children :=
                          children_before_source
                            (dev_stack_object configuration_without_repository
                               {[ "Deploy" := deployment_without_repository ]}) |}) ]).
  discriminate Hclaim. vm_compute. reflexivity.
Qed.

Lemma configuration_failure_and_declarations_witness :
  PipelineStack.__init__ sample_library configuration_without_prefix
    mock_stage_contents [] "Dev-PipelineStackForTests" DEV "main"
    (target_aws_env mock_account_id mock_region) mock_env
  = (inl (KeyError "resource_name_prefix"),
     [ ("Dev-PipelineStackForTests",
        PipelineStackNode {| stack_env := mock_env; children := [] |}) ])
  /\ PipelineStack.__init__ sample_library configuration_without_repository
       mock_stage_contents [] "Dev-PipelineStackForTests" DEV "main"
       (target_aws_env mock_account_id mock_region) mock_env
     = (inl (KeyError "github_repository_name"),
        [ ("Dev-PipelineStackForTests",
           PipelineStackNode
             {| stack_env := mock_env;
                children :=
                  children_before_source
                    (dev_stack_object configuration_without_repository
                       {[ "Deploy" := deployment_without_repository ]}) |}) ]).
Proof.
  split.
  - destruct (configuration_failure_and_declarations sample_library
                configuration_without_prefix mock_stage_contents []
                "Dev-PipelineStackForTests" DEV "main"
                (target_aws_env mock_account_id mock_region) mock_env)
      as [Hunresolved _]; [apply not_elem_of_nil | reflexivity |].
    apply Hunresolved. reflexivity.
  - destruct (configuration_failure_and_declarations sample_library
                configuration_without_repository mock_stage_contents []
                "Dev-PipelineStackForTests" DEV "main"
                (target_aws_env mock_account_id mock_region) mock_env)
      as [_ Hmissing]; [apply not_elem_of_nil | reflexivity |].
    apply (Hmissing {[ "Deploy" := deployment_without_repository ]}
             "TestLake" "testlake" "github_repository_name");
      try reflexivity.
    right. exists deployment_without_repository. by repeat split.
Defined.

(** * Several stacks in one App *)

(** The library places the actions of a pipeline with one deploy stage:
    each brings the role it assumes, each runs in the region of the
    pipeline or in the region of the stage, and a stage in another region
    than the pipeline has an action there.  This is what
    [test_cross_region_number_of_stacks] and
    [test_cross_account_number_of_stacks] observe of it. *)
Definition actions_follow_the_stage (lib : Library) : Prop :=
  forall pipeline stack_id me props st stages,
    derive_stages lib pipeline stack_id me props [ st ] = (inr tt, stages) ->
    PipelineDeployStage.stacks st ≠ [] ->
    Forall (follows me (PipelineDeployStage.env st))
      (flat_map codepipeline.actions stages)
    /\ (cdk.region (PipelineDeployStage.env st) ≠ cdk.region me ->
        exists a,
          a ∈ flat_map codepipeline.actions stages
          /\ foreign_region me a = Some (cdk.region (PipelineDeployStage.env st))).

(** [for environment in ...: PipelineStack(app, id, ...)]: each request
    is the identifier, the target environment and the target account and
    region of one stack; all stacks share the branch and the pipeline's own
    environment. *)
Fixpoint compose_all (lib : Library) (cfg : Configuration)
    (stage_contents : string -> PipelineDeployStage.Contents)
    (target_branch : string) (env : cdk.Environment)
    (requests : list (string * string * gmap string string)) (app : App)
    : (exn + unit) * App :=
  match requests with
  | [] => (inr tt, app)
  | (construct_id, target_environment, target_aws_env) :: rest =>
      match PipelineStack.__init__ lib cfg stage_contents app construct_id
              target_environment target_branch target_aws_env env with
      | (inl e, app') => (inl e, app')
      | (inr _, app') =>
          compose_all lib cfg stage_contents target_branch env rest app'
      end
  end.

(** The loop of the tests followed by [len(app.node.children)]. *)
Definition number_of_stacks (lib : Library) (cfg : Configuration)
    (stage_contents : string -> PipelineDeployStage.Contents)
    (environments : list string) (target : string -> gmap string string)
    (env : cdk.Environment) : exn + nat :=
  match compose_all lib cfg stage_contents "main" env
          (map (fun environment =>
                  (environment +:+ "-PipelineStackForTests", environment,
                   target environment)) environments) [] with
  | (inl e, _) => inl e
  | (inr _, app) => inr (length app)
  end.

Definition test_cross_region_number_of_stacks : exn + nat :=
  number_of_stacks sample_library mock_configuration mock_stage_contents
    [ DEV; TEST mock_configuration; PROD mock_configuration ]
    (fun environment =>
       target_aws_env mock_account_id (lower environment +:+ "-region"))
    mock_env.

Definition test_cross_account_number_of_stacks : exn + nat :=
  number_of_stacks sample_library mock_configuration mock_stage_contents
    [ DEV; TEST mock_configuration; PROD mock_configuration ]
    (fun environment =>
       target_aws_env (lower environment +:+ "notrealaccount") mock_region)
    mock_env.

Definition test_same_environment_number_of_stacks : exn + nat :=
  number_of_stacks sample_library mock_configuration mock_stage_contents
    [ DEV; TEST mock_configuration; PROD mock_configuration ]
    (fun _ => target_aws_env mock_account_id mock_region)
    mock_env.

(** The assertions of the tests, with the sample library. *)
Example cross_region_six_stacks : test_cross_region_number_of_stacks = inr 6.
Proof. vm_compute. reflexivity. Qed.

Example cross_account_three_stacks : test_cross_account_number_of_stacks = inr 3.
Proof. vm_compute. reflexivity. Qed.

Example same_environment_three_stacks :
  test_same_environment_number_of_stacks = inr 3.
Proof. vm_compute. reflexivity. Qed.

(** The claim that any difference between the target and the pipeline's
    own environment, in account or in region, adds a support stack. *)
Definition support_on_any_difference (lib : Library) : Prop :=
  forall cfg stage_contents scope construct_id target_environment target_branch
         account region env stack support,
    composes_to lib cfg stage_contents scope construct_id target_environment
      target_branch (target_aws_env account region) env stack support ->
    account ≠ cdk.account env \/ region ≠ cdk.region env ->
    support ≠ [].

(** The cross-region support stack of a pipeline in [env] for [region]. *)
Definition support_stack (env : cdk.Environment) (region : string)
    : string * TopLevel :=
  (support_id (cdk.account env) region,
   CrossRegionSupportStack
     {| cdk.account := cdk.account env; cdk.region := region |}).

Section SeveralStacks.

Variable lib : Library.
Variable cfg : Configuration.
Variable stage_contents : string -> PipelineDeployStage.Contents.
Variable target_branch : string.
Variable env : cdk.Environment.
Variable mappings : Mappings.
Variables logical_id_prefix resource_name_prefix : string.
Variable deployment : gmap string pyval.
Variables name owner : pyval.

(** The call for one stack can return, the library deriving [stages]. *)
Definition Accepted (construct_id target_environment account region : string)
    (stages : list codepipeline.Stage) : Prop :=
  Composable lib cfg stage_contents construct_id target_environment target_branch
    (target_aws_env account region) env mappings logical_id_prefix
    resource_name_prefix deployment name owner account region stages.

Definition stack_of (target_environment account region : string)
    (stages : list codepipeline.Stage) : Stack :=
  composed_stack cfg stage_contents target_environment target_branch env
    mappings logical_id_prefix resource_name_prefix name owner account region
    stages.

Hypothesis Hlib : actions_follow_the_stage lib.

(** The support stacks a composition adds: none when the target region is
    the region of the pipeline stack or the identifier of the support
    stack of the region is taken, one otherwise.  The target account
    plays no part. *)
Lemma composed_support_cases scope construct_id target_environment account
    region stages :
  Accepted construct_id target_environment account region stages ->
  composed_support scope construct_id env stages
  = if decide (region = cdk.region env) then []
    else if decide (support_id (cdk.account env) region ∈ scope.*1 ++ [construct_id])
         then []
         else [ support_stack env region ].
Proof.
  intros H. unfold composed_support.
  destruct (Hlib _ _ _ _ _ _ (stages_derived _ _ _ _ _ _ _ _ _ _ _ _ _ _ _ _ _ H)
              (stage_has_stacks _ _ _ _ _ _ _ _ _ _ _ _ _ _ _ _ _ H))
    as [Hfollow Hthere].
  erewrite (attached_one_stage env
              {| cdk.account := account; cdk.region := region |});
    [|reflexivity|exact Hfollow|exact Hthere].
  unfold with_support, fresh_stack, app_of, support_stack.
  cbn. rewrite fmap_app. cbn. by repeat case_decide.
Qed.

(** One turn of the loop. *)
Lemma compose_step scope construct_id target_environment account region stages
    rest :
  Accepted construct_id target_environment account region stages ->
  construct_id ∉ scope.*1 ->
  compose_all lib cfg stage_contents target_branch env
    ((construct_id, target_environment, target_aws_env account region) :: rest)
    scope
  = compose_all lib cfg stage_contents target_branch env rest
      (scope
       ++ (construct_id,
           PipelineStackNode (stack_of target_environment account region stages))
       :: composed_support scope construct_id env stages).
Proof.
  intros Haccepted Hfree. cbn [compose_all].
  by rewrite (composition _ _ _ _ _ _ _ _ _ _ _ _ _ _ _ _ _ _ Hfree Haccepted).
Qed.

(** Three stacks whose target region is the region of the pipeline: three
    children, whatever the target accounts. *)
Lemma three_stacks_same_region c1 c2 c3 e1 e2 e3 a1 a2 a3 s1 s2 s3 :
  Accepted c1 e1 a1 (cdk.region env) s1 ->
  Accepted c2 e2 a2 (cdk.region env) s2 ->
  Accepted c3 e3 a3 (cdk.region env) s3 ->
  NoDup [c1; c2; c3] ->
  compose_all lib cfg stage_contents target_branch env
    [ (c1, e1, target_aws_env a1 (cdk.region env));
      (c2, e2, target_aws_env a2 (cdk.region env));
      (c3, e3, target_aws_env a3 (cdk.region env)) ] []
  = (inr tt,
     [ (c1, PipelineStackNode (stack_of e1 a1 (cdk.region env) s1));
       (c2, PipelineStackNode (stack_of e2 a2 (cdk.region env) s2));
       (c3, PipelineStackNode (stack_of e3 a3 (cdk.region env) s3)) ]).
Proof.
  intros H1 H2 H3 Hids.
  rewrite !NoDup_cons, !not_elem_of_cons in Hids.
  destruct Hids as ((H12 & H13 & _) & (H23 & _) & _).
  erewrite compose_step by (done || apply not_elem_of_nil).
  erewrite composed_support_cases by done. rewrite decide_True by done.
  cbn [app].
  erewrite compose_step; [|done|].
  2: { cbn. rewrite not_elem_of_cons. split; [congruence|apply not_elem_of_nil]. }
  erewrite composed_support_cases by done. rewrite decide_True by done.
  cbn [app].
  erewrite compose_step; [|done|].
  2: { cbn. rewrite !not_elem_of_cons.
       repeat split; [congruence|congruence|apply not_elem_of_nil]. }
  erewrite composed_support_cases by done. rewrite decide_True by done.
  cbn [app compose_all]. reflexivity.
Qed.

(** Three stacks whose target regions differ from the region of the
    pipeline and from one another: each is followed by the support stack
    of its region. *)
Lemma three_stacks_other_regions c1 c2 c3 e1 e2 e3 a1 a2 a3 r1 r2 r3 s1 s2 s3 :
  Accepted c1 e1 a1 r1 s1 ->
  Accepted c2 e2 a2 r2 s2 ->
  Accepted c3 e3 a3 r3 s3 ->
  r1 ≠ cdk.region env -> r2 ≠ cdk.region env -> r3 ≠ cdk.region env ->
  NoDup [ c1; support_id (cdk.account env) r1;
          c2; support_id (cdk.account env) r2;
          c3; support_id (cdk.account env) r3 ] ->
  compose_all lib cfg stage_contents target_branch env
    [ (c1, e1, target_aws_env a1 r1);
      (c2, e2, target_aws_env a2 r2);
      (c3, e3, target_aws_env a3 r3) ] []
  = (inr tt,
     [ (c1, PipelineStackNode (stack_of e1 a1 r1 s1)); support_stack env r1;
       (c2, PipelineStackNode (stack_of e2 a2 r2 s2)); support_stack env r2;
       (c3, PipelineStackNode (stack_of e3 a3 r3 s3)); support_stack env r3 ]).
Proof.
  intros H1 H2 H3 Hr1 Hr2 Hr3 Hids.
  rewrite !NoDup_cons, !not_elem_of_cons in Hids.
  destruct Hids as ((? & ? & ? & ? & ? & _) & (? & ? & ? & ? & _)
                    & (? & ? & ? & _) & (? & ? & _) & (? & _) & _).
  erewrite compose_step by (done || apply not_elem_of_nil).
  erewrite composed_support_cases by done.
  rewrite decide_False, decide_False by
    (done || (cbn; rewrite !not_elem_of_cons; repeat split;
              solve [congruence | apply not_elem_of_nil])).
  cbn [app].
  erewrite compose_step; [|done|].
  2: { cbn. rewrite !not_elem_of_cons.
       repeat split; solve [congruence | apply not_elem_of_nil]. }
  erewrite composed_support_cases by done.
  rewrite decide_False, decide_False by
    (done || (cbn; rewrite !not_elem_of_cons; repeat split;
              solve [congruence | apply not_elem_of_nil])).
  cbn [app].
  erewrite compose_step; [|done|].
  2: { cbn. rewrite !not_elem_of_cons.
       repeat split; solve [congruence | apply not_elem_of_nil]. }
  erewrite composed_support_cases by done.
  rewrite decide_False, decide_False by
    (done || (cbn; rewrite !not_elem_of_cons; repeat split;
              solve [congruence | apply not_elem_of_nil])).
  cbn [app compose_all]. reflexivity.
Qed.

End SeveralStacks.



Lemma sample_actions_follow_the_stage : actions_follow_the_stage sample_library.
Proof.
  intros pipeline stack_id me props st stages
    (source & Hinput & ->)%sample_derives Hstacks.
  rewrite pipeline_stages_actions. cbn [flat_map]. rewrite !app_nil_r.
  assert (forall a, a ∈ deploy_actions me st ->
            brings_its_role a
            /\ foreign_region me a
               = if decide (cdk.region (PipelineDeployStage.env st) = cdk.region me)
                 then None else Some (cdk.region (PipelineDeployStage.env st)))
    as Hdeploy.
  { intros a (n & s & m & ->)%deploy_actions_cloudformation.
    split; [done|]. unfold foreign_region. cbn.
    destruct (decide (cdk.region (PipelineDeployStage.env st) = cdk.region me));
      [done|]. by rewrite decide_False. }
  split.
  - repeat apply Forall_app_2.
    + repeat constructor; done.
    + destruct (pipelines.self_mutation props); repeat constructor; done.
    + apply Forall_forall. intros a [i [publish [-> _]]]%elem_of_lookup_imap.
      split; [done|]. by left.
    + apply Forall_forall. intros a Ha. destruct (Hdeploy a Ha) as [Hrole Hregion].
      split; [done|]. rewrite Hregion. case_decide; auto.
  - intros Hforeign.
    destruct (deploy_actions me st) as [|a acts] eqn:Hactions.
    { by apply deploy_actions_nonempty in Hactions. }
    exists a. split.
    + rewrite !elem_of_app. do 3 right. apply elem_of_cons. by left.
    + destruct (Hdeploy a) as [_ ->]; [apply elem_of_cons; by left|].
      by rewrite decide_False.
Qed.

Lemma test_identifiers_NoDup :
  NoDup [ "Dev-PipelineStackForTests"; "Test-PipelineStackForTests";
          "Prod-PipelineStackForTests" ].
Proof. apply (bool_decide_unpack _). vm_compute. exact I. Qed.

Lemma mock_accepted (target_environment account region : string) :
  target_environment ∈ [ "Dev"; "Test"; "Prod" ] ->
  Accepted sample_library mock_configuration mock_stage_contents "main" mock_env
    mock_mappings "TestLake" "testlake" mock_deployment
    (PyStr "mock-github-repository") (PyStr "hernandj")
    (target_environment +:+ "-PipelineStackForTests") target_environment
    account region (mock_stages target_environment account region).
Proof. apply mock_composable. Qed.




(** * Further properties of the stack *)

(** ** The loop over the build actions, on any stages *)

Lemma log_group_for_cases self a w :
  (PipelineStack.log_group_for self a w).2 = w
  \/ exists decl,
       log_group_decl self a = Some decl
       /\ PipelineStack.log_group_for self a w
          = (inr tt, set_children (fun l => l ++ [decl]) w).
Proof.
  destruct (log_group_decl self a) as [decl|] eqn:Hdecl.
  - destruct (decide (decl.1 ∈ (children (stack w)).*1)) as [Hin|Hfresh].
    + left. revert Hdecl.
      unfold log_group_decl, is_build, PipelineStack.log_group_for.
      destruct (codepipeline.category (codepipeline.action_properties a));
        try done.
      destruct (codepipeline.resource (codepipeline.action_properties a));
        [|done].
      intros [= <-]. cbn in Hin. unfold logs_LogGroup, add_child, bind, get, raise.
      cbn. by rewrite decide_True.
    + right. exists decl. split; [done|]. by apply log_group_for_build.
  - left. revert Hdecl.
    unfold log_group_decl, is_build, PipelineStack.log_group_for.
    destruct (codepipeline.category (codepipeline.action_properties a));
      try done.
    by destruct (codepipeline.resource (codepipeline.action_properties a)).
Qed.

(** A child that is the log group of one of the build actions [acts],
    with the policies of the stack object. *)
Definition log_group_child_of (self : PipelineStack.t)
    (acts : list codepipeline.Action) (child : string * Construct) : Prop :=
  exists a project,
    a ∈ acts
    /\ is_build a = true
    /\ codepipeline.resource (codepipeline.action_properties a) = Some project
    /\ child = ((log_group_of self a project).1,
                LogGroup (log_group_of self a project).2).

Lemma log_group_decl_child self a decl :
  log_group_decl self a = Some decl -> log_group_child_of self [a] decl.
Proof.
  unfold log_group_decl. destruct (is_build a) eqn:Hbuild; [|done].
  destruct (codepipeline.resource _) as [project|] eqn:Hproject; [|done].
  intros [= <-]. exists a, project. repeat split; try done.
  apply list_elem_of_singleton. reflexivity.
Qed.

(** X1: whatever the actions and the stack, and whether it ends or raises,
    the loop over the actions only appends children to the stack, each the
    log group of one of the build actions with the removal policy and the
    retention of the stack object; the children the stack had, its
    environment and the other children of the App stay as they were. *)
Theorem log_group_loop_only_appends_log_groups
    (self : PipelineStack.t) (acts : list codepipeline.Action) (w : World) :
  let w' := (for_each acts (PipelineStack.log_group_for self) w).2 in
  earlier w' = earlier w
  /\ later w' = later w
  /\ stack_id w' = stack_id w
  /\ stack_env (stack w') = stack_env (stack w)
  /\ exists added,
       children (stack w') = children (stack w) ++ added
       /\ Forall (log_group_child_of self acts) added.
Proof.
  cbn zeta. revert w. induction acts as [|a acts IH]; intros w.
  - cbn. repeat split. exists []. by rewrite app_nil_r.
  - cbn [for_each]. unfold bind.
    destruct (log_group_for_cases self a w) as [Hsame|(decl & Hdecl & Hrun)].
    + destruct (PipelineStack.log_group_for self a w) as [[e|[]] w1] eqn:Hstep;
        cbn in Hsame; subst w1.
      * cbn. repeat split. exists []. by rewrite app_nil_r.
      * destruct (IH w) as (He & Hl & Hi & Henv & added & Hch & Hall).
        repeat split; try done. exists added. split; [done|].
        eapply Forall_impl; [exact Hall|].
        intros child (b & project & Hin & ?). exists b, project.
        split; [by apply elem_of_cons; right | done].
    + rewrite Hrun.
      destruct (IH (set_children (fun l => l ++ [decl]) w))
        as (He & Hl & Hi & Henv & added & Hch & Hall).
      repeat split; try done. exists (decl :: added). split.
      * rewrite Hch. cbn. by rewrite <- app_assoc.
      * constructor.
        -- destruct (log_group_decl_child self a decl Hdecl)
             as (b & project & Hin%list_elem_of_singleton & ?). subst b.
           exists a, project. split; [by apply elem_of_cons; left | done].
        -- eapply Forall_impl; [exact Hall|].
           intros child (b & project & Hin & ?). exists b, project.
           split; [by apply elem_of_cons; right | done].
Qed.

Lemma for_each_stops {St A} (pre post : list A) (x : A)
    (body : A -> M St unit) s s1 e :
  for_each pre body s = (inr tt, s1) ->
  body x s1 = (inl e, s1) ->
  for_each (pre ++ x :: post) body s = (inl e, s1).
Proof.
  intros Hpre Hx. rewrite for_each_app.
  erewrite bind_ok by exact Hpre. cbn [for_each].
  by erewrite bind_raise by exact Hx.
Qed.

(** X2: a build action without a project stops the loop with an
    [AttributeError]; the log groups of the build actions before it are
    declared by then, those of the actions after it are not. *)
Theorem log_group_loop_stops_without_project
    (self : PipelineStack.t) (pre post : list codepipeline.Action)
    (a : codepipeline.Action) (w : World) :
  Forall has_project pre ->
  NoDup ((children (stack w)).*1 ++ (omap (log_group_decl self) pre).*1) ->
  is_build a = true ->
  codepipeline.resource (codepipeline.action_properties a) = None ->
  for_each (pre ++ a :: post) (PipelineStack.log_group_for self) w
  = (inl (AttributeError "'NoneType' object has no attribute 'project_name'"),
     set_children (fun l => l ++ omap (log_group_decl self) pre) w).
Proof.
  intros Hpre Hnodup Hbuild Hnone.
  eapply for_each_stops; [by apply log_group_loop|].
  unfold PipelineStack.log_group_for. unfold is_build in Hbuild.
  destruct (codepipeline.category (codepipeline.action_properties a)); try done.
  by rewrite Hnone.
Qed.

(** X3: the identifier of a log group is built from the name of the action
    alone.  A build action whose log group identifier is taken already, by
    a child of the stack or by the log group of an earlier build action of
    the same name in any stage, stops the loop with the error of a
    duplicate construct; the log groups of the actions before it are
    declared by then. *)
Theorem log_group_loop_stops_on_repeated_action_name
    (self : PipelineStack.t) (pre post : list codepipeline.Action)
    (a : codepipeline.Action) (project : codebuild.PipelineProject) (w : World) :
  Forall has_project pre ->
  NoDup ((children (stack w)).*1 ++ (omap (log_group_decl self) pre).*1) ->
  is_build a = true ->
  codepipeline.resource (codepipeline.action_properties a) = Some project ->
  log_group_id (codepipeline.action_name (codepipeline.action_properties a))
    ∈ (children (stack w)).*1 ++ (omap (log_group_decl self) pre).*1 ->
  for_each (pre ++ a :: post) (PipelineStack.log_group_for self) w
  = (inl (JsiiError
            ("There is already a Construct with name '"
               +:+ log_group_id
                     (codepipeline.action_name (codepipeline.action_properties a))
               +:+ "'")),
     set_children (fun l => l ++ omap (log_group_decl self) pre) w).
Proof.
  intros Hpre Hnodup Hbuild Hproject Htaken.
  eapply for_each_stops; [by apply log_group_loop|].
  unfold PipelineStack.log_group_for. unfold is_build in Hbuild.
  destruct (codepipeline.category (codepipeline.action_properties a)); try done.
  rewrite Hproject. unfold logs_LogGroup, add_child, bind, get, ret, raise.
  cbn [set_children stack children]. rewrite fmap_app, decide_True by done.
  reflexivity.
Qed.

Definition mock_self : PipelineStack.t :=
  attributes mock_configuration mock_mappings "TestLake" "testlake" "main" DEV.

(** A build action that carries no project. *)
Definition custom_build_action (name : string) : codepipeline.Action :=
  {| codepipeline.action_properties := {|
       codepipeline.action_name := name;
       codepipeline.category := codepipeline.BUILD;
       codepipeline.provider := "Custom";
       codepipeline.resource := None;
       codepipeline.account := None;
       codepipeline.region := None;
       codepipeline.role := None;
       codepipeline.configuration := [] |} |}.

Lemma log_group_loop_stops_without_project_witness :
  for_each
    ([ synth_action "Pipeline" (PipelineStack.synth_step None) ]
     ++ custom_build_action "Lint" :: [ self_mutate_action "Pipeline" "Stack" ])
    (PipelineStack.log_group_for mock_self) (fresh_stack [] "Stack" mock_env)
  = (inl (AttributeError "'NoneType' object has no attribute 'project_name'"),
     set_children
       (fun l => l ++ omap (log_group_decl mock_self)
                        [ synth_action "Pipeline" (PipelineStack.synth_step None) ])
       (fresh_stack [] "Stack" mock_env)).
Proof.
  apply log_group_loop_stops_without_project.
  - repeat constructor. intros _. by eexists.
  - cbn. apply NoDup_singleton.
  - reflexivity.
  - reflexivity.
Defined.

Lemma log_group_loop_stops_on_repeated_action_name_witness :
  for_each
    ([ synth_action "Pipeline" (PipelineStack.synth_step None) ]
     ++ code_build_action "Other" "Synth" [] [ "make" ]
     :: [ self_mutate_action "Pipeline" "Stack" ])
    (PipelineStack.log_group_for mock_self) (fresh_stack [] "Stack" mock_env)
  = (inl (JsiiError
            ("There is already a Construct with name '"
               +:+ log_group_id "Synth" +:+ "'")),
     set_children
       (fun l => l ++ omap (log_group_decl mock_self)
                        [ synth_action "Pipeline" (PipelineStack.synth_step None) ])
       (fresh_stack [] "Stack" mock_env)).
Proof.
  apply (log_group_loop_stops_on_repeated_action_name mock_self
           [ synth_action "Pipeline" (PipelineStack.synth_step None) ]
           [ self_mutate_action "Pipeline" "Stack" ]
           (code_build_action "Other" "Synth" [] [ "make" ])
           {| codebuild.project_name := project_token "Other" "Synth";
              codebuild.install_commands := [];
              codebuild.build_commands := [ "make" ] |}).
  - repeat constructor. intros _. by eexists.
  - cbn. apply NoDup_singleton.
  - reflexivity.
  - reflexivity.
  - cbn. apply elem_of_cons. by left.
Defined.


(** ** What a run may change *)

Definition is_support (child : string * TopLevel) : Prop :=
  match child.2 with
  | PipelineStackNode _ => False
  | CrossRegionSupportStack _ | CrossAccountSupportStack _ => True
  end.

(** [w'] is [w] with other children in its stack and support stacks added
    after it. *)
Definition extends (w w' : World) : Prop :=
  earlier w' = earlier w
  /\ stack_id w' = stack_id w
  /\ stack_env (stack w') = stack_env (stack w)
  /\ exists added, later w' = later w ++ added /\ Forall is_support added.

(** An action that, ending or raising, keeps the earlier children of the
    App, the identifier and the environment of the stack, and adds nothing
    but support stacks after it. *)
Definition framed {A} (m : Cdk A) : Prop := forall w, extends w (m w).2.

Lemma extends_refl w : extends w w.
Proof. repeat split. exists []. by rewrite app_nil_r. Qed.

Lemma extends_trans w1 w2 w3 : extends w1 w2 -> extends w2 w3 -> extends w1 w3.
Proof.
  intros (He1 & Hi1 & Hv1 & l1 & Hl1 & Hs1) (He2 & Hi2 & Hv2 & l2 & Hl2 & Hs2).
  repeat split; try congruence. exists (l1 ++ l2). split.
  - by rewrite Hl2, Hl1, <- app_assoc.
  - by apply Forall_app.
Qed.

Lemma framed_ret {A} (a : A) : framed (ret a).
Proof. intros w. apply extends_refl. Qed.

Lemma framed_raise {A} e : framed (@raise World A e).
Proof. intros w. apply extends_refl. Qed.

Lemma framed_get : framed get.
Proof. intros w. apply extends_refl. Qed.

Lemma framed_lift {A} (r : exn + A) : framed (lift r).
Proof. destruct r; [apply framed_raise | apply framed_ret]. Qed.

Lemma framed_subscript {V} (d : gmap string V) k : framed (subscript d k).
Proof. unfold subscript. destruct (d !! k); [apply framed_ret | apply framed_raise]. Qed.

Lemma framed_bind {A B} (m : Cdk A) (k : A -> Cdk B) :
  framed m -> (forall a, framed (k a)) -> framed (bind m k).
Proof.
  intros Hm Hk w. unfold bind. specialize (Hm w).
  destruct (m w) as [[e|a] w1]; [exact Hm|].
  eapply extends_trans; [exact Hm | apply Hk].
Qed.

Lemma framed_for_each {A} (l : list A) (body : A -> Cdk unit) :
  (forall x, framed (body x)) -> framed (for_each l body).
Proof.
  intros Hbody. induction l as [|x l IH]; [apply framed_ret|].
  cbn. by apply framed_bind.
Qed.

Lemma framed_map_m {A B} (f : A -> Cdk B) (l : list A) :
  (forall x, framed (f x)) -> framed (map_m f l).
Proof.
  intros Hf. induction l as [|x l IH]; [apply framed_ret|].
  cbn. apply framed_bind; [done|]. intros y.
  apply framed_bind; [done|]. intros ys. apply framed_ret.
Qed.

Lemma framed_set_children f : framed (modify (set_children f)).
Proof. intros w. repeat split. exists []. by rewrite app_nil_r. Qed.

Lemma framed_ensure_top_level id node :
  is_support (id, node) -> framed (ensure_top_level id node).
Proof.
  intros Hsupport w. unfold ensure_top_level, bind, get. cbn.
  destruct (decide (id ∈ (app_of w).*1)); [apply extends_refl|].
  repeat split. exists [(id, node)]. split; [done|]. by constructor.
Qed.

Ltac framed :=
  repeat first
    [ apply framed_ret | apply framed_raise | apply framed_get
    | apply framed_lift | apply framed_subscript | apply framed_set_children
    | apply framed_ensure_top_level; exact I
    | apply framed_for_each; intros ?
    | apply framed_map_m; intros ?
    | apply framed_bind; [|intros ?]
    | match goal with
      | |- framed (match ?x with _ => _ end) => destruct x
      end ].

Lemma framed_add_child id c : framed (add_child id c).
Proof. unfold add_child. framed. Qed.

Lemma framed_find_child id : framed (find_child id).
Proof. unfold find_child. framed. Qed.

Lemma framed_set_child ref c : framed (set_child ref c).
Proof. apply framed_set_children. Qed.

Lemma framed_the_bucket ref : framed (the_bucket ref).
Proof. unfold the_bucket. apply framed_bind; [apply framed_find_child|]. intros c. framed. Qed.

Lemma framed_the_pipeline ref : framed (the_pipeline ref).
Proof. unfold the_pipeline. apply framed_bind; [apply framed_find_child|]. intros c. framed. Qed.

Lemma framed_the_code_pipeline ref : framed (the_code_pipeline ref).
Proof.
  unfold the_code_pipeline. apply framed_bind; [apply framed_find_child|].
  intros c. framed.
Qed.

Lemma framed_the_stage ref : framed (the_stage ref).
Proof. unfold the_stage. apply framed_bind; [apply framed_find_child|]. intros c. framed. Qed.

Lemma framed_attach_action a : framed (attach_action a).
Proof. unfold attach_action. framed. Qed.

Lemma framed_refuse (refusal : option exn) : framed (refuse refusal).
Proof. destruct refusal; [apply framed_raise | apply framed_ret]. Qed.

(** A construct is registered and its arguments are checked. *)
Lemma framed_checked id c (refusal : option exn) :
  framed (add_child id c ;;; refuse refusal ;;; ret id).
Proof.
  apply framed_bind; [apply framed_add_child|]. intros _.
  apply framed_bind; [apply framed_refuse|]. intros _. apply framed_ret.
Qed.

Lemma framed_add_stage lib pipeline stage : framed (add_stage lib pipeline stage).
Proof.
  unfold add_stage.
  apply framed_bind; [apply framed_the_code_pipeline|]. intros cp.
  apply framed_bind; [apply framed_the_stage|]. intros st.
  destruct (pipelines.built cp); [apply framed_raise|].
  destruct (PipelineDeployStage.stacks st); [apply framed_raise|].
  apply framed_bind; [apply framed_refuse|]. intros _. apply framed_set_child.
Qed.

Lemma framed_build_pipeline lib pipeline : framed (build_pipeline lib pipeline).
Proof.
  unfold build_pipeline.
  apply framed_bind; [apply framed_the_code_pipeline|]. intros cp.
  destruct (pipelines.built cp); [apply framed_raise|].
  destruct (pipelines.created cp); [apply framed_raise|].
  apply framed_bind; [apply framed_the_pipeline|]. intros p.
  apply framed_bind; [apply framed_set_child|]. intros _.
  apply framed_bind; [apply framed_map_m; intros ?; apply framed_the_stage|].
  intros deploy. apply framed_bind; [apply framed_get|]. intros w. cbv zeta.
  apply framed_bind.
  { apply framed_for_each. intros st. apply framed_for_each. intros a.
    apply framed_attach_action. }
  intros _. apply framed_bind; [apply framed_set_child|].
  intros _. apply framed_bind; [apply framed_lift|].
  intros _. apply framed_set_child.
Qed.

Lemma framed_pipeline_pipeline pipeline : framed (pipeline_pipeline pipeline).
Proof.
  unfold pipeline_pipeline.
  apply framed_bind; [apply framed_the_code_pipeline|]. intros cp. framed.
Qed.

Lemma framed_bucket_update (f : s3.Bucket -> Cdk unit) bucket :
  (forall b, framed (f b)) -> framed (b <- the_bucket bucket ;; f b).
Proof. intros Hf. apply framed_bind; [apply framed_the_bucket | exact Hf]. Qed.

Lemma framed_log_group_for self a : framed (PipelineStack.log_group_for self a).
Proof.
  unfold PipelineStack.log_group_for, logs_LogGroup.
  destruct (codepipeline.category _); try apply framed_ret.
  apply framed_bind; [framed|]. intros project.
  apply framed_bind; [apply framed_add_child|]. intros _. apply framed_ret.
Qed.

Lemma framed_get_codepipeline_source lib cfg self :
  framed (PipelineStack.get_codepipeline_source lib cfg self).
Proof.
  unfold PipelineStack.get_codepipeline_source.
  apply framed_bind; [apply framed_subscript|]. intros deployment.
  apply framed_bind; [apply framed_subscript|]. intros name.
  destruct (truthy name); [|apply framed_ret].
  apply framed_bind; [apply framed_subscript|]. intros deployment'.
  apply framed_bind; [apply framed_subscript|]. intros owner.
  apply framed_bind; [apply framed_subscript|]. intros deployment''.
  apply framed_bind; [apply framed_subscript|]. intros name'. cbv zeta.
  apply framed_bind; [apply framed_refuse|]. intros _. apply framed_ret.
Qed.

Lemma framed_create_environment_pipeline lib cfg stage_contents self
    target_environment target_aws_env :
  framed (PipelineStack.create_environment_pipeline lib cfg stage_contents self
            target_environment target_aws_env).
Proof.
  unfold PipelineStack.create_environment_pipeline.
  apply framed_bind; [apply framed_get|]. intros w. cbv zeta.
  apply framed_bind; [apply framed_checked|]. intros bucket.
  apply framed_bind; [apply framed_checked|]. intros code_pipeline.
  apply framed_bind; [apply framed_get_codepipeline_source|]. intros source.
  apply framed_bind; [apply framed_checked|]. intros pipeline.
  apply framed_bind; [apply framed_subscript|]. intros account.
  apply framed_bind; [apply framed_subscript|]. intros region.
  apply framed_bind; [apply framed_checked|]. intros stage.
  apply framed_bind; [apply framed_add_stage|]. intros _.
  apply framed_bind; [apply framed_build_pipeline|]. intros _.
  apply framed_bind; [apply framed_pipeline_pipeline|]. intros built.
  apply framed_bind; [apply framed_the_pipeline|]. intros p.
  apply framed_bind.
  { apply framed_for_each. intros st. apply framed_for_each. intros a.
    apply framed_log_group_for. }
  intros _.
  apply framed_bind.
  { apply framed_bucket_update. intros b. apply framed_set_child. }
  intros _. apply framed_bind.
  { apply framed_bucket_update. intros b. apply framed_set_child. }
  intros _. apply framed_bind.
  { apply framed_bucket_update. intros b.
    destruct (s3.encryption_key b); [apply framed_set_child | apply framed_raise]. }
  intros _. apply framed_bucket_update. intros b. apply framed_set_child.
Qed.

(** X4: whatever the library, the configuration, the arguments and the
    outcome, [__init__] leaves the children the App had as they were and
    in their order.  With an identifier that is taken it adds nothing;
    otherwise it adds the stack, in the environment [env], right after
    them, and after the stack nothing but support stacks. *)
Theorem init_adds_the_stack_and_support_stacks_only
    (lib : Library) (cfg : Configuration)
    (stage_contents : string -> PipelineDeployStage.Contents)
    (scope : App) (construct_id target_environment target_branch : string)
    (target_aws_env : gmap string string) (env : cdk.Environment) :
  let app :=
    (PipelineStack.__init__ lib cfg stage_contents scope construct_id
       target_environment target_branch target_aws_env env).2 in
  ((construct_id ∈ scope.*1) /\ app = scope)
  \/ ((construct_id ∉ scope.*1)
      /\ exists stack support,
           app = scope ++ (construct_id, PipelineStackNode stack) :: support
           /\ stack_env stack = env
           /\ Forall is_support support).
Proof.
  cbn zeta. unfold PipelineStack.__init__, Stack__init__.
  destruct (decide (construct_id ∈ scope.*1)) as [Hin|Hfresh]; [by left|].
  right. split; [done|].
  match goal with
  | |- context [bind ?m ?k (fresh_stack scope construct_id env)] =>
      assert (Hframed : framed (bind m k))
  end.
  { apply framed_bind; [apply framed_refuse|]. intros _.
    apply framed_bind; [apply framed_lift|]. intros mappings.
    apply framed_bind; [apply framed_lift|]. intros lp.
    apply framed_bind; [apply framed_lift|]. intros rp.
    apply framed_bind; [apply framed_create_environment_pipeline|].
    intros _. apply framed_ret. }
  specialize (Hframed (fresh_stack scope construct_id env)).
  match goal with
  | H : extends _ (?run).2 |- _ => destruct run as [outcome w']
  end.
  destruct Hframed as (He & Hi & Hv & added & Hl & Hsupport).
  cbn in He, Hi, Hv, Hl. exists (stack w'), added.
  unfold app_of. cbn. rewrite He, Hi, Hl. done.
Qed.

(** ** Keys that are missing *)

(** ** Keys that are missing *)

(** X5: the owner of the repository is looked up only when the repository
    name is truthy, and only while the synth step is put together.  With a
    truthy name and no owner key in the deployment configuration, and a
    library that accepts the stack, the bucket and the pipeline,
    [__init__] raises the [KeyError] of the owner key; the stack is by then
    a child of the App and holds the artifact bucket and the pipeline, and
    nothing else. *)
Theorem missing_repository_owner_fails_after_declarations
    lib cfg stage_contents scope construct_id target_environment target_branch
    target_aws_env env mappings logical_id_prefix resource_name_prefix
    deployment name :
  construct_id ∉ scope.*1 ->
  stack_refused lib construct_id env = None ->
  get_all_configurations cfg = inr mappings ->
  get_logical_id_prefix cfg = inr logical_id_prefix ->
  get_resource_name_prefix cfg = inr resource_name_prefix ->
  let self := attributes cfg mappings logical_id_prefix resource_name_prefix
                target_branch target_environment in
  bucket_refused lib (bucket_id self) (bucket_props self) = None ->
  pipeline_refused lib (pipeline_id self) (pipeline_props self) = None ->
  mappings !! DEPLOYMENT cfg = Some deployment ->
  deployment !! GITHUB_REPOSITORY_NAME cfg = Some name ->
  truthy name = true ->
  deployment !! GITHUB_REPOSITORY_OWNER_NAME cfg = None ->
  PipelineStack.__init__ lib cfg stage_contents scope construct_id
    target_environment target_branch target_aws_env env
  = (inl (KeyError (GITHUB_REPOSITORY_OWNER_NAME cfg)),
     scope
     ++ [ (construct_id,
           PipelineStackNode
             {| stack_env := env; children := children_before_source self |}) ]).
Proof.
  intros Hfree Hstack Hm Hl Hr self Hbucket Hpipeline Hd Hn Ht Ho.
  rewrite (init_unfold _ _ _ _ _ _ _ _ _ mappings logical_id_prefix
             resource_name_prefix) by done.
  fold self.
  change target_environment with (PipelineStack.target_environment self) at 1.
  rewrite create_environment_pipeline_until_source by done.
  unfold from_source.
  erewrite bind_raise by (by eapply get_codepipeline_source_no_owner).
  reflexivity.
Qed.

(** A deployment configuration that names a repository and no owner. *)
Definition deployment_without_owner : gmap string pyval :=
  {[ "github_repository_name" := PyStr "mock-github-repository" ]}.

Definition configuration_without_owner : Configuration :=
  {| PROD := "Prod";
     TEST := "Test";
     DEPLOYMENT := "Deploy";
     GITHUB_REPOSITORY_NAME := "github_repository_name";
     GITHUB_REPOSITORY_OWNER_NAME := "github_repository_owner_name";
     get_all_configurations := inr {[ "Deploy" := deployment_without_owner ]};
     get_logical_id_prefix := inr "TestLake";
     get_resource_name_prefix := inr "testlake" |}.

Lemma missing_repository_owner_fails_after_declarations_witness :
  PipelineStack.__init__ sample_library configuration_without_owner
    mock_stage_contents [] "Dev-PipelineStackForTests" DEV "main"
    (target_aws_env mock_account_id mock_region) mock_env
  = (inl (KeyError "github_repository_owner_name"),
     [] ++ [ ("Dev-PipelineStackForTests",
              PipelineStackNode
                {| stack_env := mock_env;
                   children :=
                     children_before_source
                       (dev_stack_object configuration_without_owner
                          {[ "Deploy" := deployment_without_owner ]}) |}) ]).
Proof.
  apply (missing_repository_owner_fails_after_declarations sample_library
           configuration_without_owner mock_stage_contents []
           "Dev-PipelineStackForTests" DEV "main"
           (target_aws_env mock_account_id mock_region) mock_env
           {[ "Deploy" := deployment_without_owner ]} "TestLake" "testlake"
           deployment_without_owner (PyStr "mock-github-repository"));
    try reflexivity.
  apply not_elem_of_nil.
Defined.

(** X6: the target account and region are read from [target_aws_env] when
    the deploy stage is created, the account first.  When one of the two
    keys is missing, with a configuration that names a repository and its
    owner and a library that accepts what is declared until then,
    [__init__] raises the [KeyError] of the first missing key; the stack
    then holds the artifact bucket, the pipeline and the CDK pipeline, in
    that order, without a stage, without a log group, and the pipeline is
    not built. *)
Theorem missing_target_key_fails_before_the_stage
    lib cfg stage_contents scope construct_id target_environment target_branch
    target_aws_env env mappings logical_id_prefix resource_name_prefix
    deployment name owner key :
  construct_id ∉ scope.*1 ->
  stack_refused lib construct_id env = None ->
  get_all_configurations cfg = inr mappings ->
  get_logical_id_prefix cfg = inr logical_id_prefix ->
  get_resource_name_prefix cfg = inr resource_name_prefix ->
  let self := attributes cfg mappings logical_id_prefix resource_name_prefix
                target_branch target_environment in
  let source := connection_source owner name target_branch in
  bucket_refused lib (bucket_id self) (bucket_props self) = None ->
  pipeline_refused lib (pipeline_id self) (pipeline_props self) = None ->
  mappings !! DEPLOYMENT cfg = Some deployment ->
  deployment !! GITHUB_REPOSITORY_NAME cfg = Some name ->
  truthy name = true ->
  deployment !! GITHUB_REPOSITORY_OWNER_NAME cfg = Some owner ->
  connection_refused lib source = None ->
  code_pipeline_refused lib (code_pipeline_id self)
    (declared_props self env source) = None ->
  missing_target_key target_aws_env = Some key ->
  PipelineStack.__init__ lib cfg stage_contents scope construct_id
    target_environment target_branch target_aws_env env
  = (inl (KeyError key),
     scope
     ++ [ (construct_id,
           PipelineStackNode
             {| stack_env := env;
                children := children_before_stage self env (Some source) |}) ]).
Proof.
  intros Hfree Hstack Hm Hl Hr self source Hbucket Hpipeline Hd Hn Ht Ho
    Hconnection Hcp Hkey.
  rewrite (init_unfold _ _ _ _ _ _ _ _ _ mappings logical_id_prefix
             resource_name_prefix) by done.
  fold self.
  change target_environment with (PipelineStack.target_environment self) at 1.
  rewrite create_environment_pipeline_until_source by done.
  unfold from_source.
  erewrite bind_ok by (by eapply get_codepipeline_source_some).
  rewrite from_code_pipeline_accepted by done.
  erewrite from_stage_missing_key by done.
  reflexivity.
Qed.

Lemma missing_target_key_fails_before_the_stage_witness :
  PipelineStack.__init__ sample_library mock_configuration mock_stage_contents []
    "Dev-PipelineStackForTests" DEV "main"
    {[ "account" := mock_account_id ]} mock_env
  = (inl (KeyError "region"),
     [] ++ [ ("Dev-PipelineStackForTests",
              PipelineStackNode
                {| stack_env := mock_env;
                   children :=
                     children_before_stage (mock_stack_object DEV) mock_env
                       (Some mock_source) |}) ]).
Proof.
  apply (missing_target_key_fails_before_the_stage sample_library
           mock_configuration mock_stage_contents []
           "Dev-PipelineStackForTests" DEV "main"
           {[ "account" := mock_account_id ]} mock_env
           mock_mappings "TestLake" "testlake" mock_deployment
           (PyStr "mock-github-repository") (PyStr "hernandj") "region");
    try reflexivity.
  apply not_elem_of_nil.
Defined.

(** ** Names and classes *)

(** X7: the names of the artifact bucket and of the pipeline are built
    from the target environment in lower case, while the class of the
    environment is decided on the target environment as it is written.
    Two compositions under one configuration whose target environments
    differ in case only declare buckets of the same name and pipelines of
    the same name, the name of the bucket being the name of the pipeline
    followed by [-artifact]; when the first target environment is PROD or
    TEST and the second is neither, the first bucket is retained and the
    second is destroyed with its stack. *)
Theorem names_fold_case_and_classes_do_not
    lib cfg stage_contents mappings logical_id_prefix resource_name_prefix
    deployment name owner
    scope1 construct_id1 target_environment1 target_branch1 target_aws_env1 env1
    account1 region1 stages1
    scope2 construct_id2 target_environment2 target_branch2 target_aws_env2 env2
    account2 region2 stages2 :
  construct_id1 ∉ scope1.*1 ->
  construct_id2 ∉ scope2.*1 ->
  Composable lib cfg stage_contents construct_id1 target_environment1
    target_branch1 target_aws_env1 env1 mappings logical_id_prefix
    resource_name_prefix deployment name owner account1 region1 stages1 ->
  Composable lib cfg stage_contents construct_id2 target_environment2
    target_branch2 target_aws_env2 env2 mappings logical_id_prefix
    resource_name_prefix deployment name owner account2 region2 stages2 ->
  lower target_environment1 = lower target_environment2 ->
  exists stack1 support1 stack2 support2 b1 b2 p1 p2,
    composes_to lib cfg stage_contents scope1 construct_id1 target_environment1
      target_branch1 target_aws_env1 env1 stack1 support1
    /\ composes_to lib cfg stage_contents scope2 construct_id2
         target_environment2 target_branch2 target_aws_env2 env2 stack2 support2
    /\ buckets stack1 = [ b1 ] /\ buckets stack2 = [ b2 ]
    /\ pipelines_of stack1 = [ p1 ] /\ pipelines_of stack2 = [ p2 ]
    /\ s3.bucket_name (s3.props b1.2) = s3.bucket_name (s3.props b2.2)
    /\ codepipeline.pipeline_name (codepipeline.props p1)
       = codepipeline.pipeline_name (codepipeline.props p2)
    /\ s3.bucket_name (s3.props b1.2)
       = codepipeline.pipeline_name (codepipeline.props p1) +:+ "-artifact"
    /\ (durable cfg target_environment1 ->
        ~ durable cfg target_environment2 ->
        s3.applied_removal_policy b1.2 = cdk.RETAIN
        /\ s3.applied_removal_policy b2.2 = cdk.DESTROY).
Proof.
  intros Hfree1 Hfree2 H1 H2 Hlower. do 8 eexists.
  split; [by eapply composable_composes|].
  split; [by eapply composable_composes|].
  split; [apply composed_buckets|]. split; [apply composed_buckets|].
  split; [apply composed_pipelines|]. split; [apply composed_pipelines|].
  cbn. rewrite Hlower. split; [done|]. split; [done|]. split.
  - by rewrite !append_assoc.
  - intros Hd1 Hd2. by rewrite decide_True, decide_False.
Qed.

(** The production environment written in lower case. *)
Lemma lower_case_composable :
  Composable sample_library mock_configuration mock_stage_contents
    "prod-PipelineStackForTests" "prod" "main"
    (target_aws_env mock_account_id mock_region) mock_env mock_mappings
    "TestLake" "testlake" mock_deployment (PyStr "mock-github-repository")
    (PyStr "hernandj") mock_account_id mock_region
    (mock_stages "prod" mock_account_id mock_region).
Proof.
  split; try reflexivity.
  - discriminate.
  - apply sample_has_projects.
  - apply (bool_decide_unpack _). vm_compute. exact I.
Qed.

Lemma names_fold_case_and_classes_do_not_witness :
  exists stack1 support1 stack2 support2 b1 b2 p1 p2,
    composes_to sample_library mock_configuration mock_stage_contents []
      "Prod-PipelineStackForTests" "Prod" "main"
      (target_aws_env mock_account_id mock_region) mock_env stack1 support1
    /\ composes_to sample_library mock_configuration mock_stage_contents []
         "prod-PipelineStackForTests" "prod" "main"
         (target_aws_env mock_account_id mock_region) mock_env stack2 support2
    /\ buckets stack1 = [ b1 ] /\ buckets stack2 = [ b2 ]
    /\ pipelines_of stack1 = [ p1 ] /\ pipelines_of stack2 = [ p2 ]
    /\ s3.bucket_name (s3.props b1.2) = s3.bucket_name (s3.props b2.2)
    /\ codepipeline.pipeline_name (codepipeline.props p1)
       = codepipeline.pipeline_name (codepipeline.props p2)
    /\ s3.bucket_name (s3.props b1.2)
       = codepipeline.pipeline_name (codepipeline.props p1) +:+ "-artifact"
    /\ s3.applied_removal_policy b1.2 = cdk.RETAIN
    /\ s3.applied_removal_policy b2.2 = cdk.DESTROY.
Proof.
  destruct (names_fold_case_and_classes_do_not sample_library mock_configuration
              mock_stage_contents mock_mappings "TestLake" "testlake"
              mock_deployment (PyStr "mock-github-repository") (PyStr "hernandj")
              [] "Prod-PipelineStackForTests" "Prod" "main"
              (target_aws_env mock_account_id mock_region) mock_env
              mock_account_id mock_region
              (mock_stages "Prod" mock_account_id mock_region)
              [] "prod-PipelineStackForTests" "prod" "main"
              (target_aws_env mock_account_id mock_region) mock_env
              mock_account_id mock_region
              (mock_stages "prod" mock_account_id mock_region))
    as (stack1 & support1 & stack2 & support2 & b1 & b2 & p1 & p2 & Hrun1 & Hrun2
        & Hb1 & Hb2 & Hp1 & Hp2 & Hbucket & Hpipeline & Hname & Hclass).
  - apply not_elem_of_nil.
  - apply not_elem_of_nil.
  - apply (mock_composable "Prod"). rewrite !elem_of_cons. auto.
  - exact lower_case_composable.
  - reflexivity.
  - exists stack1, support1, stack2, support2, b1, b2, p1, p2.
    repeat split; try done; apply Hclass; solve [by left | by intros [|]].
Defined.

(** ** The build options *)

(** X9: the defaults the stack hands to the library for the build projects
    of a composed pipeline ask for the standard 7.0 image, unprivileged,
    and for a role that may read the secrets below [/InsuranceLake/] in
    the account and the region of the pipeline stack itself, whatever the
    account and the region the stage deploys to, and that may assume the
    roles tagged for lookup, and no other. *)
Theorem build_options_name_the_pipeline_environment
    lib cfg stage_contents scope construct_id target_environment target_branch
    target_aws_env env mappings logical_id_prefix resource_name_prefix
    deployment name owner account region stages :
  construct_id ∉ scope.*1 ->
  Composable lib cfg stage_contents construct_id target_environment
    target_branch target_aws_env env mappings logical_id_prefix
    resource_name_prefix deployment name owner account region stages ->
  exists stack support cp,
    composes_to lib cfg stage_contents scope construct_id target_environment
      target_branch target_aws_env env stack support
    /\ code_pipelines_of stack = [ cp ]
    /\ pipelines.code_build_defaults (pipelines.props cp)
       = {| pipelines.build_environment :=
              {| codebuild.build_image := codebuild.STANDARD_7_0;
                 codebuild.privileged := false |};
            pipelines.role_policy :=
              [ {| iam.sid := Some "EtlPipelineSecretsManagerPolicy";
                   iam.effect := iam.ALLOW;
                   iam.actions := [ "secretsmanager:GetSecretValue" ];
                   iam.resources :=
                     [ "arn:aws:secretsmanager:" +:+ cdk.region env +:+ ":"
                         +:+ cdk.account env +:+ ":secret:/InsuranceLake/*" ];
                   iam.conditions := [] |};
                {| iam.sid := None;
                   iam.effect := iam.ALLOW;
                   iam.actions := [ "sts:AssumeRole" ];
                   iam.resources := [ "*" ];
                   iam.conditions :=
                     [ ("StringEquals",
                        [ ("iam:ResourceTag/aws-cdk:bootstrap-role",
                           "lookup") ]) ] |} ] |}.
Proof.
  intros Hfree H. do 3 eexists.
  split; [by eapply composable_composes|].
  split; [apply composed_code_pipelines|]. reflexivity.
Qed.

Lemma build_options_name_the_pipeline_environment_witness :
  exists stack support cp,
    composes_to sample_library mock_configuration mock_stage_contents []
      "Dev-PipelineStackForTests" "Dev" "main"
      (target_aws_env "devnotrealaccount" "dev-region") mock_env stack support
    /\ code_pipelines_of stack = [ cp ]
    /\ pipelines.code_build_defaults (pipelines.props cp)
       = {| pipelines.build_environment :=
              {| codebuild.build_image := codebuild.STANDARD_7_0;
                 codebuild.privileged := false |};
            pipelines.role_policy :=
              [ {| iam.sid := Some "EtlPipelineSecretsManagerPolicy";
                   iam.effect := iam.ALLOW;
                   iam.actions := [ "secretsmanager:GetSecretValue" ];
                   iam.resources :=
                     [ "arn:aws:secretsmanager:us-east-1:notrealaccountid:secret:/InsuranceLake/*" ];
                   iam.conditions := [] |};
                {| iam.sid := None;
                   iam.effect := iam.ALLOW;
                   iam.actions := [ "sts:AssumeRole" ];
                   iam.resources := [ "*" ];
                   iam.conditions :=
                     [ ("StringEquals",
                        [ ("iam:ResourceTag/aws-cdk:bootstrap-role",
                           "lookup") ]) ] |} ] |}.
Proof.
  eapply (build_options_name_the_pipeline_environment sample_library
            mock_configuration mock_stage_contents []
            "Dev-PipelineStackForTests" "Dev" "main").
  - apply not_elem_of_nil.
  - apply (mock_composable "Dev"). rewrite !elem_of_cons. auto.
Defined.

(** ** Any number of stacks in one App *)

(** One turn of the loop that composes the stacks of an App. *)
Record Request : Type := {
  request_id : string;
  request_environment : string;
  request_account : string;
  request_region : string;
}.

Definition request_call (r : Request) : string * string * gmap string string :=
  (request_id r, request_environment r,
   target_aws_env (request_account r) (request_region r)).

(** The identifiers of the pipeline stacks among the children of the App,
    in creation order. *)
Definition stack_ids (app : App) : list string :=
  omap (fun child : string * TopLevel =>
          match child.2 with
          | PipelineStackNode _ => Some child.1
          | _ => None
          end) app.

(** The identifiers of the support stacks among the children of the App. *)
Definition support_ids (app : App) : list string :=
  omap (fun child : string * TopLevel =>
          match child.2 with
          | PipelineStackNode _ => None
          | _ => Some child.1
          end) app.

(** The target regions that are not the region of the pipeline stacks,
    each once. *)
Definition foreign_regions (env : cdk.Environment) (requests : list Request)
    : list string :=
  remove_dups (filter (fun r => r ≠ cdk.region env) (request_region <$> requests)).

Lemma stack_ids_app app1 app2 : stack_ids (app1 ++ app2) = stack_ids app1 ++ stack_ids app2.
Proof. apply omap_app. Qed.

Lemma support_ids_app app1 app2 :
  support_ids (app1 ++ app2) = support_ids app1 ++ support_ids app2.
Proof. apply omap_app. Qed.

Lemma length_stack_support_ids app :
  length app = length (stack_ids app) + length (support_ids app).
Proof.
  induction app as [|[id []] app IH]; [done|..]; cbn;
    fold (stack_ids app); fold (support_ids app); lia.
Qed.

Section AnyNumber.

Variable lib : Library.
Variable cfg : Configuration.
Variable stage_contents : string -> PipelineDeployStage.Contents.
Variable target_branch : string.
Variable env : cdk.Environment.
Variable mappings : Mappings.
Variables logical_id_prefix resource_name_prefix : string.
Variable deployment : gmap string pyval.
Variables name owner : pyval.

(** The stages the library derives for the stack of a request. *)
Variable stages_of : Request -> list codepipeline.Stage.

(** The call for a request can return. *)
Definition accepted (r : Request) : Prop :=
  Accepted lib cfg stage_contents target_branch env mappings logical_id_prefix
    resource_name_prefix deployment name owner (request_id r)
    (request_environment r) (request_account r) (request_region r)
    (stages_of r).

Hypothesis Hlib : actions_follow_the_stage lib.

Lemma compose_all_from (requests : list Request) (app0 : App) :
  Forall accepted requests ->
  NoDup (request_id <$> requests) ->
  (forall c, c ∈ request_id <$> requests -> c ∉ app0.*1) ->
  (forall c r,
     c ∈ request_id <$> requests -> r ∈ request_region <$> requests ->
     r ≠ cdk.region env -> c ≠ support_id (cdk.account env) r) ->
  exists added,
    compose_all lib cfg stage_contents target_branch env
      (request_call <$> requests) app0
    = (inr tt, app0 ++ added)
    /\ stack_ids added = request_id <$> requests
    /\ NoDup (support_ids added)
    /\ (forall id,
          id ∈ support_ids added
          <-> (id ∉ app0.*1)
              /\ exists r, (r ∈ request_region <$> requests)
                           /\ r ≠ cdk.region env
                           /\ id = support_id (cdk.account env) r).
Proof.
  revert app0. induction requests as [|q rest IH];
    intros app0 Haccepted Hids Hfree Hsupport.
  { exists []. cbn. rewrite app_nil_r.
    split; [done|]. split; [done|]. split; [apply NoDup_nil_2|].
    intros id. split.
    - by intros ?%elem_of_nil.
    - intros (_ & r & ?%elem_of_nil & _). done. }
  apply Forall_cons in Haccepted as [Hq Haccepted].
  pose proof Hq as Hq'. unfold accepted in Hq'.
  destruct q as [c te a r]. cbn [request_id request_environment request_account
                                 request_region] in Hq'.
  set (q := {| request_id := c; request_environment := te;
               request_account := a; request_region := r |}) in *.
  cbn [fmap list_fmap request_id] in Hids.
  apply NoDup_cons in Hids as [Hc Hids].
  assert (c ∉ app0.*1) as Hc0 by (apply Hfree; cbn; apply elem_of_cons; by left).
  set (sup := composed_support app0 c env (stages_of q)).
  set (st := stack_of cfg stage_contents target_branch env mappings
               logical_id_prefix resource_name_prefix name owner te a r
               (stages_of q)).
  assert (sup = if decide (r = cdk.region env) then []
                else if decide (support_id (cdk.account env) r ∈ app0.*1 ++ [c])
                     then [] else [ support_stack env r ]) as Hcases.
  { unfold sup. by erewrite composed_support_cases. }
  assert (sup = []
          \/ (r ≠ cdk.region env
              /\ (support_id (cdk.account env) r ∉ app0.*1)
              /\ sup = [ support_stack env r ]))
    as Hsup.
  { rewrite Hcases.
    destruct (decide (r = cdk.region env)); [by left|].
    destruct (decide (_ ∈ app0.*1 ++ [c])) as [|Hnew]; [by left|].
    right. split; [done|]. split; [|done].
    intros Hin. apply Hnew, elem_of_app. by left. }
  destruct (IH (app0 ++ (c, PipelineStackNode st) :: sup))
    as (added & Hrun & Hstacks & Hnodup & Hadded).
  { exact Haccepted. }
  { exact Hids. }
  { intros c' Hc'. rewrite fmap_app, fmap_cons. cbn [fst].
    rewrite elem_of_app, elem_of_cons. intros [Hin|[->|Hin]].
    - revert Hin. apply Hfree. cbn. apply elem_of_cons. by right.
    - done.
    - destruct Hsup as [Hnil|(Hr & _ & Hone)].
      + rewrite Hnil in Hin. by apply elem_of_nil in Hin.
      + rewrite Hone in Hin. cbn in Hin.
        apply list_elem_of_singleton in Hin. revert Hin.
        apply Hsupport; cbn; [|apply elem_of_cons; by left|done].
        apply elem_of_cons. by right. }
  { intros c' r' Hc' Hr'. apply Hsupport; cbn; apply elem_of_cons; by right. }
  exists ((c, PipelineStackNode st) :: sup ++ added).
  assert (stack_ids sup = [] /\ support_ids sup = sup.*1) as [Hsup1 Hsup2].
  { destruct Hsup as [->|(_ & _ & ->)]; by split. }
  split; [|split; [|split]].
  - rewrite fmap_cons.
    change (request_call q) with (c, te, target_aws_env a r).
    erewrite compose_step by done.
    fold sup st. rewrite Hrun. by rewrite <- app_assoc.
  - change (stack_ids (?x :: ?l)) with (c :: stack_ids l).
    rewrite stack_ids_app, Hsup1, Hstacks. reflexivity.
  - change (support_ids (?x :: ?l)) with (support_ids l).
    rewrite support_ids_app, Hsup2. apply NoDup_app. split; [|split; [|done]].
    + destruct Hsup as [->|(_ & _ & ->)]; [apply NoDup_nil_2|apply NoDup_singleton].
    + intros id Hin Hin'. apply Hadded in Hin' as [Hnew _]. apply Hnew.
      rewrite fmap_app, fmap_cons, elem_of_app, elem_of_cons. by right; right.
  - intros id. change (support_ids (?x :: ?l)) with (support_ids l).
    rewrite support_ids_app, Hsup2, elem_of_app. split.
    + intros [Hin|Hin].
      * destruct Hsup as [Hnil|(Hr & Hnew & Hone)].
        -- rewrite Hnil in Hin. by apply elem_of_nil in Hin.
        -- rewrite Hone in Hin. cbn in Hin.
           apply list_elem_of_singleton in Hin as ->.
           split; [done|]. exists r. split; [cbn; apply elem_of_cons; by left|done].
      * apply Hadded in Hin as (Hnew & r' & Hr' & Hforeign & ->). split.
        -- intros Hin. apply Hnew. rewrite fmap_app, elem_of_app. by left.
        -- exists r'. split; [cbn; apply elem_of_cons; by right|done].
    + intros (Hnew & r' & Hr' & Hforeign & ->).
      destruct (decide (support_id (cdk.account env) r' ∈ sup.*1)) as [|Hnot];
        [by left|].
      right. apply Hadded. split.
      * rewrite fmap_app, fmap_cons, elem_of_app, elem_of_cons. cbn [fst].
        intros [?|[Heq|?]]; [done| |done].
        symmetry in Heq. revert Heq.
        apply Hsupport; [cbn; apply elem_of_cons; by left|exact Hr'|exact Hforeign].
      * exists r'. split; [|done].
        cbn in Hr'. apply elem_of_cons in Hr' as [->|Hr']; [|done].
        exfalso. apply Hnot.
        destruct Hsup as [Hnil|(_ & _ & ->)];
          [|cbn; apply elem_of_cons; by left].
        revert Hnil. rewrite Hcases.
        rewrite decide_False by done. rewrite decide_False; [done|].
        rewrite elem_of_app, list_elem_of_singleton. intros [?|Heq]; [done|].
        symmetry in Heq. revert Heq.
        apply Hsupport; cbn; [apply elem_of_cons; by left
                             |apply elem_of_cons; by left|done].
Qed.

End AnyNumber.


(** The stacks of the development, test and production environments, the
    first deployed to the region of the pipelines, the two others to one
    other region. *)
Definition two_stacks_in_one_foreign_region : list Request :=
  [ {| request_id := "Dev-PipelineStackForTests"; request_environment := "Dev";
       request_account := "devnotrealaccount"; request_region := "us-east-1" |};
    {| request_id := "Test-PipelineStackForTests"; request_environment := "Test";
       request_account := "testnotrealaccount"; request_region := "eu-west-1" |};
    {| request_id := "Prod-PipelineStackForTests"; request_environment := "Prod";
       request_account := "prodnotrealaccount"; request_region := "eu-west-1" |} ].

Definition mock_stages_of (r : Request) : list codepipeline.Stage :=
  mock_stages (request_environment r) (request_account r) (request_region r).


(** The App of the example has four children. *)
Example two_stacks_in_one_foreign_region_four_children :
  length two_stacks_in_one_foreign_region
  + length (foreign_regions mock_env two_stacks_in_one_foreign_region) = 4.
Proof. vm_compute. reflexivity. Qed.

(** ** Names the library refuses *)

(** X14: the artifact bucket is the first declaration of the stack, and
    its name is built from the target environment in lower case and from
    the resource name prefix as it is configured.  When the library
    refuses the bucket, [__init__] raises the error of the library; the
    stack is by then a child of the App and holds the bucket, and nothing
    else: the configuration is not looked at for the repository, and no
    pipeline is declared. *)
Theorem refused_bucket_stops_the_composition
    lib cfg stage_contents scope construct_id target_environment target_branch
    target_aws_env env mappings logical_id_prefix resource_name_prefix e :
  construct_id ∉ scope.*1 ->
  stack_refused lib construct_id env = None ->
  get_all_configurations cfg = inr mappings ->
  get_logical_id_prefix cfg = inr logical_id_prefix ->
  get_resource_name_prefix cfg = inr resource_name_prefix ->
  let self := attributes cfg mappings logical_id_prefix resource_name_prefix
                target_branch target_environment in
  bucket_refused lib
    (target_environment +:+ logical_id_prefix +:+ "EtlPipeline-Artifact")
    (bucket_props self) = Some e ->
  s3.bucket_name (bucket_props self)
  = lower target_environment +:+ "-" +:+ resource_name_prefix
      +:+ "-etl-pipeline-artifact"
  /\ PipelineStack.__init__ lib cfg stage_contents scope construct_id
       target_environment target_branch target_aws_env env
     = (inl e,
        scope
        ++ [ (construct_id,
              PipelineStackNode
                {| stack_env := env;
                   children :=
                     [ (target_environment +:+ logical_id_prefix
                          +:+ "EtlPipeline-Artifact",
                        Bucket (created_bucket self)) ] |}) ]).
Proof.
  intros Hfree Hstack Hm Hl Hr self Hbucket. split; [reflexivity|].
  rewrite (init_unfold _ _ _ _ _ _ _ _ _ mappings logical_id_prefix
             resource_name_prefix) by done.
  fold self.
  change target_environment with (PipelineStack.target_environment self) at 1.
  by erewrite create_environment_pipeline_bucket_refused by exact Hbucket.
Qed.

(** The configuration of the tests with the resource name prefix in upper
    and lower case. *)
Definition configuration_with_upper_case_prefix : Configuration :=
  {| PROD := "Prod";
     TEST := "Test";
     DEPLOYMENT := "Deploy";
     GITHUB_REPOSITORY_NAME := "github_repository_name";
     GITHUB_REPOSITORY_OWNER_NAME := "github_repository_owner_name";
     get_all_configurations := inr mock_mappings;
     get_logical_id_prefix := inr "TestLake";
     get_resource_name_prefix := inr "TestLake" |}.

Lemma refused_bucket_stops_the_composition_witness :
  let self :=
    attributes configuration_with_upper_case_prefix mock_mappings "TestLake"
      "TestLake" "main" DEV in
  s3.bucket_name (bucket_props self) = "dev-TestLake-etl-pipeline-artifact"
  /\ PipelineStack.__init__ sample_library configuration_with_upper_case_prefix
       mock_stage_contents [] "Dev-PipelineStackForTests" DEV "main"
       (target_aws_env mock_account_id mock_region) mock_env
     = (inl (JsiiError
               "Invalid S3 bucket name (value: dev-TestLake-etl-pipeline-artifact)"),
        [] ++ [ ("Dev-PipelineStackForTests",
                 PipelineStackNode
                   {| stack_env := mock_env;
                      children :=
                        [ ("DevTestLakeEtlPipeline-Artifact",
                           Bucket (created_bucket self)) ] |}) ]).
Proof.
  apply (refused_bucket_stops_the_composition sample_library
           configuration_with_upper_case_prefix mock_stage_contents []
           "Dev-PipelineStackForTests" DEV "main"
           (target_aws_env mock_account_id mock_region) mock_env
           mock_mappings "TestLake" "TestLake");
    try reflexivity.
  apply not_elem_of_nil.
Defined.

(** X15: the repository handed to [CodePipelineSource.connection] is the
    configured owner and name joined by a slash.  When the library refuses
    it, [get_codepipeline_source] raises the error of the library and so
    does [__init__]; the stack then holds the artifact bucket and the
    pipeline, and nothing else. *)
Theorem refused_repository_stops_the_composition
    lib cfg stage_contents scope construct_id target_environment target_branch
    target_aws_env env mappings logical_id_prefix resource_name_prefix
    deployment name owner e :
  construct_id ∉ scope.*1 ->
  stack_refused lib construct_id env = None ->
  get_all_configurations cfg = inr mappings ->
  get_logical_id_prefix cfg = inr logical_id_prefix ->
  get_resource_name_prefix cfg = inr resource_name_prefix ->
  let self := attributes cfg mappings logical_id_prefix resource_name_prefix
                target_branch target_environment in
  bucket_refused lib (bucket_id self) (bucket_props self) = None ->
  pipeline_refused lib (pipeline_id self) (pipeline_props self) = None ->
  mappings !! DEPLOYMENT cfg = Some deployment ->
  deployment !! GITHUB_REPOSITORY_NAME cfg = Some name ->
  truthy name = true ->
  deployment !! GITHUB_REPOSITORY_OWNER_NAME cfg = Some owner ->
  connection_refused lib
    {| pipelines.action_name := "Source";
       pipelines.repo_string := py_str owner +:+ "/" +:+ py_str name;
       pipelines.branch := target_branch;
       pipelines.connection_arn :=
         "arn:aws:codestar-connections:us-east-1:787127824249:connection/ac69c4b3-c806-4b73-9bb8-df7c3a9b6162" |}
  = Some e ->
  (forall w,
     PipelineStack.get_codepipeline_source lib cfg self w = (inl e, w))
  /\ PipelineStack.__init__ lib cfg stage_contents scope construct_id
       target_environment target_branch target_aws_env env
     = (inl e,
        scope
        ++ [ (construct_id,
              PipelineStackNode
                {| stack_env := env;
                   children := children_before_source self |}) ]).
Proof.
  intros Hfree Hstack Hm Hl Hr self Hbucket Hpipeline Hd Hn Ht Ho Hconnection.
  assert (forall w,
            PipelineStack.get_codepipeline_source lib cfg self w = (inl e, w))
    as Hsource.
  { intros w. erewrite get_codepipeline_source_checked by done.
    unfold connection_source. cbn [PipelineStack.target_branch self attributes].
    by rewrite Hconnection. }
  split; [exact Hsource|].
  rewrite (init_unfold _ _ _ _ _ _ _ _ _ mappings logical_id_prefix
             resource_name_prefix) by done.
  fold self.
  change target_environment with (PipelineStack.target_environment self) at 1.
  rewrite create_environment_pipeline_until_source by done.
  unfold from_source. by erewrite bind_raise by apply Hsource.
Qed.

(** The configuration of the tests with another repository owner. *)
Definition configuration_with_repository_owner (owner : pyval) : Configuration :=
  {| PROD := "Prod";
     TEST := "Test";
     DEPLOYMENT := "Deploy";
     GITHUB_REPOSITORY_NAME := "github_repository_name";
     GITHUB_REPOSITORY_OWNER_NAME := "github_repository_owner_name";
     get_all_configurations :=
       inr {[ "Deploy" :=
                {[ "github_repository_name" := PyStr "mock-github-repository";
                   "github_repository_owner_name" := owner ]} ]};
     get_logical_id_prefix := inr "TestLake";
     get_resource_name_prefix := inr "testlake" |}.

Lemma refused_repository_stops_the_composition_witness :
  let cfg := configuration_with_repository_owner (PyStr "") in
  let mappings : Mappings :=
    {[ "Deploy" :=
         {[ "github_repository_name" := PyStr "mock-github-repository";
            "github_repository_owner_name" := PyStr "" ]} ]} in
  let e :=
    JsiiError "CodeStar repository name should be a resolved string like '<owner>/<repo>', got '/mock-github-repository'" in
  (forall w,
     PipelineStack.get_codepipeline_source sample_library cfg
       (dev_stack_object cfg mappings) w = (inl e, w))
  /\ PipelineStack.__init__ sample_library cfg mock_stage_contents []
       "Dev-PipelineStackForTests" DEV "main"
       (target_aws_env mock_account_id mock_region) mock_env
     = (inl e,
        [] ++ [ ("Dev-PipelineStackForTests",
                 PipelineStackNode
                   {| stack_env := mock_env;
                      children :=
                        children_before_source
                          (dev_stack_object cfg mappings) |}) ]).
Proof.
  intros cfg mappings e.
  apply (refused_repository_stops_the_composition sample_library cfg
           mock_stage_contents [] "Dev-PipelineStackForTests" DEV "main"
           (target_aws_env mock_account_id mock_region) mock_env
           mappings "TestLake" "testlake"
           {[ "github_repository_name" := PyStr "mock-github-repository";
              "github_repository_owner_name" := PyStr "" ]}
           (PyStr "mock-github-repository") (PyStr ""));
    try reflexivity.
  apply not_elem_of_nil.
Defined.
